(** * Image-Extractor: the metadata normalisation and enrichment core

    A shallow embedding of the three core modules of the repository

    - [src/core/metadata_extractor.py] (value cleaning, derived fields, the
      fold of the device profile),
    - [src/core/gps_parser.py] (tier detection, coordinate decoding, DMS
      conversion, reverse geocoding with its cache),
    - [src/core/device_identifier.py] (make/model extraction, device-type
      classification, privacy assessment),

    together with the properties of the specification that concern them.

    Conventions of the embedding.

    - A Python value is a [pyval]; a [dict] is an association list in
      insertion order, because several loops of the source depend on that
      order.
    - A Python [float] is a primitive binary64 [float]; [int] is [Z].
    - A Python [str] is a [string] holding its UTF-8 bytes.  Character
      classes ([str.lower], [str.strip], [\s], [\d]) are the ASCII ones.
    - A function that can raise returns a [res]; [try]/[except] is a match
      on it.
    - What the source obtains from libraries whose behaviour is not fixed by
      the repository ([float(str)], [repr] of a float, [strptime], byte
      decoding, [re.search], the two geocoders) is a field of the class
      [PyLib] or an argument; theorems hold for every instance. *)

From Stdlib Require Import List String Ascii ZArith Bool Lia Sorted.
From Stdlib Require Import Floats.
From Stdlib Require DecimalString.
Import ListNotations.

Local Open Scope string_scope.
Local Open Scope Z_scope.

(** ** Python values *)

#[local] Set Warnings "-register-all".

Inductive pyval : Type :=
| PNone
| PBool (b : bool)
| PInt (n : Z)
| PFloat (x : float)
| PStr (s : string)
| PBytes (b : string)
| PList (l : list pyval)
| PTuple (l : list pyval)
| PDict (d : list (string * pyval))
| PFraction (num den : Z)
| PDatetime (text : string).

(** A [PFraction] need not be in lowest terms and may have denominator [0]:
    the tag readers build such ratios from the two integers of the file.
    A [PDatetime] is carried by its ['%Y-%m-%d %H:%M:%S'] rendering. *)

Definition dict := list (string * pyval).

Inductive exn : Type :=
| ZeroDivisionError
| TypeError
| ValueError
| OverflowError
| AttributeError
| UnicodeDecodeError
| OtherError.

Inductive res (A : Type) : Type :=
| Ok (a : A)
| Raise (e : exn).

Arguments Ok {A} a.
Arguments Raise {A} e.

Definition bind {A B} (m : res A) (f : A -> res B) : res B :=
  match m with
  | Ok a => f a
  | Raise e => Raise e
  end.

Notation "x <- m ;; k" := (bind m (fun x => k))
  (at level 61, m at next level, right associativity).

Notation "' pat <- m ;; k" := (bind m (fun x => match x with pat => k end))
  (at level 61, pat pattern, m at next level, right associativity).

(** [try: m except (e1, e2, ...): h] *)
Definition try_except {A} (m : res A) (catches : exn -> bool) (h : res A) : res A :=
  match m with
  | Ok a => Ok a
  | Raise e => if catches e then h else Raise e
  end.

Definition exn_eqb (a b : exn) : bool :=
  match a, b with
  | ZeroDivisionError, ZeroDivisionError
  | TypeError, TypeError
  | ValueError, ValueError
  | OverflowError, OverflowError
  | AttributeError, AttributeError
  | UnicodeDecodeError, UnicodeDecodeError
  | OtherError, OtherError => true
  | _, _ => false
  end.

Definition value_or_type_error (e : exn) : bool :=
  exn_eqb e ValueError || exn_eqb e TypeError.

Definition any_exception (e : exn) : bool := true.

(** ** Dictionaries *)

Module Dict.

Fixpoint get {A} (d : list (string * A)) (k : string) : option A :=
  match d with
  | [] => None
  | (k', v) :: d' => if String.eqb k k' then Some v else get d' k
  end.

Definition mem {A} (d : list (string * A)) (k : string) : bool :=
  match get d k with Some _ => true | None => false end.

(** [d[k] = v]: an existing key keeps its position. *)
Fixpoint set {A} (d : list (string * A)) (k : string) (v : A) : list (string * A) :=
  match d with
  | [] => [(k, v)]
  | (k', v') :: d' =>
      if String.eqb k k' then (k', v) :: d' else (k', v') :: set d' k v
  end.

(** [d.update(other)] *)
Definition update {A} (d other : list (string * A)) : list (string * A) :=
  fold_left (fun acc kv => set acc (fst kv) (snd kv)) other d.

Definition keys {A} (d : list (string * A)) : list string := map fst d.

End Dict.

(** ** Text *)

Module Str.

Definition chr (n : nat) : ascii := ascii_of_nat n.
Definition ord (c : ascii) : nat := nat_of_ascii c.

Definition is_upper (c : ascii) : bool := (65 <=? ord c)%nat && (ord c <=? 90)%nat.
Definition is_digit (c : ascii) : bool := (48 <=? ord c)%nat && (ord c <=? 57)%nat.

(** [str.isspace] on the ASCII range: TAB, LF, VT, FF, CR, FS, GS, RS, US
    and the space. *)
Definition is_space (c : ascii) : bool :=
  let n := ord c in
  ((9 <=? n)%nat && (n <=? 13)%nat) || ((28 <=? n)%nat && (n <=? 32)%nat).

Definition lower_char (c : ascii) : ascii :=
  if is_upper c then chr (ord c + 32) else c.

Fixpoint lower (s : string) : string :=
  match s with
  | EmptyString => EmptyString
  | String c s' => String (lower_char c) (lower s')
  end.

Fixpoint startswith (s p : string) : bool :=
  match p, s with
  | EmptyString, _ => true
  | String _ _, EmptyString => false
  | String a p', String b s' => Ascii.eqb a b && startswith s' p'
  end.

(** [needle in hay] *)
Fixpoint contains (needle hay : string) : bool :=
  startswith hay needle ||
  match hay with
  | EmptyString => false
  | String _ hay' => contains needle hay'
  end.

Fixpoint drop (n : nat) (s : string) : string :=
  match n, s with
  | O, _ => s
  | S n', String _ s' => drop n' s'
  | S _, EmptyString => EmptyString
  end.

Fixpoint rev_onto (s acc : string) : string :=
  match s with
  | EmptyString => acc
  | String c s' => rev_onto s' (String c acc)
  end.

Definition rev (s : string) : string := rev_onto s EmptyString.

Definition endswith (s p : string) : bool := startswith (rev s) (rev p).

Fixpoint lstrip_by (p : ascii -> bool) (s : string) : string :=
  match s with
  | String c s' => if p c then lstrip_by p s' else s
  | EmptyString => EmptyString
  end.

Definition strip_by (p : ascii -> bool) (s : string) : string :=
  rev (lstrip_by p (rev (lstrip_by p s))).

(** [s.strip()] and [s.strip('\x00')] *)
Definition strip (s : string) : string := strip_by is_space s.
Definition strip_nul (s : string) : string := strip_by (Ascii.eqb (chr 0)) s.

Fixpoint filter (p : ascii -> bool) (s : string) : string :=
  match s with
  | EmptyString => EmptyString
  | String c s' => if p c then String c (filter p s') else filter p s'
  end.

(** [s.replace(c, '')] for a one-character [c] *)
Definition remove_char (c : ascii) (s : string) : string :=
  filter (fun x => negb (Ascii.eqb x c)) s.

(** [re.sub(r'\s+', ' ', s)] *)
Fixpoint collapse_from (in_run : bool) (s : string) : string :=
  match s with
  | EmptyString => EmptyString
  | String c s' =>
      if is_space c
      then (if in_run then collapse_from true s'
            else String " "%char (collapse_from true s'))
      else String c (collapse_from false s')
  end.

Definition collapse_spaces (s : string) : string := collapse_from false s.

Fixpoint forallb (p : ascii -> bool) (s : string) : bool :=
  match s with
  | EmptyString => true
  | String c s' => p c && forallb p s'
  end.

(** [s.isdigit()] *)
Definition isdigit (s : string) : bool :=
  match s with
  | EmptyString => false
  | _ => forallb is_digit s
  end.

Fixpoint join (sep : string) (l : list string) : string :=
  match l with
  | [] => EmptyString
  | [x] => x
  | x :: l' => x ++ sep ++ join sep l'
  end.

Definition nonempty (s : string) : bool :=
  match s with EmptyString => false | _ => true end.

Definition of_Z (n : Z) : string :=
  DecimalString.NilZero.string_of_int (Z.to_int n).

Fixpoint digits_value (s : string) (acc : Z) : Z :=
  match s with
  | EmptyString => acc
  | String c s' => digits_value s' (10 * acc + Z.of_nat (ord c - 48))
  end.

Fixpoint repeat (c : ascii) (n : nat) : string :=
  match n with
  | O => EmptyString
  | S n' => String c (repeat c n')
  end.

(** zero-padded decimal of a natural number on at least [w] digits *)
Definition pad_left (w : nat) (s : string) : string :=
  repeat "0"%char (w - String.length s) ++ s.

Definition dquote : string := String (chr 34) EmptyString.

End Str.

(** ** Numbers

    Python's [float] is IEEE binary64 with round-to-nearest-even, which is
    what the primitive [float] computes.  Conversions between floats,
    integers and decimal text go through the exact rational value of the
    float. *)

Module Num.

(** The float nearest to [n / d] ([0 < d]), ties to even: the quotient is
    first computed on 66 bits or more with a sticky bit. *)
Definition of_ratio (n d : Z) : float :=
  if n =? 0 then zero
  else
    let a := Z.abs n in
    let k := Z.max 0 (66 + Z.log2 d - Z.log2 a) in
    let num := a * 2 ^ k in
    let q := num / d in
    let sticky := if num mod d =? 0 then 0 else 1 in
    let m := 2 * q + sticky in
    SF2Prim (binary_normalize prec emax (if n <? 0 then - m else m) (- k - 1) false).

(** The exact value [n / d] of a finite float. *)
Definition to_ratio (x : float) : option (Z * Z) :=
  match Prim2SF x with
  | S754_zero _ => Some (0, 1)
  | S754_finite s m e =>
      let n := if s then Zneg m else Zpos m in
      if 0 <=? e then Some (n * 2 ^ e, 1) else Some (n, 2 ^ (- e))
  | _ => None
  end.

Definition round_half_even (n d : Z) : Z :=
  let q := n / d in
  let r := n mod d in
  if 2 * r <? d then q
  else if d <? 2 * r then q + 1
  else if Z.even q then q else q + 1.

(** [float(n)] for an [int] *)
Definition of_int (n : Z) : res float :=
  let f := of_ratio n 1 in
  if is_infinity f then Raise OverflowError else Ok f.

(** [a / b] for two [int]s *)
Definition int_truediv (a b : Z) : res float :=
  if b =? 0 then Raise ZeroDivisionError
  else
    let f := if b <? 0 then of_ratio (- a) (- b) else of_ratio a b in
    if is_infinity f then Raise OverflowError else Ok f.

(** [x / y] for two [float]s *)
Definition truediv (x y : float) : res float :=
  if (y =? 0)%float then Raise ZeroDivisionError else Ok (x / y)%float.

(** [x / d] for a float and an [int]: [d] is converted to a float first.
    The test for zero is made on the integer, since an [int] other than
    [0] does not convert to [0.0]. *)
Definition div_int (x : float) (d : Z) : res float :=
  if d =? 0 then Raise ZeroDivisionError
  else y <- of_int d ;; Ok (x / y)%float.

(** [int(x)] *)
Definition to_int (x : float) : res Z :=
  match Prim2SF x with
  | S754_nan => Raise ValueError
  | S754_infinity _ => Raise OverflowError
  | _ => match to_ratio x with
         | Some (n, d) => Ok (Z.quot n d)
         | None => Raise ValueError
         end
  end.

(** [round(x)] *)
Definition round (x : float) : res Z :=
  match Prim2SF x with
  | S754_nan => Raise ValueError
  | S754_infinity _ => Raise OverflowError
  | _ => match to_ratio x with
         | Some (n, d) => Ok (round_half_even n d)
         | None => Raise ValueError
         end
  end.

(** [round(x, nd)] *)
Definition round_to (nd : nat) (x : float) : float :=
  match to_ratio x with
  | None => x
  | Some (n, d) =>
      let p := 10 ^ Z.of_nat nd in
      let q := round_half_even (n * p) d in
      if q =? 0 then (if get_sign x then neg_zero else zero)
      else of_ratio q p
  end.

(** [f"{x:.<nd>f}"] for a float, [0 < nd] *)
Definition format_fixed (nd : nat) (x : float) : string :=
  match Prim2SF x with
  | S754_nan => "nan"
  | S754_infinity s => if s then "-inf" else "inf"
  | _ =>
      match to_ratio x with
      | None => "nan"
      | Some (n, d) =>
          let p := 10 ^ Z.of_nat nd in
          let q := round_half_even (Z.abs n * p) d in
          (if get_sign x then "-" else "") ++
          Str.of_Z (q / p) ++ "." ++ Str.pad_left nd (Str.of_Z (q mod p))
      end
  end.

End Num.

(** ** Library behaviour taken as given *)

Class PyLib : Type := {
  (** [float(s)] for text; [None] is [ValueError] *)
  float_of_str : string -> option float;
  (** [int(s)] for text; [None] is [ValueError] *)
  int_of_str : string -> option Z;
  (** [repr] of a float, as [str()] and f-strings print it *)
  str_of_float : float -> string;
  (** [str()] of a container, bytes, fraction or datetime *)
  str_of_other : pyval -> string;
  (** [strptime(s, fmt).strftime('%Y-%m-%d %H:%M:%S')]; [None] is [ValueError] *)
  strptime_reformat : string -> string -> option string;
  (** [b.decode(codec)]; [None] is [UnicodeDecodeError] *)
  decode : string -> string -> option string
}.

Section Builtins.

Context {lib : PyLib}.

(** [bool(v)] *)
Definition truthy (v : pyval) : bool :=
  match v with
  | PNone => false
  | PBool b => b
  | PInt n => negb (n =? 0)
  | PFloat x => negb (x =? 0)%float
  | PStr s => Str.nonempty s
  | PBytes b => Str.nonempty b
  | PList l | PTuple l => match l with [] => false | _ => true end
  | PDict d => match d with [] => false | _ => true end
  | PFraction n _ => negb (n =? 0)
  | PDatetime _ => true
  end.

(** [isinstance(v, (int, float))]; a [bool] is an [int]. *)
Definition is_number (v : pyval) : bool :=
  match v with
  | PBool _ | PInt _ | PFloat _ => true
  | _ => false
  end.

(** [isinstance(v, int)] *)
Definition is_int (v : pyval) : bool :=
  match v with
  | PBool _ | PInt _ => true
  | _ => false
  end.

Definition int_of_bool (b : bool) : Z := if b then 1 else 0.

(** [str(v)] *)
Definition py_str (v : pyval) : string :=
  match v with
  | PNone => "None"
  | PBool b => if b then "True" else "False"
  | PInt n => Str.of_Z n
  | PFloat x => str_of_float x
  | PStr s => s
  | _ => str_of_other v
  end.

(** [float(v)] *)
Definition py_float (v : pyval) : res float :=
  match v with
  | PBool b => Num.of_int (int_of_bool b)
  | PInt n => Num.of_int n
  | PFloat x => Ok x
  | PStr s | PBytes s =>
      match float_of_str s with
      | Some x => Ok x
      | None => Raise ValueError
      end
  | PFraction n d => Num.int_truediv n d
  | _ => Raise TypeError
  end.

(** [int(v)] *)
Definition py_int (v : pyval) : res Z :=
  match v with
  | PBool b => Ok (int_of_bool b)
  | PInt n => Ok n
  | PFloat x => Num.to_int x
  | PStr s | PBytes s =>
      match int_of_str s with
      | Some n => Ok n
      | None => Raise ValueError
      end
  | PFraction n d => if d =? 0 then Raise ZeroDivisionError else Ok (Z.quot n d)
  | _ => Raise TypeError
  end.

(** [v == k] for an integer literal [k] *)
Definition eq_int (v : pyval) (k : Z) : bool :=
  match v with
  | PBool b => int_of_bool b =? k
  | PInt n => n =? k
  | PFloat x => match Num.of_int k with Ok y => (x =? y)%float | Raise _ => false end
  | PFraction n d => (n =? k) && (d =? 1)
  | _ => false
  end.

(** [f"{v:.6f}"]: an [int] is converted to a float first. *)
Definition format_f (nd : nat) (v : pyval) : res string :=
  match v with
  | PBool b => x <- Num.of_int (int_of_bool b) ;; Ok (Num.format_fixed nd x)
  | PInt n => x <- Num.of_int n ;; Ok (Num.format_fixed nd x)
  | PFloat x => Ok (Num.format_fixed nd x)
  | PNone | PList _ | PTuple _ | PDict _ | PBytes _ => Raise TypeError
  | _ => Raise ValueError
  end.

(** [metadata[key]] is present and true: [key in metadata and metadata[key]] *)
Definition present_true (md : dict) (k : string) : option pyval :=
  match Dict.get md k with
  | Some v => if truthy v then Some v else None
  | None => None
  end.

(** The first alias with a true value:
    [for key in keys: if key in metadata and metadata[key]: ... break] *)
Fixpoint first_true (md : dict) (keys : list string) : option pyval :=
  match keys with
  | [] => None
  | k :: keys' =>
      match present_true md k with
      | Some v => Some v
      | None => first_true md keys'
      end
  end.

(** [value < 1] and [1 / value] for a number *)
Definition below_one (value : pyval) : bool :=
  match value with
  | PBool b => int_of_bool b <? 1
  | PInt n => n <? 1
  | PFloat x => (x <? 1)%float
  | _ => false
  end.

Definition reciprocal (value : pyval) : res float :=
  match value with
  | PBool b => Num.int_truediv 1 (int_of_bool b)
  | PInt n => Num.int_truediv 1 n
  | PFloat x => Num.truediv 1 x
  | _ => Raise TypeError
  end.

(** The exposure time of a number, written the same way in
    [_add_derived_metadata] and in [_extract_camera_settings]:
    [if value < 1: denominator = round(1 / value); f"1/{denominator}s"],
    [else: f"{value}s"]. *)
Definition exposure_time_text (value : pyval) : res string :=
  if below_one value then
    r <- reciprocal value ;;
    denominator <- Num.round r ;;
    Ok ("1/" ++ Str.of_Z denominator ++ "s")
  else Ok (py_str value ++ "s").

(** [v == s] and [v in [s1, s2, ...]] for string literals *)
Definition eq_str (v : pyval) (s : string) : bool :=
  match v with
  | PStr s' => String.eqb s' s
  | _ => false
  end.

Definition in_strs (v : pyval) (l : list string) : bool := existsb (eq_str v) l.

(** [any(k in metadata for k in keys)] *)
Definition any_key (md : dict) (keys : list string) : bool :=
  existsb (Dict.mem md) keys.

(** [any(w in text for w in words)] *)
Definition any_in (words : list string) (text : string) : bool :=
  existsb (fun w => Str.contains w text) words.

End Builtins.

(** ** Regular expressions

    The patterns of the source use literals, character classes, greedy
    [?], [*] and [+], capturing groups and [\b].  [search] is the usual
    backtracking matcher: leftmost start, greedy repetition, first
    alternative first. *)

Module Re.

Inductive regex : Type :=
| Eps
| Chr (p : ascii -> bool)
| Lit (s : string)
| Seq (r1 r2 : regex)
| Alt (r1 r2 : regex)
| Star (r : regex)
| Group (i : nat) (r : regex)
| WordBoundary.

Definition Opt (r : regex) : regex := Alt r Eps.
Definition Plus (r : regex) : regex := Seq r (Star r).
Definition Char (c : ascii) : regex := Chr (Ascii.eqb c).

Fixpoint seq (l : list regex) : regex :=
  match l with
  | [] => Eps
  | [r] => r
  | r :: l' => Seq r (seq l')
  end.

Definition captures := list (nat * string).

Fixpoint group (caps : captures) (i : nat) : option string :=
  match caps with
  | [] => None
  | (j, s) :: caps' => if Nat.eqb i j then Some s else group caps' i
  end.

Fixpoint take (n : nat) (s : string) : string :=
  match n, s with
  | S n', String c s' => String c (take n' s')
  | _, _ => EmptyString
  end.

Definition is_word (c : ascii) : bool :=
  let n := Str.ord c in
  Str.is_digit c || ((65 <=? n)%nat && (n <=? 90)%nat) ||
  ((97 <=? n)%nat && (n <=? 122)%nat) || (n =? 95)%nat.

Definition word_before (prev : option ascii) : bool :=
  match prev with Some c => is_word c | None => false end.

Definition word_after (s : string) : bool :=
  match s with String c _ => is_word c | EmptyString => false end.

Definition last_char (prev : option ascii) (s : string) : option ascii :=
  match Str.rev s with
  | String c _ => Some c
  | EmptyString => prev
  end.

(** [exec r prev s caps k]: match [r] at the front of [s] ([prev] is the
    character before it) and hand what is left to [k]. *)
Fixpoint exec (r : regex) (prev : option ascii) (s : string) (caps : captures)
    (k : option ascii -> string -> captures -> option captures) : option captures :=
  match r with
  | Eps => k prev s caps
  | Chr p =>
      match s with
      | String c s' => if p c then k (Some c) s' caps else None
      | EmptyString => None
      end
  | Lit l =>
      if Str.startswith s l
      then k (last_char prev l) (Str.drop (String.length l) s) caps
      else None
  | Seq r1 r2 =>
      exec r1 prev s caps (fun prev' s' caps' => exec r2 prev' s' caps' k)
  | Alt r1 r2 =>
      match exec r1 prev s caps k with
      | Some c => Some c
      | None => exec r2 prev s caps k
      end
  | Star r1 =>
      (fix loop (n : nat) (prev : option ascii) (s : string) (caps : captures)
         : option captures :=
         match n with
         | O => k prev s caps
         | S n' =>
             match exec r1 prev s caps
                     (fun prev' s' caps' =>
                        if (String.length s' <? String.length s)%nat
                        then loop n' prev' s' caps' else None) with
             | Some c => Some c
             | None => k prev s caps
             end
         end) (String.length s) prev s caps
  | Group i r1 =>
      exec r1 prev s caps
        (fun prev' s' caps' =>
           k prev' s' ((i, take (String.length s - String.length s') s) :: caps'))
  | WordBoundary =>
      if xorb (word_before prev) (word_after s) then k prev s caps else None
  end.

Definition match_here (r : regex) (prev : option ascii) (s : string) : option captures :=
  exec r prev s [] (fun _ _ caps => Some caps).

Fixpoint search_from (r : regex) (prev : option ascii) (s : string) : option captures :=
  match match_here r prev s with
  | Some c => Some c
  | None =>
      match s with
      | String c s' => search_from r (Some c) s'
      | EmptyString => None
      end
  end.

(** [re.search(r, s)] *)
Definition search (r : regex) (s : string) : option captures := search_from r None s.

(** Character classes of the patterns *)
Definition d : regex := Chr Str.is_digit.
Definition ws : regex := Star (Chr Str.is_space).
Definition one_of (cs : string) : regex :=
  Chr (fun c => Str.contains (String c EmptyString) cs).

(** [m.group(i)] of a group that took part in the match *)
Definition group_text (caps : captures) (i : nat) : string :=
  match group caps i with Some s => s | None => "" end.

End Re.

(** * Device identifier ([device_identifier.py]) *)

Module DeviceIdentifier.
Section WithLib.

Context {lib : PyLib}.

(** [_clean_device_string] *)
Definition _clean_device_string (text : string) : string :=
  if negb (Str.nonempty text) then ""
  else
    let text := Str.strip (Str.remove_char (Str.chr 0) text) in
    let text := Str.filter (fun c => (32 <=? Str.ord c)%nat || (Str.ord c =? 9)%nat) text in
    Str.collapse_spaces text.

Definition make_keys : list string :=
  ["Make"; "make"; "EXIF:Make"; "IFD0:Make"; "Image Make";
   "Manufacturer"; "CameraManufacturer"; "DeviceManufacturer";
   "EXIF:Manufacturer"; "XMP:Manufacturer"; "IPTC:Manufacturer"].

Definition model_keys : list string :=
  ["Model"; "model"; "EXIF:Model"; "IFD0:Model"; "Image Model";
   "CameraModel"; "DeviceModel"; "EXIF:CameraModel";
   "XMP:Model"; "IPTC:Model"].

(** An [Optional[str]] is true when it is a non-empty string. *)
Definition some_text (s : option string) : bool :=
  match s with
  | Some t => Str.nonempty t
  | None => false
  end.

Definition text_or_empty (s : option string) : string :=
  match s with
  | Some t => t
  | None => ""
  end.

(** [_extract_make_model] *)
Definition _extract_make_model (md : dict) : option string * option string :=
  let make := option_map (fun v => Str.strip (py_str v)) (first_true md make_keys) in
  let model := option_map (fun v => Str.strip (py_str v)) (first_true md model_keys) in
  let make := if some_text make
              then Some (_clean_device_string (text_or_empty make)) else make in
  let model :=
    if some_text model then
      let m := _clean_device_string (text_or_empty model) in
      if some_text make &&
         Str.startswith (Str.lower m) (Str.lower (text_or_empty make))
      then Some (Str.strip (Str.drop (String.length (text_or_empty make)) m))
      else Some m
    else model in
  (make, model).

Definition smartphone_manufacturers : list string :=
  ["apple"; "iphone"; "samsung"; "huawei"; "xiaomi"; "google"; "pixel";
   "oneplus"; "oppo"; "vivo"; "motorola"; "lg"; "htc"; "nokia"; "asus";
   "lenovo"; "zte"; "realme"; "honor"; "poco"].

Definition tablet_indicators : list string :=
  ["ipad"; "tab"; "tablet"; "pad"; "galaxy tab"].

Definition camera_manufacturers : list string :=
  ["canon"; "nikon"; "sony"; "fuji"; "fujifilm"; "olympus"; "panasonic";
   "pentax"; "leica"; "hasselblad"; "kodak"; "sigma"; "ricoh"].

Definition drone_manufacturers : list string :=
  ["dji"; "parrot"; "autel"; "skydio"; "yuneec"].

Definition action_camera_indicators : list string :=
  ["gopro"; "hero"; "action"; "insta360"].

Definition lens_indicators : list string :=
  ["Lens"; "LensModel"; "LensInfo"; "LensSerialNumber"].

(** [_identify_device_type]; the result [PNone] is Python's [None]. *)
Definition _identify_device_type
    (make model : option string) (md : dict) : pyval :=
  match Dict.get md "DeviceType" with
  | Some v => v
  | None =>
    if negb (some_text make) && negb (some_text model) then PNone
    else
      let make_lower := if some_text make then Str.lower (text_or_empty make) else "" in
      let model_lower := if some_text model then Str.lower (text_or_empty model) else "" in
      if any_in smartphone_manufacturers make_lower then
        if any_in tablet_indicators model_lower
        then PStr "Tablet" else PStr "Smartphone"
      else if any_in camera_manufacturers make_lower then PStr "Camera"
      else if any_in drone_manufacturers make_lower then PStr "Drone"
      else if existsb (fun i => Str.contains i make_lower || Str.contains i model_lower)
                      action_camera_indicators
      then PStr "Action Camera"
      else if Str.nonempty model_lower && any_in ["phone"; "smartphone"] model_lower
      then PStr "Smartphone"
      else if Str.nonempty model_lower && any_in ["camera"; "dslr"; "mirrorless"] model_lower
      then PStr "Camera"
      else if Str.nonempty model_lower && any_in ["drone"] model_lower
      then PStr "Drone"
      else if any_key md lens_indicators then PStr "Camera"
      else if (Dict.mem md "FocalLength" || Dict.mem md "FNumber") &&
              (Dict.mem md "ISO" && Dict.mem md "ExposureTime")
      then PStr "Camera"
      else if some_text make || some_text model then PStr "Digital Camera"
      else PNone
  end.

(** [_extract_software] *)
Definition software_aliases : list string :=
  ["Software"; "software"; "EXIF:Software"; "IFD0:Software"; "Image Software";
   "ProcessingSoftware"; "CreatorTool"; "XMP:CreatorTool"; "XMP:Software";
   "IPTC:ProcessingSoftware"].

Definition _extract_software (md : dict) : option string :=
  option_map (fun v => _clean_device_string (Str.strip (py_str v)))
             (first_true md software_aliases).

(** [for key in keys: if key in metadata and metadata[key]:
       info[target] = self._clean_device_string(str(metadata[key]).strip()); break] *)
Definition copy_cleaned (md : dict) (keys : list string) (target : string) (info : dict) : dict :=
  match first_true md keys with
  | Some v => Dict.set info target (PStr (_clean_device_string (Str.strip (py_str v))))
  | None => info
  end.

Definition lens_manufacturers : list (string * string) :=
  [("canon", "Canon"); ("ef-s", "Canon"); ("ef-m", "Canon"); ("ef", "Canon");
   ("rf", "Canon"); ("nikkor", "Nikon"); ("nikon", "Nikon"); ("sony", "Sony");
   ("zeiss", "Zeiss"); ("leica", "Leica"); ("sigma", "Sigma"); ("tamron", "Tamron");
   ("tokina", "Tokina"); ("samyang", "Samyang"); ("rokinon", "Rokinon");
   ("voigtlander", "Voigtlander"); ("olympus", "Olympus"); ("zuiko", "Olympus");
   ("panasonic", "Panasonic"); ("lumix", "Panasonic"); ("fuji", "Fujifilm");
   ("fujinon", "Fujifilm"); ("fujifilm", "Fujifilm"); ("pentax", "Pentax");
   ("hasselblad", "Hasselblad"); ("schneider", "Schneider"); ("mamiya", "Mamiya");
   ("meyer", "Meyer-Optik"); ("laowa", "Laowa"); ("venus", "Venus Optics");
   ("irix", "Irix"); ("ttartisan", "TTArtisan"); ("7artisans", "7Artisans")].

(** [_extract_lens_make_from_model] *)
Definition _extract_lens_make_from_model (lens_model : string) : option string :=
  if negb (Str.nonempty lens_model) then None
  else
    let lens_model_lower := Str.lower lens_model in
    (fix scan (l : list (string * string)) : option string :=
       match l with
       | [] => None
       | (key, manufacturer) :: l' =>
           if Str.startswith lens_model_lower key then Some manufacturer
           else if Str.contains key lens_model_lower &&
                   match Re.search (Re.seq [Re.WordBoundary; Re.Lit key; Re.WordBoundary])
                                   lens_model_lower with
                   | Some _ => true
                   | None => false
                   end
           then Some manufacturer
           else scan l'
       end) lens_manufacturers.

Definition lens_model_keys : list string :=
  ["LensModel"; "Lens"; "EXIF:LensModel"; "MakerNotes:LensModel";
   "XMP:LensModel"; "Lens Model"; "Lens Info"; "LensInfo"].
Definition lens_make_keys : list string :=
  ["LensMake"; "EXIF:LensMake"; "MakerNotes:LensMake"; "XMP:LensMake"; "Lens Make"].
Definition lens_serial_keys : list string :=
  ["LensSerialNumber"; "EXIF:LensSerialNumber"; "MakerNotes:LensSerialNumber";
   "XMP:LensSerialNumber"; "Lens Serial Number"].
Definition lens_spec_keys : list string :=
  ["LensSpecification"; "EXIF:LensSpecification"; "MakerNotes:LensSpecification";
   "XMP:LensSpecification"; "Lens Specification"].

(** The lens-specification block: four floats and their summary. *)
Definition lens_specification (lens_spec : pyval) (info : dict) : res dict :=
  match lens_spec with
  | PList (a :: b :: c :: e :: _) | PTuple (a :: b :: c :: e :: _) =>
      try_except
        (min_focal_length <- py_float a ;;
         max_focal_length <- py_float b ;;
         min_aperture <- py_float c ;;
         max_aperture <- py_float e ;;
         let info := Dict.set info "MinFocalLength" (PFloat min_focal_length) in
         let info := Dict.set info "MaxFocalLength" (PFloat max_focal_length) in
         let info := Dict.set info "MinAperture" (PFloat min_aperture) in
         let info := Dict.set info "MaxAperture" (PFloat max_aperture) in
         let focal_length_str :=
           if (min_focal_length =? max_focal_length)%float
           then str_of_float min_focal_length ++ "mm"
           else str_of_float min_focal_length ++ "-" ++ str_of_float max_focal_length ++ "mm" in
         let aperture_str :=
           if (min_aperture =? max_aperture)%float
           then "f/" ++ str_of_float min_aperture
           else "f/" ++ str_of_float min_aperture ++ "-" ++ str_of_float max_aperture in
         Ok (Dict.set info "LensSpecification" (PStr (focal_length_str ++ " " ++ aperture_str))))
        value_or_type_error (Ok info)
  | _ => Ok info
  end.

Definition text_of (v : option pyval) : string :=
  match v with Some (PStr s) => s | _ => "" end.

(** [_extract_lens_info] *)
Definition _extract_lens_info (md : dict) : res dict :=
  let info := copy_cleaned md lens_model_keys "LensModel" [] in
  let info := copy_cleaned md lens_make_keys "LensMake" info in
  let info := copy_cleaned md lens_serial_keys "LensSerialNumber" info in
  info <- match first_true md lens_spec_keys with
          | Some lens_spec => lens_specification lens_spec info
          | None => Ok info
          end ;;
  let info :=
    if Dict.mem info "LensModel" && negb (Dict.mem info "LensMake") then
      match _extract_lens_make_from_model (text_of (Dict.get info "LensModel")) with
      | Some lens_make =>
          if Str.nonempty lens_make then Dict.set info "LensMake" (PStr lens_make) else info
      | None => info
      end
    else info in
  Ok (if Dict.mem info "LensMake" && Dict.mem info "LensModel"
      then Dict.set info "Lens"
             (PStr (text_of (Dict.get info "LensMake") ++ " " ++
                    text_of (Dict.get info "LensModel")))
      else if Dict.mem info "LensModel"
      then Dict.set info "Lens" (PStr (text_of (Dict.get info "LensModel")))
      else info).

Definition exposure_programs : list (Z * string) :=
  [(0, "Not Defined"); (1, "Manual"); (2, "Program AE"); (3, "Aperture Priority");
   (4, "Shutter Priority"); (5, "Creative (Slow Speed)"); (6, "Action (High Speed)");
   (7, "Portrait"); (8, "Landscape"); (9, "Bulb")].

Definition scene_types : list (Z * string) :=
  [(0, "Standard"); (1, "Landscape"); (2, "Portrait"); (3, "Night");
   (4, "Night Portrait"); (5, "Backlight"); (6, "Backlight Portrait"); (7, "Macro");
   (8, "Sports"); (9, "Action"); (10, "Fireworks"); (11, "Children"); (12, "Pets")].

(** [table.get(n, f"Unknown ({n})")] *)
Fixpoint code_name (table : list (Z * string)) (n : Z) : string :=
  match table with
  | [] => "Unknown (" ++ Str.of_Z n ++ ")"
  | (k, name) :: table' => if k =? n then name else code_name table' n
  end.

(** [isinstance(v, (int, str)) and str(v).isdigit()], then [int(v)] *)
Definition digit_code (v : pyval) : option Z :=
  match v with
  | PBool _ | PInt _ | PStr _ =>
      if Str.isdigit (py_str v) then Some (Str.digits_value (py_str v) 0) else None
  | _ => None
  end.

Definition decode_mode (key : string) (suffix : string) (table : list (Z * string))
    (mode : pyval) : pyval :=
  if Str.endswith key suffix then
    match digit_code mode with
    | Some n => PStr (code_name table n)
    | None => mode
    end
  else mode.

Definition mode_keys : list string :=
  ["ExposureMode"; "ExposureProgram"; "SceneCaptureType";
   "EXIF:ExposureMode"; "EXIF:ExposureProgram"; "EXIF:SceneCaptureType";
   "MakerNotes:ExposureMode"; "XMP:ExposureMode"].

Fixpoint shooting_mode (md : dict) (keys : list string) (info : dict) : dict :=
  match keys with
  | [] => info
  | key :: keys' =>
      match Dict.get md key with
      | Some PNone | None => shooting_mode md keys' info
      | Some mode =>
          let mode := decode_mode key "ExposureProgram" exposure_programs mode in
          let mode := decode_mode key "SceneCaptureType" scene_types mode in
          Dict.set info "ShootingMode" (PStr (py_str mode))
      end
  end.

(** The pattern of a dotted version number: digits, then any number of
    groups made of a dot and digits; the whole is group 1. *)
Definition version_pattern : Re.regex :=
  Re.Group 1 (Re.Seq (Re.Plus Re.d)
                     (Re.Star (Re.Seq (Re.Char ".") (Re.Plus Re.d)))).

Definition os_keys : list string :=
  ["OSVersion"; "OperatingSystem"; "Software"; "XMP:OSVersion"; "XMP:OperatingSystem"].

Definition os_information (md : dict) (info : dict) : dict :=
  match first_true md os_keys with
  | None => info
  | Some v =>
      let os_version := Str.strip (py_str v) in
      let with_version (name : string) :=
        let info := Dict.set info "OperatingSystem" (PStr name) in
        match Re.search version_pattern os_version with
        | Some caps => Dict.set info "OSVersion" (PStr (Re.group_text caps 1))
        | None => info
        end in
      if Str.contains "iOS" os_version || Str.contains "iPhone OS" os_version
      then with_version "iOS"
      else if Str.contains "Android" os_version
      then with_version "Android"
      else Dict.set info "OSVersion" (PStr (_clean_device_string os_version))
  end.

(** [_extract_additional_device_info] *)
Definition _extract_additional_device_info (md : dict) (device_type : pyval) : dict :=
  let info :=
    copy_cleaned md ["SerialNumber"; "CameraSerialNumber"; "BodySerialNumber";
                     "EXIF:SerialNumber"; "MakerNotes:SerialNumber";
                     "XMP:SerialNumber"; "Camera Serial Number"]
                 "DeviceSerialNumber" [] in
  let info :=
    copy_cleaned md ["FirmwareVersion"; "Firmware"; "EXIF:FirmwareVersion";
                     "MakerNotes:FirmwareVersion"; "XMP:FirmwareVersion"]
                 "FirmwareVersion" info in
  let info :=
    copy_cleaned md ["OwnerName"; "CameraOwnerName"; "EXIF:OwnerName";
                     "MakerNotes:OwnerName"; "XMP:OwnerName"; "Owner"]
                 "OwnerName" info in
  let info :=
    if in_strs device_type ["Camera"; "Digital Camera"; "Action Camera"]
    then shooting_mode md mode_keys info else info in
  if in_strs device_type ["Smartphone"; "Tablet"]
  then os_information md info else info.

(** The device database is a document loaded at start-up; it is not part
    of the sources.  [db_empty] says that the loaded document is empty,
    [db_search] is the three-tier search of [_lookup_device_in_database]
    over it, already formatted by [_format_db_device_info]. *)
Class DeviceDb : Type := {
  db_empty : bool;
  db_search : string -> string -> pyval -> res dict
}.

Context {db : DeviceDb}.

(** [_lookup_device_in_database] *)
Definition _lookup_device_in_database
    (make model : option string) (device_type : pyval) : res dict :=
  if negb (some_text make) || negb (some_text model) || db_empty then Ok []
  else db_search (text_or_empty make) (text_or_empty model) device_type.

Definition known_manufacturers : list (string * string) :=
  [("apple", "Apple"); ("samsung", "Samsung"); ("huawei", "Huawei");
   ("xiaomi", "Xiaomi"); ("google", "Google"); ("oneplus", "OnePlus");
   ("oppo", "OPPO"); ("vivo", "Vivo"); ("motorola", "Motorola"); ("lg", "LG");
   ("sony", "Sony"); ("htc", "HTC"); ("nokia", "Nokia"); ("asus", "ASUS");
   ("lenovo", "Lenovo"); ("zte", "ZTE"); ("canon", "Canon"); ("nikon", "Nikon");
   ("fuji", "Fujifilm"); ("fujifilm", "Fujifilm"); ("olympus", "Olympus");
   ("panasonic", "Panasonic"); ("pentax", "Pentax"); ("leica", "Leica");
   ("hasselblad", "Hasselblad"); ("kodak", "Kodak"); ("sigma", "Sigma");
   ("ricoh", "Ricoh"); ("gopro", "GoPro"); ("dji", "DJI")].

(** [_normalize_manufacturer] *)
Definition _normalize_manufacturer (make : string) : string :=
  if negb (Str.nonempty make) then make
  else
    let make_lower := Str.lower make in
    (fix scan (l : list (string * string)) : string :=
       match l with
       | [] => make
       | (key, normalized) :: l' =>
           if String.eqb key make_lower || Str.startswith make_lower key
           then normalized else scan l'
       end) known_manufacturers.

(** [for key, value in db_info.items(): if key not in device_info: ...] *)
Definition add_missing (info extra : dict) : dict :=
  fold_left (fun acc kv => if Dict.mem acc (fst kv) then acc
                           else Dict.set acc (fst kv) (snd kv)) extra info.

Definition nonempty_dict (d : dict) : bool :=
  match d with [] => false | _ => true end.

(** [identify_device]: an exception of a later step returns what has been
    collected so far. *)
Definition identify_device (md : dict) : dict :=
  let '(make, model) := _extract_make_model md in
  let software := _extract_software md in
  let info : dict := [] in
  let info := if some_text make then Dict.set info "DeviceMake" (PStr (text_or_empty make)) else info in
  let info := if some_text model then Dict.set info "DeviceModel" (PStr (text_or_empty model)) else info in
  let info := if some_text software then Dict.set info "Software" (PStr (text_or_empty software)) else info in
  let device_type := _identify_device_type make model md in
  let info := if truthy device_type then Dict.set info "DeviceType" device_type else info in
  match (if eq_str device_type "Camera" then _extract_lens_info md else Ok []) with
  | Raise _ => info
  | Ok lens_info =>
    let info := Dict.update info lens_info in
    let info := Dict.update info (_extract_additional_device_info md device_type) in
    match _lookup_device_in_database make model device_type with
    | Raise _ => info
    | Ok db_info =>
      let info := add_missing info db_info in
      let info :=
        if some_text make && negb (Dict.mem info "Manufacturer") then
          let normalized_make := _normalize_manufacturer (text_or_empty make) in
          if String.eqb normalized_make (text_or_empty make) then info
          else Dict.set info "Manufacturer" (PStr normalized_make)
        else info in
      if some_text make && some_text model && negb (Dict.mem info "DeviceName")
      then Dict.set info "DeviceName"
             (PStr (text_or_empty make ++ " " ++ text_or_empty model))
      else info
    end
  end.

(** ** Camera settings *)

Definition setting_keys : list (string * string) :=
  [("FNumber", "Aperture"); ("ApertureValue", "Aperture");
   ("FocalLength", "FocalLength"); ("FocalLengthIn35mmFormat", "FocalLength35mm");
   ("ExposureTime", "ExposureTime"); ("ShutterSpeedValue", "ShutterSpeed");
   ("ISOSpeedRatings", "ISO"); ("ISO", "ISO"); ("WhiteBalance", "WhiteBalance");
   ("MeteringMode", "MeteringMode"); ("ExposureProgram", "ExposureProgram");
   ("ExposureMode", "ExposureMode"); ("ExposureCompensation", "ExposureCompensation");
   ("Flash", "Flash"); ("FlashMode", "FlashMode"); ("FocusMode", "FocusMode");
   ("DigitalZoomRatio", "DigitalZoom")].

Definition setting_aliases (exif_key : string) : list string :=
  [exif_key; "EXIF:" ++ exif_key; "MakerNotes:" ++ exif_key;
   "XMP:" ++ exif_key; "Image " ++ exif_key].

(** The first alias whose value is not [None] *)
Fixpoint first_not_none (md : dict) (keys : list string) : option pyval :=
  match keys with
  | [] => None
  | k :: keys' =>
      match Dict.get md k with
      | Some PNone | None => first_not_none md keys'
      | Some v => Some v
      end
  end.

Definition setting_value (setting_name : string) (value : pyval) : res pyval :=
  if String.eqb setting_name "Aperture" && is_number value
  then Ok (PStr ("f/" ++ py_str value))
  else if String.eqb setting_name "FocalLength" && is_number value
  then Ok (PStr (py_str value ++ "mm"))
  else if String.eqb setting_name "ExposureTime" && is_number value
  then t <- exposure_time_text value ;; Ok (PStr t)
  else Ok value.

Fixpoint collect_settings (md : dict) (keys : list (string * string)) (settings : dict)
    : res dict :=
  match keys with
  | [] => Ok settings
  | (exif_key, setting_name) :: keys' =>
      match first_not_none md (setting_aliases exif_key) with
      | Some value =>
          v <- setting_value setting_name value ;;
          collect_settings md keys' (Dict.set settings setting_name v)
      | None => collect_settings md keys' settings
      end
  end.

Definition flash_descriptions : list (Z * string) :=
  [(0, "No Flash"); (1, "Flash Fired"); (5, "Flash Fired, Return not detected");
   (7, "Flash Fired, Return detected"); (8, "On, Flash did not fire");
   (9, "Flash Fired, Compulsory mode");
   (13, "Flash Fired, Compulsory mode, Return not detected");
   (15, "Flash Fired, Compulsory mode, Return detected");
   (16, "Off, Flash did not fire");
   (24, "Off, Flash did not fire, Return not detected");
   (25, "Flash Fired, Auto mode");
   (29, "Flash Fired, Auto mode, Return not detected");
   (31, "Flash Fired, Auto mode, Return detected"); (32, "No flash function");
   (65, "Flash Fired, Red-eye reduction");
   (69, "Flash Fired, Red-eye reduction, Return not detected");
   (71, "Flash Fired, Red-eye reduction, Return detected");
   (73, "Flash Fired, Compulsory mode, Red-eye reduction");
   (77, "Flash Fired, Compulsory mode, Red-eye reduction, Return not detected");
   (79, "Flash Fired, Compulsory mode, Red-eye reduction, Return detected");
   (89, "Flash Fired, Auto mode, Red-eye reduction");
   (93, "Flash Fired, Auto mode, Red-eye reduction, Return not detected");
   (95, "Flash Fired, Auto mode, Red-eye reduction, Return detected")].

Definition metering_modes : list (Z * string) :=
  [(0, "Unknown"); (1, "Average"); (2, "Center-weighted average"); (3, "Spot");
   (4, "Multi-spot"); (5, "Pattern"); (6, "Partial"); (255, "Other")].

Definition wb_modes : list (Z * string) := [(0, "Auto"); (1, "Manual")].

(** [isinstance(v, int) or (isinstance(v, str) and v.isdigit())], then [int(v)] *)
Definition setting_code (v : pyval) : option Z :=
  match v with
  | PBool b => Some (int_of_bool b)
  | PInt n => Some n
  | PStr s => if Str.isdigit s then Some (Str.digits_value s 0) else None
  | _ => None
  end.

Definition decode_setting (name : string) (table : list (Z * string)) (settings : dict) : dict :=
  match Dict.get settings name with
  | Some v =>
      match setting_code v with
      | Some n => Dict.set settings name (PStr (code_name table n))
      | None => settings
      end
  | None => settings
  end.

(** [_extract_camera_settings] *)
Definition _extract_camera_settings (md : dict) : res dict :=
  settings <- collect_settings md setting_keys [] ;;
  Ok (decode_setting "WhiteBalance" wb_modes
       (decode_setting "MeteringMode" metering_modes
         (decode_setting "Flash" flash_descriptions settings))).

(** ** Privacy assessment *)

Inductive risk : Type := Low | Medium | High.

Definition risk_rank (r : risk) : nat :=
  match r with Low => 0 | Medium => 1 | High => 2 end.

Definition risk_le (a b : risk) : Prop := (risk_rank a <= risk_rank b)%nat.

Definition risk_name (r : risk) : string :=
  match r with Low => "Low" | Medium => "Medium" | High => "High" end.

Definition is_high (r : risk) : bool :=
  match r with High => true | _ => false end.

(** The [assessment] dictionary under construction, with the local list
    [sensitive_fields]. *)
Record assessment : Type := {
  PrivacyRisk : risk;
  SensitiveDataPresent : bool;
  Recommendations : list string;
  sensitive_fields : list string
}.

Definition initial_assessment : assessment :=
  {| PrivacyRisk := Low; SensitiveDataPresent := false;
     Recommendations := []; sensitive_fields := [] |}.

Definition gps_keys : list string :=
  ["GPS:GPSLatitude"; "GPS:GPSLongitude"; "GPSLatitude"; "GPSLongitude";
   "Latitude"; "Longitude"].
Definition serial_keys : list string :=
  ["SerialNumber"; "CameraSerialNumber"; "BodySerialNumber"; "LensSerialNumber"].
Definition owner_keys : list string :=
  ["OwnerName"; "CameraOwnerName"; "Artist"; "Author"; "Creator"; "By-line"].
Definition device_id_keys : list string := ["DeviceID"; "UniqueID"; "IMEI"; "UUID"].
Definition timestamp_keys : list string :=
  ["DateTimeOriginal"; "CreateDate"; "ModifyDate"; "DateCreated"].
Definition software_keys : list string :=
  ["Software"; "ProcessingSoftware"; "CreatorTool"].

(** [key in metadata and metadata[key] is not None] *)
Definition present_not_none (md : dict) (k : string) : bool :=
  match Dict.get md k with
  | Some PNone | None => false
  | Some _ => true
  end.

Definition has_gps (md : dict) : bool := existsb (present_not_none md) gps_keys.

Definition has_true (md : dict) (keys : list string) : bool :=
  match first_true md keys with Some _ => true | None => false end.

Definition has_device_id (md : dict) : bool :=
  existsb (fun kv => any_in device_id_keys (fst kv) && truthy (snd kv)) md.

(** A detection that raises the risk to [High]. *)
Definition flag_high (label rec : string) (a : assessment) : assessment :=
  {| PrivacyRisk := High; SensitiveDataPresent := true;
     Recommendations := Recommendations a ++ [rec];
     sensitive_fields := sensitive_fields a ++ [label] |}.

(** A detection that raises the risk to [Medium] unless it is [High]. *)
Definition flag_medium (label rec : string) (a : assessment) : assessment :=
  {| PrivacyRisk := if is_high (PrivacyRisk a) then PrivacyRisk a else Medium;
     SensitiveDataPresent := true;
     Recommendations := Recommendations a ++ [rec];
     sensitive_fields := sensitive_fields a ++ [label] |}.

(** A detection that is low risk on its own. *)
Definition flag_low (label rec : string) (a : assessment) : assessment :=
  {| PrivacyRisk := if SensitiveDataPresent a then PrivacyRisk a else Low;
     SensitiveDataPresent := true;
     Recommendations := Recommendations a ++ [rec];
     sensitive_fields := sensitive_fields a ++ [label] |}.

Definition check_gps (md : dict) (a : assessment) : assessment :=
  if has_gps md
  then flag_high "GPS Location" "Remove GPS data to protect location privacy" a
  else a.

Definition check_serial (md : dict) (a : assessment) : assessment :=
  if has_true md serial_keys
  then flag_medium "Serial Number" "Remove serial numbers to prevent device tracking" a
  else a.

Definition check_owner (md : dict) (a : assessment) : assessment :=
  if has_true md owner_keys
  then flag_medium "Owner/Author Information"
                   "Remove owner/author information for anonymity" a
  else a.

Definition check_device_id (md : dict) (device_type : pyval) (a : assessment) : assessment :=
  if in_strs device_type ["Smartphone"; "Tablet"] && has_device_id md
  then flag_medium "Device Identifier" "Remove unique device identifiers" a
  else a.

Definition check_timestamp (md : dict) (a : assessment) : assessment :=
  if has_true md timestamp_keys
  then flag_low "Timestamp"
                "Consider removing timestamps if time information is sensitive" a
  else a.

Definition check_software (md : dict) (a : assessment) : assessment :=
  if has_true md software_keys
  then flag_low "Software Information"
                "Consider removing software information to hide workflow details" a
  else a.

(** The six checks of one pass, in the order of the source. *)
Definition checks (md : dict) (device_type : pyval) : list (assessment -> assessment) :=
  [check_gps md; check_serial md; check_owner md;
   check_device_id md device_type; check_timestamp md; check_software md].

(** The states of the pass: the initial one, then one after each check. *)
Fixpoint run (cs : list (assessment -> assessment)) (a : assessment) : list assessment :=
  match cs with
  | [] => [a]
  | c :: cs' => a :: run cs' (c a)
  end.

Definition pass (md : dict) (device_type : pyval) : assessment :=
  fold_left (fun a c => c a) (checks md device_type) initial_assessment.

(** [_assess_privacy_implications]: the dictionary that is returned. *)
Definition _assess_privacy_implications (md : dict) (device_type : pyval) : dict :=
  let a := pass md device_type in
  let base := [("PrivacyRisk", PStr (risk_name (PrivacyRisk a)));
               ("SensitiveDataPresent", PBool (SensitiveDataPresent a))] in
  if SensitiveDataPresent a then
    (base ++
     [("Recommendations",
       PList (map PStr (Recommendations a ++
                ["Use metadata cleaning tools before sharing images publicly"])));
      ("SensitiveFields", PList (map PStr (sensitive_fields a)))])%list
  else
    (base ++
     [("Recommendations",
       PList (map PStr (Recommendations a ++ ["No sensitive metadata detected"])))])%list.

End WithLib.
End DeviceIdentifier.

(** * GPS parser ([gps_parser.py]) *)

Module GPSParser.
Section WithLib.

Context {lib : PyLib}.

Definition exif_gps_tags : list string :=
  ["GPS:GPSLatitude"; "GPS:GPSLongitude"; "GPSLatitude"; "GPSLongitude";
   "GPS:Latitude"; "GPS:Longitude"; "GPS GPSLatitude"; "GPS GPSLongitude";
   "EXIF:GPSLatitude"; "EXIF:GPSLongitude"].

Definition xmp_gps_tags : list string :=
  ["XMP:GPSLatitude"; "XMP:GPSLongitude"; "XMP:Latitude"; "XMP:Longitude";
   "XMP-exif:GPSLatitude"; "XMP-exif:GPSLongitude"].

Definition iptc_location_tags : list string :=
  ["IPTC:City"; "IPTC:Province-State"; "IPTC:Country";
   "IPTC:Sub-location"; "IPTC:LocationCode"; "IPTC:LocationName"].

Definition _has_exif_gps_tags (md : dict) : bool := any_key md exif_gps_tags.
Definition _has_xmp_gps_tags (md : dict) : bool := any_key md xmp_gps_tags.
Definition _has_iptc_location_tags (md : dict) : bool := any_key md iptc_location_tags.

(** ** The patterns *)

Definition degree_sign : Re.regex := Re.Lit "°".
Definition minute_mark : Re.regex := Re.Opt (Re.Alt (Re.Char "'") (Re.Lit "′")).
Definition second_mark : Re.regex := Re.Opt (Re.Alt (Re.Char "034") (Re.Lit "″")).
Definition digits : Re.regex := Re.Plus Re.d.
Definition decimal_number : Re.regex :=
  Re.Seq digits (Re.Opt (Re.Seq (Re.Char ".") digits)).
Definition signed_decimal : Re.regex :=
  Re.seq [Re.Opt (Re.Char "-"); digits; Re.Char "."; digits].

(** One angle, groups [i] to [i + 3]: degrees, minutes, seconds, letter. *)
Definition dms_angle (i : nat) (letters : string) : Re.regex :=
  Re.seq [Re.Group i digits; degree_sign; Re.ws;
          Re.Group (i + 1) digits; minute_mark; Re.ws;
          Re.Group (i + 2) decimal_number; second_mark; Re.ws;
          Re.Group (i + 3) (Re.one_of letters)].

Definition dms_pattern : Re.regex := dms_angle 1 "NSEW".

Definition simple_pattern : Re.regex :=
  Re.seq [Re.Group 1 decimal_number; degree_sign; Re.ws; Re.Group 2 (Re.one_of "NSEW")].

Definition decimal_pattern : Re.regex :=
  Re.seq [Re.Group 1 signed_decimal; Re.ws; Re.Char ","; Re.ws; Re.Group 2 signed_decimal].

Definition dms_pair_pattern : Re.regex :=
  Re.seq [dms_angle 1 "NS"; Re.ws; Re.Char ","; Re.ws; dms_angle 5 "EW"].

(** ** Conversions *)

(** [float(s)] where the source lets [ValueError] escape *)
Definition parse_float (s : string) : res float :=
  match float_of_str s with
  | Some x => Ok x
  | None => Raise ValueError
  end.

(** [degrees + (minutes / 60.0) + (seconds / 3600.0)] with two [int]s and
    a float *)
Definition dms_sum (degrees minutes : Z) (seconds : float) : res float :=
  m <- Num.of_int minutes ;;
  d <- Num.of_int degrees ;;
  Ok (d + m / 60 + seconds / 3600)%float.

Definition southern (direction : string) : bool :=
  String.eqb direction "S" || String.eqb direction "W".

(** [dms_to_decimal] *)
Definition dms_to_decimal (dms_str : string) : res float :=
  match Re.search dms_pattern dms_str with
  | Some m =>
      let degrees := Str.digits_value (Re.group_text m 1) 0 in
      let minutes := Str.digits_value (Re.group_text m 2) 0 in
      seconds <- parse_float (Re.group_text m 3) ;;
      decimal <- dms_sum degrees minutes seconds ;;
      Ok (if southern (Re.group_text m 4) then (- decimal)%float else decimal)
  | None =>
      match Re.search simple_pattern dms_str with
      | Some m =>
          degrees <- parse_float (Re.group_text m 1) ;;
          Ok (if southern (Re.group_text m 2) then (- degrees)%float else degrees)
      | None => parse_float dms_str
      end
  end.

(** [decimal_to_dms] *)
Definition decimal_to_dms (coord : pyval) (coord_type : string) : res string :=
  let letters := if String.eqb (Str.lower coord_type) "lat" then ("N", "S") else ("E", "W") in
  let render (degrees minutes : Z) (seconds : float) (nonneg : bool) : string :=
    Str.of_Z degrees ++ "° " ++ Str.of_Z minutes ++ "' " ++
    Num.format_fixed 2 seconds ++ Str.dquote ++ " " ++
    (if nonneg then fst letters else snd letters) in
  match coord with
  | PFloat x =>
      let nonneg := (0 <=? x)%float in
      let coord := abs x in
      degrees <- Num.to_int coord ;;
      d <- Num.of_int degrees ;;
      let minutes_float := ((coord - d) * 60)%float in
      minutes <- Num.to_int minutes_float ;;
      m <- Num.of_int minutes ;;
      let seconds := ((minutes_float - m) * 60)%float in
      Ok (render degrees minutes seconds nonneg)
  | PInt n => Ok (render (Z.abs n) 0 0%float (0 <=? n))
  | PBool b => Ok (render (int_of_bool b) 0 0%float true)
  | _ => Raise TypeError
  end.

(** [float(value[0]) + float(value[1]) / 60.0 + float(value[2]) / 3600.0] *)
Definition dms_of_parts (a b c : pyval) : res float :=
  degrees <- py_float a ;;
  minutes <- py_float b ;;
  seconds <- py_float c ;;
  Ok (degrees + minutes / 60 + seconds / 3600)%float.

(** What one value of a coordinate key decodes to; [None] lets the loop go
    on to the next key. *)
Definition coordinate_of_value (value : pyval) : res (option float) :=
  match value with
  | PBool _ | PInt _ | PFloat _ => x <- py_float value ;; Ok (Some x)
  | PStr s =>
      match float_of_str s with
      | Some x => Ok (Some x)
      | None =>
          match dms_to_decimal s with
          | Ok x => Ok (Some x)
          | Raise _ => Ok None
          end
      end
  | PList [a; b; c] | PTuple [a; b; c] =>
      try_except (x <- dms_of_parts a b c ;; Ok (Some x)) value_or_type_error (Ok None)
  | PDict d =>
      match Dict.get d "degrees", Dict.get d "minutes", Dict.get d "seconds" with
      | Some a, Some b, Some c =>
          try_except (x <- dms_of_parts a b c ;; Ok (Some x)) value_or_type_error (Ok None)
      | _, _, _ => Ok None
      end
  | _ => Ok None
  end.

(** [_extract_gps_coordinate] *)
Fixpoint _extract_gps_coordinate (md : dict) (possible_keys : list string)
    : res (option float) :=
  match possible_keys with
  | [] => Ok None
  | key :: keys' =>
      match Dict.get md key with
      | Some value =>
          r <- coordinate_of_value value ;;
          match r with
          | Some x => Ok (Some x)
          | None => _extract_gps_coordinate md keys'
          end
      | None => _extract_gps_coordinate md keys'
      end
  end.

Definition one_of_texts (s : string) (l : list string) : bool :=
  existsb (String.eqb s) l.

(** A reference letter, as text or as ASCII bytes *)
Definition letter_of (value : pyval) (allowed : list string) : option string :=
  match value with
  | PStr s => if one_of_texts s allowed then Some s else None
  | PBytes b =>
      if Str.nonempty b then
        match decode "ascii" b with
        | Some t => if one_of_texts (Str.strip t) allowed then Some (Str.strip t) else None
        | None => None
        end
      else None
  | _ => None
  end.

(** [_extract_gps_ref] *)
Fixpoint _extract_gps_ref (md : dict) (possible_keys : list string) (default : string)
    : string :=
  match possible_keys with
  | [] => default
  | key :: keys' =>
      match Dict.get md key with
      | Some value =>
          match letter_of value ["N"; "S"; "E"; "W"] with
          | Some r => r
          | None => _extract_gps_ref md keys' default
          end
      | None => _extract_gps_ref md keys' default
      end
  end.

(** A measure that is a number, numeric text or a fraction; [strip_m] is
    the [replace('m', '').strip()] of the altitude. *)
Definition measure_of_value (strip_m : bool) (value : pyval) : res (option float) :=
  match value with
  | PBool _ | PInt _ | PFloat _ => x <- py_float value ;; Ok (Some x)
  | PStr s =>
      Ok (float_of_str (if strip_m then Str.strip (Str.remove_char "m" s) else s))
  | PFraction n d =>
      match (x <- Num.of_int n ;; y <- Num.of_int d ;; Num.truediv x y) with
      | Ok q => Ok (Some q)
      | Raise _ => Ok None
      end
  | _ => Ok None
  end.

Fixpoint first_measure (strip_m : bool) (md : dict) (keys : list string)
    : res (option float) :=
  match keys with
  | [] => Ok None
  | key :: keys' =>
      match Dict.get md key with
      | Some value =>
          r <- measure_of_value strip_m value ;;
          match r with
          | Some x => Ok (Some x)
          | None => first_measure strip_m md keys'
          end
      | None => first_measure strip_m md keys'
      end
  end.

Definition altitude_keys : list string :=
  ["GPS:GPSAltitude"; "GPSAltitude"; "GPS GPSAltitude"; "EXIF:GPSAltitude"].
Definition altitude_ref_keys : list string :=
  ["GPS:GPSAltitudeRef"; "GPSAltitudeRef"; "GPS GPSAltitudeRef"; "EXIF:GPSAltitudeRef"].

(** [value in [k, 'k', b'k']] *)
Definition is_code (k : Z) (value : pyval) : bool :=
  eq_int value k ||
  match value with
  | PStr s | PBytes s => String.eqb s (Str.of_Z k)
  | _ => false
  end.

Fixpoint altitude_ref (md : dict) (keys : list string) : Z :=
  match keys with
  | [] => 0
  | key :: keys' =>
      match Dict.get md key with
      | Some value =>
          if is_code 0 value then 0
          else if is_code 1 value then 1
          else altitude_ref md keys'
      | None => altitude_ref md keys'
      end
  end.

(** [_extract_gps_altitude] *)
Definition _extract_gps_altitude (md : dict) : res (option float) :=
  altitude <- first_measure true md altitude_keys ;;
  match altitude with
  | None => Ok None
  | Some a =>
      Ok (Some (if altitude_ref md altitude_ref_keys =? 0 then a else (- a)%float))
  end.

(** [f"{n:02d}"] *)
Definition format_02d (n : Z) : string :=
  if n <? 0 then "-" ++ Str.pad_left 1 (Str.of_Z (- n)) else Str.pad_left 2 (Str.of_Z n).

(** The time stamp [HH:MM:SS] of a three-element list *)
Definition time_of_parts (a b c : pyval) : res string :=
  hours <- py_int a ;;
  minutes <- py_int b ;;
  seconds <- (if is_int c then py_int c else x <- py_float c ;; Num.to_int x) ;;
  Ok (format_02d hours ++ ":" ++ format_02d minutes ++ ":" ++ format_02d seconds).

Fixpoint gps_timestamp (md : dict) (keys : list string) (gps_info : dict) : res dict :=
  match keys with
  | [] => Ok gps_info
  | key :: keys' =>
      match Dict.get md key with
      | Some (PStr s) => Ok (Dict.set gps_info "GPSTimeStamp" (PStr s))
      | Some (PList [a; b; c]) =>
          r <- try_except (t <- time_of_parts a b c ;; Ok (Some t))
                          value_or_type_error (Ok None) ;;
          match r with
          | Some t => Ok (Dict.set gps_info "GPSTimeStamp" (PStr t))
          | None => gps_timestamp md keys' gps_info
          end
      | _ => gps_timestamp md keys' gps_info
      end
  end.

Fixpoint gps_datestamp (md : dict) (keys : list string) (gps_info : dict) : dict :=
  match keys with
  | [] => gps_info
  | key :: keys' =>
      match Dict.get md key with
      | Some (PStr s) => Dict.set gps_info "GPSDateStamp" (PStr s)
      | _ => gps_datestamp md keys' gps_info
      end
  end.

Definition gps_measure (md : dict) (keys : list string) (target : string) (gps_info : dict)
    : res dict :=
  r <- first_measure false md keys ;;
  match r with
  | Some x => Ok (Dict.set gps_info target (PFloat x))
  | None => Ok gps_info
  end.

Definition speed_unit (letter : string) : string :=
  if String.eqb letter "K" then "km/h"
  else if String.eqb letter "M" then "mph"
  else if String.eqb letter "N" then "knots"
  else letter.

Fixpoint gps_speed_ref (md : dict) (keys : list string) (gps_info : dict) : dict :=
  match keys with
  | [] => gps_info
  | key :: keys' =>
      match Dict.get md key with
      | Some value =>
          match letter_of value ["K"; "M"; "N"] with
          | Some l => Dict.set gps_info "GPSSpeedRef" (PStr (speed_unit l))
          | None => gps_speed_ref md keys' gps_info
          end
      | None => gps_speed_ref md keys' gps_info
      end
  end.

Definition exif_aliases (name : string) : list string :=
  ["GPS:" ++ name; name; "GPS " ++ name; "EXIF:" ++ name].

(** [_extract_additional_gps_info] *)
Definition _extract_additional_gps_info (md : dict) (gps_info : dict) : res dict :=
  gps_info <- gps_timestamp md (exif_aliases "GPSTimeStamp") gps_info ;;
  let gps_info := gps_datestamp md (exif_aliases "GPSDateStamp") gps_info in
  gps_info <- gps_measure md (exif_aliases "GPSImgDirection") "GPSDirection" gps_info ;;
  gps_info <- gps_measure md (exif_aliases "GPSSpeed") "GPSSpeed" gps_info ;;
  Ok (gps_speed_ref md (exif_aliases "GPSSpeedRef") gps_info).

Definition set_float (d : dict) (k : string) (x : option float) : dict :=
  match x with
  | Some x => Dict.set d k (PFloat x)
  | None => d
  end.

(** [_parse_exif_gps] *)
Definition _parse_exif_gps (md : dict) : res dict :=
  lat <- _extract_gps_coordinate md (exif_aliases "GPSLatitude") ;;
  lon <- _extract_gps_coordinate md (exif_aliases "GPSLongitude") ;;
  let lat_ref := _extract_gps_ref md (exif_aliases "GPSLatitudeRef") "N" in
  let lon_ref := _extract_gps_ref md (exif_aliases "GPSLongitudeRef") "E" in
  let lat := option_map (fun x => if String.eqb lat_ref "N" then x else (- x)%float) lat in
  let lon := option_map (fun x => if String.eqb lon_ref "E" then x else (- x)%float) lon in
  let gps_info := set_float (set_float [] "Latitude" lat) "Longitude" lon in
  alt <- _extract_gps_altitude md ;;
  _extract_additional_gps_info md (set_float gps_info "Altitude" alt).

(** The altitude loop of [_parse_xmp_gps] *)
Fixpoint xmp_altitude (md : dict) (keys : list string) : res (option float) :=
  match keys with
  | [] => Ok None
  | key :: keys' =>
      match Dict.get md key with
      | Some (PStr s) =>
          match float_of_str (Str.strip (Str.remove_char "m" s)) with
          | Some x => Ok (Some x)
          | None => xmp_altitude md keys'
          end
      | Some value =>
          if is_number value then x <- py_float value ;; Ok (Some x)
          else xmp_altitude md keys'
      | None => xmp_altitude md keys'
      end
  end.

(** [_parse_xmp_gps] *)
Definition _parse_xmp_gps (md : dict) : res dict :=
  lat <- _extract_gps_coordinate md ["XMP:GPSLatitude"; "XMP:Latitude"; "XMP-exif:GPSLatitude"] ;;
  lon <- _extract_gps_coordinate md ["XMP:GPSLongitude"; "XMP:Longitude"; "XMP-exif:GPSLongitude"] ;;
  let gps_info := set_float (set_float [] "Latitude" lat) "Longitude" lon in
  alt <- xmp_altitude md ["XMP:GPSAltitude"; "XMP:Altitude"; "XMP-exif:GPSAltitude"] ;;
  Ok (set_float gps_info "Altitude" alt).

(** One component of the IPTC location: the value and the key it is
    stored under. *)
Definition location_part (md : dict) (keys : list string) (target : string)
    (acc : list pyval * dict) : list pyval * dict :=
  match first_true md keys with
  | Some v => ((fst acc ++ [v])%list, Dict.set (snd acc) target v)
  | None => acc
  end.

Fixpoint join_values (items : list pyval) : res (list string) :=
  match items with
  | [] => Ok []
  | PStr s :: items' => ss <- join_values items' ;; Ok (s :: ss)
  | _ :: _ => Raise TypeError
  end.

(** [_parse_iptc_location] *)
Definition _parse_iptc_location (md : dict) : res dict :=
  let acc := location_part md ["IPTC:Sub-location"; "IPTC:Sublocation"] "Sublocation" ([], []) in
  let acc := location_part md ["IPTC:City"] "City" acc in
  let acc := location_part md ["IPTC:Province-State"; "IPTC:State"; "IPTC:Province"] "State" acc in
  let acc := location_part md ["IPTC:Country"] "Country" acc in
  match fst acc with
  | [] => Ok (snd acc)
  | location_components =>
      ss <- join_values location_components ;;
      Ok (Dict.set (snd acc) "LocationName" (PStr (Str.join ", " ss)))
  end.

(** [-90 <= lat <= 90 and -180 <= lon <= 180] *)
Definition valid_coordinates (lat lon : float) : bool :=
  ((-90 <=? lat) && (lat <=? 90) && ((-180 <=? lon) && (lon <=? 180)))%float.

(** The decimal branch of [_extract_coordinates_from_string]: the pair it
    returns, if it returns. *)
Definition decimal_pair (text : string) : option (float * float) :=
  match Re.search decimal_pattern text with
  | Some m =>
      match float_of_str (Re.group_text m 1), float_of_str (Re.group_text m 2) with
      | Some lat, Some lon =>
          if valid_coordinates lat lon then Some (lat, lon) else None
      | _, _ => None
      end
  | None => None
  end.

(** The DMS branch. *)
Definition dms_pair (text : string) : res (option (float * float)) :=
  match Re.search dms_pair_pattern text with
  | Some m =>
      let lat_deg := Str.digits_value (Re.group_text m 1) 0 in
      let lat_min := Str.digits_value (Re.group_text m 2) 0 in
      match float_of_str (Re.group_text m 3) with
      | None => Ok None
      | Some lat_sec =>
          let lat_dir := Re.group_text m 4 in
          let lon_deg := Str.digits_value (Re.group_text m 5) 0 in
          let lon_min := Str.digits_value (Re.group_text m 6) 0 in
          match float_of_str (Re.group_text m 7) with
          | None => Ok None
          | Some lon_sec =>
              let lon_dir := Re.group_text m 8 in
              lat <- dms_sum lat_deg lat_min lat_sec ;;
              let lat := if String.eqb lat_dir "S" then (- lat)%float else lat in
              lon <- dms_sum lon_deg lon_min lon_sec ;;
              let lon := if String.eqb lon_dir "W" then (- lon)%float else lon in
              Ok (if valid_coordinates lat lon then Some (lat, lon) else None)
          end
      end
  | None => Ok None
  end.

(** [_extract_coordinates_from_string] *)
Definition _extract_coordinates_from_string (text : string) : res (option (float * float)) :=
  match decimal_pair text with
  | Some coords => Ok (Some coords)
  | None => dms_pair text
  end.

Definition gps_like (key : string) : bool :=
  let k := Str.lower key in
  Str.contains "gps" k || Str.contains "location" k || Str.contains "coordinates" k.

(** [_parse_generic_gps]: the loop over the items, in their order *)
Fixpoint _parse_generic_gps (md : dict) : res dict :=
  match md with
  | [] => Ok []
  | (key, PStr value) :: md' =>
      if gps_like key then
        coords <- _extract_coordinates_from_string value ;;
        match coords with
        | Some (lat, lon) =>
            Ok (Dict.set (Dict.set [] "Latitude" (PFloat lat)) "Longitude" (PFloat lon))
        | None => _parse_generic_gps md'
        end
      else _parse_generic_gps md'
  | _ :: md' => _parse_generic_gps md'
  end.

(** ** Reverse geocoding *)

Definition address := list (string * string).

(** The two geocoding services.  [None] is a service that is not installed
    (or, for the online one, whose client could not be created).  The
    online service answers [None] when it has no location for the point. *)
Class Geocoders : Type := {
  online : option (pyval -> pyval -> res (option address));
  offline : option (pyval -> pyval -> res (list address))
}.

Definition cache := list (string * dict).

(** [cache_key = f"{latitude:.6f},{longitude:.6f}"] *)
Definition cache_key (latitude longitude : pyval) : res string :=
  lat_text <- format_f 6 latitude ;;
  lon_text <- format_f 6 longitude ;;
  Ok (lat_text ++ "," ++ lon_text).

Definition true_text (a : address) (k : string) : option string :=
  match Dict.get a k with
  | Some s => if Str.nonempty s then Some s else None
  | None => None
  end.

Fixpoint first_text (a : address) (keys : list string) : option string :=
  match keys with
  | [] => None
  | k :: keys' =>
      match true_text a k with
      | Some s => Some s
      | None => first_text a keys'
      end
  end.

(** One component of a location: appended to [components] and stored. *)
Definition component (a : address) (keys : list string) (target : string)
    (acc : list string * dict) : list string * dict :=
  match first_text a keys with
  | Some s => ((fst acc ++ [s])%list, Dict.set (snd acc) target (PStr s))
  | None => acc
  end.

Definition named (acc : list string * dict) : dict :=
  match fst acc with
  | [] => snd acc
  | components => Dict.set (snd acc) "LocationName" (PStr (Str.join ", " components))
  end.

Definition online_info (a : address) : dict :=
  named (component a ["country"] "Country"
          (component a ["state"; "province"] "State"
            (component a ["county"; "district"; "state_district"] "County"
              (component a ["city"; "town"; "village"; "hamlet"] "City" ([], []))))).

Definition offline_info (a : address) : dict :=
  named (component a ["cc"] "CountryCode"
          (component a ["admin1"] "State"
            (component a ["name"] "City" ([], [])))).

Context {geo : Geocoders}.

(** The offline part of [reverse_geocode]. *)
Definition offline_lookup (latitude longitude : pyval) : option dict :=
  match offline with
  | Some search =>
      match search latitude longitude with
      | Ok (result :: _) => Some (offline_info result)
      | _ => None
      end
  | None => None
  end.

(** The online part. *)
Definition online_lookup (latitude longitude : pyval) : option dict :=
  match online with
  | Some reverse =>
      match reverse latitude longitude with
      | Ok (Some a) => Some (online_info a)
      | _ => None
      end
  | None => None
  end.

(** [reverse_geocode]: the answer and the cache afterwards *)
Definition reverse_geocode (c : cache) (latitude longitude : pyval) : res (dict * cache) :=
  key <- cache_key latitude longitude ;;
  match Dict.get c key with
  | Some location_info => Ok (location_info, c)
  | None =>
      match online_lookup latitude longitude with
      | Some location_info => Ok (location_info, Dict.set c key location_info)
      | None =>
          match offline_lookup latitude longitude with
          | Some location_info => Ok (location_info, Dict.set c key location_info)
          | None => Ok ([], c)
          end
      end
  end.

(** ** Entry point *)

Inductive tier : Type := ExifTier | XmpTier | IptcTier | GenericTier.

(** The branch that the [if]/[elif] chain of [parse_gps_info] takes. *)
Definition tier_of (md : dict) : tier :=
  let gps_info : dict := [] in
  if _has_exif_gps_tags md then ExifTier
  else if _has_xmp_gps_tags md && negb (DeviceIdentifier.nonempty_dict gps_info) then XmpTier
  else if _has_iptc_location_tags md && negb (DeviceIdentifier.nonempty_dict gps_info) then IptcTier
  else GenericTier.

Definition parse_tier (t : tier) (md : dict) : res dict :=
  match t with
  | ExifTier => _parse_exif_gps md
  | XmpTier => _parse_xmp_gps md
  | IptcTier => _parse_iptc_location md
  | GenericTier => _parse_generic_gps md
  end.

(** The enrichment of a result that has both coordinates. *)
Definition enrich (c : cache) (gps_info : dict) : res (dict * cache) :=
  match Dict.get gps_info "Latitude", Dict.get gps_info "Longitude" with
  | Some lat, Some lon =>
      if is_number lat && is_number lon then
        let text := py_str lat ++ ", " ++ py_str lon in
        let gps_info := Dict.set gps_info "Location" (PStr text) in
        let gps_info := Dict.set gps_info "Coordinates" (PStr text) in
        lat_dms <- decimal_to_dms lat "lat" ;;
        lon_dms <- decimal_to_dms lon "lon" ;;
        let gps_info := Dict.set gps_info "LatitudeDMS" (PStr lat_dms) in
        let gps_info := Dict.set gps_info "LongitudeDMS" (PStr lon_dms) in
        let gps_info :=
          Dict.set gps_info "GoogleMapsURL"
            (PStr ("https://www.google.com/maps/search/?api=1&query=" ++
                   py_str lat ++ "," ++ py_str lon)) in
        '(location_info, c) <- reverse_geocode c lat lon ;;
        Ok (Dict.update gps_info location_info, c)
      else Ok (gps_info, c)
  | _, _ => Ok (gps_info, c)
  end.

(** What [parse_gps_info] returns from the result of the tier it took:
    the enriched result, or the empty one after any exception. *)
Definition finish (c : cache) (tier_result : res dict) : dict * cache :=
  match (gps_info <- tier_result ;; enrich c gps_info) with
  | Ok r => r
  | Raise _ => ([], c)
  end.

(** [parse_gps_info], with the cache of the parser before and after *)
Definition parse_gps_info (c : cache) (md : dict) : dict * cache :=
  finish c (parse_tier (tier_of md) md).

End WithLib.
End GPSParser.

(** * Metadata extractor ([metadata_extractor.py]) *)

Module MetadataExtractor.
Section WithLib.

Context {lib : PyLib} {db : DeviceIdentifier.DeviceDb}.

#[local] Set Warnings "-inexact-float".

Definition is_none (v : pyval) : bool :=
  match v with PNone => true | _ => false end.

(** [value.decode('utf-8').strip('\x00').strip()]; the result [None] stands
    for text that is empty or does not decode. *)
Definition decoded_text (codec : string) (b : string) : option string :=
  match decode codec b with
  | Some s =>
      let s := Str.strip (Str.strip_nul s) in
      if Str.nonempty s then Some s else None
  | None => None
  end.

(** The three-way conversion of a ratio [n / d]:
    [0] when [d == 0], [n] when [d == 1], else [float(n) / d]. *)
Definition rational_value (n d : Z) : res pyval :=
  if d =? 0 then Ok (PInt 0)
  else if d =? 1 then Ok (PInt n)
  else
    x <- Num.of_int n ;;
    q <- Num.div_int x d ;;
    Ok (PFloat q).

(** [_clean_value]; the result [PNone] is the value to skip. *)
Fixpoint _clean_value (value : pyval) : res pyval :=
  match value with
  | PNone => Ok PNone
  | PBool _ | PInt _ | PFloat _ => Ok value
  | PBytes b =>
      match decoded_text "utf-8" b with
      | Some s => Ok (PStr s)
      | None => Ok PNone
      end
  | PStr s =>
      let cleaned := Str.strip (Str.strip_nul s) in
      if Str.nonempty cleaned then Ok (PStr cleaned) else Ok PNone
  | PList l | PTuple l =>
      cleaned_list <-
        (fix clean_items (l : list pyval) : res (list pyval) :=
           match l with
           | [] => Ok []
           | item :: l' =>
               c <- _clean_value item ;;
               cs <- clean_items l' ;;
               Ok (if is_none c then cs else c :: cs)
           end) l ;;
      match cleaned_list with
      | [] => Ok PNone
      | [c] => Ok c
      | _ => Ok (PList cleaned_list)
      end
  | PDict d =>
      cleaned_dict <-
        (fix clean_entries (d : list (string * pyval)) : res (list (string * pyval)) :=
           match d with
           | [] => Ok []
           | (k, v) :: d' =>
               c <- _clean_value v ;;
               cs <- clean_entries d' ;;
               Ok (if is_none c then cs else (k, c) :: cs)
           end) d ;;
      match cleaned_dict with
      | [] => Ok PNone
      | _ => Ok (PDict cleaned_dict)
      end
  | PDatetime text => Ok (PStr text)
  | PFraction n d => rational_value n d
  end.

(** ** The value conversion of [_process_piexif_data] *)

(** [x / v] for a float [x] *)
Definition float_div (x : float) (v : pyval) : res float :=
  match v with
  | PBool b => Num.div_int x (int_of_bool b)
  | PInt n => Num.div_int x n
  | PFloat y => Num.truediv x y
  | PFraction n d => y <- Num.int_truediv n d ;; Num.truediv x y
  | _ => Raise TypeError
  end.

(** [0 if x[1] == 0 else x[0] if x[1] == 1 else float(x[0]) / x[1]] *)
Definition ratio_of_pair (num den : pyval) : res pyval :=
  if eq_int den 0 then Ok (PInt 0)
  else if eq_int den 1 then Ok num
  else x <- py_float num ;; q <- float_div x den ;; Ok (PFloat q).

Definition is_pair (v : pyval) : bool :=
  match v with PTuple [_; _] => true | _ => false end.

Fixpoint ratios_of_pairs (l : list pyval) : res (list pyval) :=
  match l with
  | [] => Ok []
  | PTuple [num; den] :: l' =>
      r <- ratio_of_pair num den ;;
      rs <- ratios_of_pairs l' ;;
      Ok (r :: rs)
  | _ :: _ => Raise TypeError
  end.

(** What [_process_piexif_data] stores for one tag value; [None] when the
    tag is left out. *)
Definition piexif_value (value : pyval) : res (option pyval) :=
  match value with
  | PBytes b =>
      match decode "utf-8" b with
      | Some _ => Ok (option_map PStr (decoded_text "utf-8" b))
      | None => Ok (option_map PStr (decoded_text "latin-1" b))
      end
  | PTuple [num; den] =>
      if is_int num && is_int den
      then r <- ratio_of_pair num den ;; Ok (Some r)
      else Ok (Some value)
  | PList l =>
      if forallb is_pair l
      then rs <- ratios_of_pairs l ;; Ok (Some (PList rs))
      else Ok (Some value)
  | _ => Ok (Some value)
  end.

(** ** [_process_piexif_data] *)

Section Piexif.

(** [piexif.<class>.get(tag_id, tag_id)]: the classes [ImageIFD],
    [ExifIFD], [GPSIFD] and [InteropIFD] belong to the piexif library,
    which is not part of the sources.  [ifd_get] is what the call gives
    for the name of the class and the number of the tag. *)
Variable ifd_get : string -> Z -> res pyval.

Definition ifd_prefix (ifd_name : string) : string :=
  if String.eqb ifd_name "0th" then "Image"
  else if String.eqb ifd_name "1st" then "Thumbnail"
  else if String.eqb ifd_name "Exif" then "EXIF"
  else if String.eqb ifd_name "GPS" then "GPS"
  else if String.eqb ifd_name "Interop" then "Interoperability"
  else ifd_name.

Definition ifd_class (ifd_name : string) : option string :=
  if String.eqb ifd_name "0th" then Some "ImageIFD"
  else if String.eqb ifd_name "1st" then Some "ImageIFD"
  else if String.eqb ifd_name "Exif" then Some "ExifIFD"
  else if String.eqb ifd_name "GPS" then Some "GPSIFD"
  else if String.eqb ifd_name "Interop" then Some "InteropIFD"
  else None.

(** The name of a tag: the lookup in the class of the IFD, [str(tag_id)]
    for another IFD; [if isinstance(tag_name, int):
    tag_name = f"Unknown Tag {tag_name}"]; then as [f"{tag_name}"]. *)
Definition piexif_tag_name (ifd_name : string) (tag_id : Z) : res string :=
  tag_name <- match ifd_class ifd_name with
              | Some class => ifd_get class tag_id
              | None => Ok (PStr (Str.of_Z tag_id))
              end ;;
  Ok (match tag_name with
      | PInt _ | PBool _ => "Unknown Tag " ++ py_str tag_name
      | _ => py_str tag_name
      end).

(** The loop over the tags of one IFD *)
Fixpoint piexif_tags (ifd_name : string) (ifd : list (Z * pyval)) (metadata : dict)
    : res dict :=
  match ifd with
  | [] => Ok metadata
  | (tag_id, value) :: ifd' =>
      tag_name <- piexif_tag_name ifd_name tag_id ;;
      v <- piexif_value value ;;
      piexif_tags ifd_name ifd'
        (match v with
         | Some v => Dict.set metadata (ifd_prefix ifd_name ++ ":" ++ tag_name) v
         | None => metadata
         end)
  end.

(** What piexif hands over under one name: an IFD, from tag numbers to
    values, or a value that is no dictionary (the thumbnail). *)
Inductive piexif_entry : Type :=
| Ifd (tags : list (Z * pyval))
| NotAnIfd (value : pyval).

(** The loop over the IFDs: a value that is no dictionary has no
    [items]. *)
Fixpoint piexif_ifds (exif_dict : list (string * piexif_entry)) (metadata : dict)
    : res dict :=
  match exif_dict with
  | [] => Ok metadata
  | (ifd_name, entry) :: exif_dict' =>
      if String.eqb ifd_name "thumbnail" then piexif_ifds exif_dict' metadata
      else
        match entry with
        | Ifd tags =>
            metadata <- piexif_tags ifd_name tags metadata ;;
            piexif_ifds exif_dict' metadata
        | NotAnIfd _ => Raise AttributeError
        end
  end.

(** [_process_piexif_data] *)
Definition _process_piexif_data (exif_dict : list (string * piexif_entry)) : res dict :=
  piexif_ifds exif_dict [].

End Piexif.

(** ** Derived fields *)

Definition common_ratios : list (float * string) :=
  [(1.0%float, "1:1 (Square)"); (1.33%float, "4:3"); (1.5%float, "3:2");
   (1.78%float, "16:9"); (1.85%float, "1.85:1 (Cinema)");
   (2.35%float, "2.35:1 (Cinemascope)"); (0.75%float, "3:4 (Portrait)");
   (0.67%float, "2:3 (Portrait)"); (0.56%float, "9:16 (Portrait)")].

(** [min(common_ratios.keys(), key=lambda x: abs(x - aspect_ratio))] *)
Definition closest_ratio (aspect_ratio : float) : float * string :=
  fold_left
    (fun best c =>
       if (abs (fst c - aspect_ratio) <? abs (fst best - aspect_ratio))%float
       then c else best)
    (tl common_ratios) (1.0%float, "1:1 (Square)").

(** [float(result["ImageWidth"])] and [float(result["ImageHeight"])] when
    both keys are there *)
Definition dimensions (result : dict) : option (res (float * float)) :=
  match Dict.get result "ImageWidth", Dict.get result "ImageHeight" with
  | Some w, Some h =>
      Some (width <- py_float w ;; height <- py_float h ;; Ok (width, height))
  | _, _ => None
  end.

Definition add_aspect_ratio (result : dict) : res dict :=
  match dimensions result with
  | None => Ok result
  | Some dims =>
      try_except
        ('(width, height) <- dims ;;
         if (0 <? width)%float && (0 <? height)%float then
           let aspect_ratio := (width / height)%float in
           let result := Dict.set result "AspectRatio" (PFloat (Num.round_to 3 aspect_ratio)) in
           let closest := closest_ratio aspect_ratio in
           if (abs (fst closest - aspect_ratio) <? 0.05)%float
           then Ok (Dict.set result "AspectRatioName" (PStr (snd closest)))
           else Ok result
         else Ok result)
        value_or_type_error (Ok result)
  end.

Definition add_megapixels (result : dict) : res dict :=
  match dimensions result with
  | None => Ok result
  | Some dims =>
      try_except
        ('(width, height) <- dims ;;
         if (0 <? width)%float && (0 <? height)%float then
           let megapixels := (width * height / 1000000)%float in
           Ok (Dict.set result "Megapixels" (PFloat (Num.round_to 2 megapixels)))
         else Ok result)
        value_or_type_error (Ok result)
  end.

Definition date_fields : list (string * string) :=
  [("DateTimeOriginal", "DateTaken"); ("CreateDate", "DateCreated");
   ("ModifyDate", "DateModified")].

Definition date_formats : list string :=
  ["%Y:%m:%d %H:%M:%S"; "%Y-%m-%d %H:%M:%S"; "%Y/%m/%d %H:%M:%S";
   "%Y:%m:%d"; "%Y-%m-%d"; "%Y/%m/%d"].

(** The first format that parses the text, already formatted again. *)
Fixpoint first_format (date_str : string) (formats : list string) : option string :=
  match formats with
  | [] => None
  | f :: formats' =>
      match strptime_reformat date_str f with
      | Some t => Some t
      | None => first_format date_str formats'
      end
  end.

Definition add_date (result : dict) (field : string * string) : dict :=
  let '(source_field, target_field) := field in
  match Dict.get result source_field with
  | Some (PStr date_str) =>
      if Dict.mem result target_field then result
      else match first_format date_str date_formats with
           | Some t => Dict.set result target_field (PStr t)
           | None => result
           end
  | _ => result
  end.

Definition add_dates (result : dict) : dict := fold_left add_date date_fields result.

(** [sep.join(items)]: every item has to be a [str]. *)
Fixpoint texts (items : list pyval) : res (list string) :=
  match items with
  | [] => Ok []
  | PStr s :: items' => ss <- texts items' ;; Ok (s :: ss)
  | _ :: _ => Raise TypeError
  end.

Definition present (result : dict) (fields : list string) : list pyval :=
  flat_map (fun f => match Dict.get result f with Some v => [v] | None => [] end) fields.

Definition add_camera_info (result : dict) : res dict :=
  match present result ["Make"; "Model"; "Software"] with
  | [] => Ok result
  | camera_info =>
      ss <- texts camera_info ;;
      Ok (Dict.set result "CameraInfo" (PStr (Str.join " - " ss)))
  end.

(** The text of one entry of the exposure summary. *)
Definition exposure_text (source_field : string) (value : pyval) : res string :=
  if negb (is_number value) then Ok (py_str value)
  else if String.eqb source_field "FNumber" then Ok ("f/" ++ py_str value)
  else if String.eqb source_field "ExposureTime" then exposure_time_text value
  else if String.eqb source_field "FocalLength" then Ok (py_str value ++ "mm")
  else Ok (py_str value).

Definition exposure_fields : list (string * string) :=
  [("FNumber", "F-Stop"); ("ExposureTime", "Exposure Time");
   ("ISOSpeedRatings", "ISO"); ("FocalLength", "Focal Length")].

Fixpoint exposure_entries (result : dict) (fields : list (string * string))
    : res (list string) :=
  match fields with
  | [] => Ok []
  | (source_field, label) :: fields' =>
      match Dict.get result source_field with
      | Some value =>
          t <- exposure_text source_field value ;;
          ts <- exposure_entries result fields' ;;
          Ok ((label ++ ": " ++ t) :: ts)
      | None => exposure_entries result fields'
      end
  end.

Definition add_exposure_info (result : dict) : res dict :=
  exposure_info <- exposure_entries result exposure_fields ;;
  match exposure_info with
  | [] => Ok result
  | _ => Ok (Dict.set result "ExposureInfo" (PStr (Str.join ", " exposure_info)))
  end.

(** [_add_derived_metadata] *)
Definition _add_derived_metadata (metadata : dict) : res dict :=
  result <- add_aspect_ratio metadata ;;
  result <- add_megapixels result ;;
  result <- add_camera_info (add_dates result) ;;
  add_exposure_info result.

(** ** The record that [extract] returns *)

(** [sorted(processed.items())]: insertion sort on the keys *)
Fixpoint insert_sorted (kv : string * pyval) (l : dict) : dict :=
  match l with
  | [] => [kv]
  | kv' :: l' =>
      if String.leb (fst kv) (fst kv') then kv :: l
      else kv' :: insert_sorted kv l'
  end.

Definition sorted_items (d : dict) : dict := fold_right insert_sorted [] d.

Definition blank (value : pyval) : bool :=
  match value with
  | PNone => true
  | PStr s => negb (Str.nonempty (Str.strip s))
  | _ => false
  end.

Fixpoint clean_present (l : list pyval) : res (list pyval) :=
  match l with
  | [] => Ok []
  | item :: l' =>
      c <- _clean_value item ;;
      cs <- clean_present l' ;;
      Ok (if is_none c then cs else c :: cs)
  end.

(** One turn of the loop of [_process_metadata]. *)
Definition process_entry (processed : dict) (key : string) (value : pyval) : res dict :=
  if blank value then Ok processed
  else
    match value with
    | PBytes b =>
        match decoded_text "utf-8" b with
        | Some s => Ok (Dict.set processed key (PStr s))
        | None => Ok processed
        end
    | PDatetime text => Ok (Dict.set processed key (PStr text))
    | PList [] | PTuple [] => Ok processed
    | PList [item] | PTuple [item] =>
        c <- _clean_value item ;; Ok (Dict.set processed key c)
    | PList l | PTuple l =>
        cleaned_list <- clean_present l ;;
        match cleaned_list with
        | [] => Ok processed
        | _ => Ok (Dict.set processed key (PList cleaned_list))
        end
    | _ =>
        cleaned <- _clean_value value ;;
        Ok (if is_none cleaned then processed else Dict.set processed key cleaned)
    end.

Fixpoint process_entries (items : dict) (processed : dict) : res dict :=
  match items with
  | [] => Ok processed
  | (key, value) :: items' =>
      processed <- process_entry processed key value ;;
      process_entries items' processed
  end.

(** [_process_metadata] *)
Definition _process_metadata (metadata : dict) : res dict :=
  processed <- process_entries metadata [] ;;
  processed <- _add_derived_metadata processed ;;
  Ok (sorted_items processed).

(** The fold of the device profile in [extract]:
    [device_info = identify_device(metadata)],
    [if device_info: metadata.update(device_info)]. *)
Definition fold_device_info (metadata : dict) : dict :=
  let device_info := DeviceIdentifier.identify_device metadata in
  if DeviceIdentifier.nonempty_dict device_info
  then Dict.update metadata device_info
  else metadata.

(** [extract], from the tag mapping of the format reader and the file
    information on. *)
Definition extract (format_metadata file_info : dict) : res dict :=
  let metadata := Dict.update format_metadata file_info in
  _process_metadata (fold_device_info metadata).

End WithLib.
End MetadataExtractor.

(** * The display helpers of the GPS parser ([gps_parser.py]) *)

Module GPSTools.
Section WithLib.

Context {lib : PyLib}.

#[local] Set Warnings "-inexact-float".

(** The ranges of [get_cardinal_direction] in the order of the source:
    start, end, direction. *)
Definition directions : list (float * float * string) :=
  [(337.5%float, 22.5%float, "N"); (22.5%float, 67.5%float, "NE");
   (67.5%float, 112.5%float, "E"); (112.5%float, 157.5%float, "SE");
   (157.5%float, 202.5%float, "S"); (202.5%float, 247.5%float, "SW");
   (247.5%float, 292.5%float, "W"); (292.5%float, 337.5%float, "NW")].

(** [for start, end, direction in directions:
       if start <= bearing < end: return direction],
    then the default [return "N"] *)
Fixpoint first_direction (bearing : float) (ranges : list (float * float * string))
    : string :=
  match ranges with
  | [] => "N"
  | (start, stop, direction) :: ranges' =>
      if ((start <=? bearing) && (bearing <? stop))%float then direction
      else first_direction bearing ranges'
  end.

(** [get_cardinal_direction] of a float bearing *)
Definition get_cardinal_direction (bearing : float) : string :=
  first_direction bearing directions.

(** [k <= v] and [v <= k] for one of the integer literals [-180], [-90],
    [90], [180] of the source, which are floats exactly.  Numbers compare
    by value; a fraction compares [numerator * 1] with [denominator * k];
    any other value cannot be ordered with an [int]. *)
Definition int_le (k : Z) (v : pyval) : res bool :=
  match v with
  | PBool b => Ok (k <=? int_of_bool b)
  | PInt n => Ok (k <=? n)
  | PFloat x => Ok (Num.of_ratio k 1 <=? x)%float
  | PFraction n d => Ok (d * k <=? n)
  | _ => Raise TypeError
  end.

Definition le_int (v : pyval) (k : Z) : res bool :=
  match v with
  | PBool b => Ok (int_of_bool b <=? k)
  | PInt n => Ok (n <=? k)
  | PFloat x => Ok (x <=? Num.of_ratio k 1)%float
  | PFraction n d => Ok (n <=? d * k)
  | _ => Raise TypeError
  end.

(** [lo <= v <= hi]: the second comparison is made only when the first
    one holds. *)
Definition between (lo : Z) (v : pyval) (hi : Z) : res bool :=
  b <- int_le lo v ;;
  if b then le_int v hi else Ok false.

(** [if isinstance(v, str): v = float(v)] *)
Definition float_of_text (v : pyval) : res pyval :=
  match v with
  | PStr s => x <- GPSParser.parse_float s ;; Ok (PFloat x)
  | _ => Ok v
  end.

(** [is_valid_coordinate] *)
Definition is_valid_coordinate (latitude longitude : pyval) : res bool :=
  try_except
    (latitude <- float_of_text latitude ;;
     longitude <- float_of_text longitude ;;
     b <- between (-90) latitude 90 ;;
     if b then between (-180) longitude 180 else Ok false)
    value_or_type_error (Ok false).

End WithLib.
End GPSTools.

(** * The tag readers of the metadata extractor ([metadata_extractor.py])

    [_process_exifread_tags] and [_process_pil_exif] turn what the two EXIF
    libraries hand over into entries of the record. *)

Module TagReaders.
Section WithLib.

Context {lib : PyLib}.

(** The number of characters of a text: the bytes that do not continue a
    UTF-8 sequence. *)
Fixpoint code_points (s : string) : nat :=
  match s with
  | EmptyString => O
  | String c s' =>
      ((if (128 <=? Str.ord c)%nat && (Str.ord c <? 192)%nat then 0 else 1) +
       code_points s')%nat
  end.

(** [tag.replace(" ", ":")] *)
Fixpoint spaces_to_colons (s : string) : string :=
  match s with
  | EmptyString => EmptyString
  | String c s' =>
      String (if Ascii.eqb c " " then ":"%char else c) (spaces_to_colons s')
  end.

(** [tag.split(" ")[0]] *)
Fixpoint first_part (s : string) : string :=
  match s with
  | EmptyString => EmptyString
  | String c s' => if Ascii.eqb c " " then EmptyString else String c (first_part s')
  end.

(** [if len(tag_parts) > 1 and tag_parts[0] in ("EXIF", "Image", "GPS",
    "Interoperability"): tag_name = tag], [else: tag.replace(" ", ":")] *)
Definition exifread_tag_name (tag : string) : string :=
  if Str.contains " " tag &&
     existsb (String.eqb (first_part tag)) ["EXIF"; "Image"; "GPS"; "Interoperability"]
  then tag
  else spaces_to_colons tag.

(** What exifread hands over for one tag: an [IfdTag] with its field type
    and its values (text for an ASCII tag, a list for every other type),
    or some other object. *)
Inductive tag_values : Type :=
| TagText (s : string)
| TagList (l : list pyval).

Inductive exifread_tag : Type :=
| IfdTag (field_type : Z) (values : tag_values)
| NotATag (value : pyval).

Definition values_of (values : tag_values) : pyval :=
  match values with
  | TagText s => PStr s
  | TagList l => PList l
  end.

(** [len(value.values)] *)
Definition values_len (values : tag_values) : nat :=
  match values with
  | TagText s => code_points s
  | TagList l => List.length l
  end.

(** [r.numerator] and [r.denominator]: a ratio has them, and so has an
    [int]. *)
Definition ratio_parts (r : pyval) : res (Z * Z) :=
  match r with
  | PFraction n d => Ok (n, d)
  | PInt n => Ok (n, 1)
  | PBool b => Ok (int_of_bool b, 1)
  | _ => Raise AttributeError
  end.

(** [float(r.numerator) / r.denominator] *)
Definition quotient (n d : Z) : res pyval :=
  x <- Num.of_int n ;;
  q <- Num.div_int x d ;;
  Ok (PFloat q).

(** The only value of a rational tag:
    [r.numerator if r.denominator == 1 else float(r.numerator) / r.denominator] *)
Definition single_rational (r : pyval) : res pyval :=
  ' (n, d) <- ratio_parts r ;;
  if d =? 1 then Ok (PInt n) else quotient n d.

(** One of several values:
    [float(v.numerator) / v.denominator if v.denominator != 0 else 0] *)
Definition listed_rational (r : pyval) : res pyval :=
  ' (n, d) <- ratio_parts r ;;
  if d =? 0 then Ok (PInt 0) else quotient n d.

Fixpoint listed_rationals (l : list pyval) : res (list pyval) :=
  match l with
  | [] => Ok []
  | r :: l' =>
      v <- listed_rational r ;;
      vs <- listed_rationals l' ;;
      Ok (v :: vs)
  end.

(** The branch of the field types 5 and 10.  The characters of a text
    have no numerator. *)
Definition rational_tag (values : tag_values) : res pyval :=
  match values with
  | TagList [r] => single_rational r
  | TagList l => vs <- listed_rationals l ;; Ok (PList vs)
  | TagText s =>
      match code_points s with
      | O => Ok (PList [])
      | S _ => Raise AttributeError
      end
  end.

(** What is stored for one tag; [None] when the tag is left out. *)
Definition exifread_value (value : exifread_tag) : res (option pyval) :=
  match value with
  | IfdTag field_type values =>
      if field_type =? 2 then
        let text_value := Str.strip (Str.strip_nul (py_str (values_of values))) in
        Ok (if Str.nonempty text_value then Some (PStr text_value) else None)
      else if (field_type =? 5) || (field_type =? 10) then
        v <- rational_tag values ;; Ok (Some v)
      else if field_type =? 7 then
        Ok (if (values_len values <? 100)%nat then Some (values_of values) else None)
      else Ok (Some (values_of values))
  | NotATag v => Ok (Some (PStr (py_str v)))
  end.

Definition store (metadata : dict) (name : string) (v : option pyval) : dict :=
  match v with
  | Some v => Dict.set metadata name v
  | None => metadata
  end.

Fixpoint exifread_tags (tags : list (string * exifread_tag)) (metadata : dict) : res dict :=
  match tags with
  | [] => Ok metadata
  | (tag, value) :: tags' =>
      if Str.contains "thumbnail" (Str.lower tag) then exifread_tags tags' metadata
      else
        v <- exifread_value value ;;
        exifread_tags tags' (store metadata (exifread_tag_name tag) v)
  end.

(** [_process_exifread_tags] *)
Definition _process_exifread_tags (tags : list (string * exifread_tag)) : res dict :=
  exifread_tags tags [].

(** [ExifTags.TAGS.get(tag_id, f"Unknown Tag {tag_id}")]; the table of
    names is Pillow's. *)
Definition pil_tag_name (TAGS : Z -> option string) (tag_id : Z) : string :=
  match TAGS tag_id with
  | Some name => name
  | None => "Unknown Tag " ++ Str.of_Z tag_id
  end.

(** The chain of tests of [_process_pil_exif] on one value, in the order
    of the source: bytes, a tuple of one element, a tuple of [int]s, a
    pair of [int]s, anything else. *)
Definition pil_value (value : pyval) : res (option pyval) :=
  match value with
  | PBytes b => Ok (option_map PStr (MetadataExtractor.decoded_text "utf-8" b))
  | PTuple [x] => Ok (Some x)
  | PTuple l =>
      if forallb is_int l then Ok (Some (PStr (Str.join "." (map py_str l))))
      else if (List.length l =? 2)%nat && forallb is_int l then
        match l with
        | [num; den] => r <- MetadataExtractor.ratio_of_pair num den ;; Ok (Some r)
        | _ => Ok (Some value)
        end
      else Ok (Some value)
  | _ => Ok (Some value)
  end.

Fixpoint pil_tags (TAGS : Z -> option string) (exif : list (Z * pyval)) (metadata : dict)
    : res dict :=
  match exif with
  | [] => Ok metadata
  | (tag_id, value) :: exif' =>
      let tag_name := pil_tag_name TAGS tag_id in
      if Str.contains "thumbnail" (Str.lower tag_name) then pil_tags TAGS exif' metadata
      else
        v <- pil_value value ;;
        pil_tags TAGS exif' (store metadata tag_name v)
  end.

(** [_process_pil_exif] *)
Definition _process_pil_exif (TAGS : Z -> option string) (exif : list (Z * pyval))
    : res dict :=
  pil_tags TAGS exif [].

End WithLib.
End TagReaders.

(** * The histogram peaks of the image analysis ([metadata_extractor.py]) *)

Module ImageAnalysis.
Section WithSum.

(** The built-in [sum] over a list of floats.  How it rounds is not the
    same in every version of the interpreter, so it is an argument. *)
Variable sum : list float -> float.

(** The test of the loop at the index [i], for [1 <= i < len - 1]:
    [histogram[i] > histogram[i-1] and histogram[i] > histogram[i+1]], and
    then [histogram[i] > sum(histogram) / (len(histogram) * 2)]. *)
Definition is_peak (histogram : list float) (i : nat) : res bool :=
  let value := nth i histogram zero in
  if ((nth (i - 1) histogram zero <? value) && (nth (i + 1) histogram zero <? value))%float
  then
    threshold <- Num.div_int (sum histogram) (Z.of_nat (List.length histogram) * 2) ;;
    Ok (threshold <? value)%float
  else Ok false.

Fixpoint significant_peaks (histogram : list float) (indices : list nat) : res (list nat) :=
  match indices with
  | [] => Ok []
  | i :: indices' =>
      peak <- is_peak histogram i ;;
      peaks <- significant_peaks histogram indices' ;;
      Ok (if peak then i :: peaks else peaks)
  end.

(** [peaks.sort(key=..., reverse=True)]: the sort is stable, so of two
    peaks of the same height the one found first stays first. *)
Fixpoint insert_by_height (height : nat -> float) (p : nat) (l : list nat) : list nat :=
  match l with
  | [] => [p]
  | q :: l' =>
      if (height p <? height q)%float then q :: insert_by_height height p l'
      else p :: l
  end.

Definition highest_first (height : nat -> float) (l : list nat) : list nat :=
  fold_right (insert_by_height height) [] l.

(** [sorted(peaks)] *)
Fixpoint insert_position (p : nat) (l : list nat) : list nat :=
  match l with
  | [] => [p]
  | q :: l' => if (p <=? q)%nat then p :: l else q :: insert_position p l'
  end.

Definition positions_in_order (l : list nat) : list nat :=
  fold_right insert_position [] l.

(** [_find_histogram_peaks] *)
Definition _find_histogram_peaks (histogram : list float) : res (list nat) :=
  peaks <- significant_peaks histogram (seq 1 (List.length histogram - 2)) ;;
  let peaks :=
    if (5 <? List.length peaks)%nat
    then firstn 5 (highest_first (fun p => nth p histogram zero) peaks)
    else peaks in
  Ok (positions_in_order peaks).

End WithSum.
End ImageAnalysis.

(** * The device database ([device_identifier.py])

    The database is the document [self.device_db]: a dictionary from a
    category to the table of its devices, itself a dictionary from a
    device id to the description of the device. *)

Module DeviceDatabase.
Section WithLib.

Context {lib : PyLib}.

(** The fields of a description and the names they are shown under, in
    the order of the source. *)
Definition field_mapping : list (string * string) :=
  [("make", "Manufacturer"); ("model", "FullModel"); ("release_date", "ReleaseDate");
   ("sensor_type", "SensorType"); ("sensor_size", "SensorSize");
   ("megapixels", "Megapixels"); ("max_resolution", "MaxResolution");
   ("lens_mount", "LensMount"); ("screen_size", "ScreenSize");
   ("os", "OperatingSystem"); ("cpu", "Processor"); ("storage", "Storage");
   ("battery", "Battery"); ("weight", "Weight"); ("dimensions", "Dimensions");
   ("price", "Price"); ("url", "ProductURL")].

(** [if db_field in device_info and device_info[db_field]:
       formatted[output_field] = device_info[db_field]] *)
Definition copy_field (device_info formatted : dict) (field : string * string) : dict :=
  match present_true device_info (fst field) with
  | Some v => Dict.set formatted (snd field) v
  | None => formatted
  end.

(** [_format_db_device_info] *)
Definition _format_db_device_info (device_info : dict) : dict :=
  fold_left (copy_field device_info) field_mapping [].

(** The loop [for device_id, device_info in devices.items():
    self.device_db[category][device_id] = device_info].  The database is
    changed in place, so the second component tells whether the loop came
    to its end, and the first is the database as it is left. *)
Fixpoint add_devices (device_db : dict) (category : string) (devices : dict)
    : dict * bool :=
  match devices with
  | [] => (device_db, true)
  | (device_id, device_info) :: devices' =>
      match Dict.get device_db category with
      | Some (PDict table) =>
          add_devices
            (Dict.set device_db category (PDict (Dict.set table device_id device_info)))
            category devices'
      | _ => (device_db, false)
      end
  end.

(** The loop over the categories of [new_data]: a category that is not a
    dictionary has no [items]. *)
Fixpoint merge (device_db new_data : dict) : dict * bool :=
  match new_data with
  | [] => (device_db, true)
  | (category, devices) :: new_data' =>
      let device_db :=
        if Dict.mem device_db category then device_db
        else Dict.set device_db category (PDict []) in
      match devices with
      | PDict devices =>
          let '(device_db, done) := add_devices device_db category devices in
          if done then merge device_db new_data' else (device_db, false)
      | _ => (device_db, false)
      end
  end.

(** [update_device_database]: what it returns, and the database
    afterwards.  Writing the file is left out: [_save_device_database]
    catches its own errors and its result is not used. *)
Definition update_device_database (device_db new_data : dict) : bool * dict :=
  let '(device_db, done) := merge device_db new_data in (done, device_db).

(** [len(v)] *)
Definition py_len (v : pyval) : res Z :=
  match v with
  | PStr s => Ok (Z.of_nat (TagReaders.code_points s))
  | PBytes b => Ok (Z.of_nat (String.length b))
  | PList l | PTuple l => Ok (Z.of_nat (List.length l))
  | PDict d => Ok (Z.of_nat (List.length d))
  | _ => Raise TypeError
  end.

(** [for category, devices in self.device_db.items():
       stats[category] = len(devices)] *)
Fixpoint count_devices (device_db stats : dict) : res dict :=
  match device_db with
  | [] => Ok stats
  | (category, devices) :: device_db' =>
      n <- py_len devices ;;
      count_devices device_db' (Dict.set stats category (PInt n))
  end.

(** [sum(stats.values())] of counts *)
Definition sum_values (stats : dict) : Z :=
  fold_left (fun total kv => total + match snd kv with PInt n => n | _ => 0 end) stats 0.

(** [get_device_database_stats] *)
Definition get_device_database_stats (device_db : dict) : res dict :=
  if negb (DeviceIdentifier.nonempty_dict device_db) then Ok [("total", PInt 0)]
  else
    stats <- count_devices device_db [] ;;
    Ok (Dict.set stats "total" (PInt (sum_values stats))).

End WithLib.
End DeviceDatabase.

(** * The search of the device database ([device_identifier.py])

    [_lookup_device_in_database] over a loaded document, with
    [_string_similarity]. *)

Module DeviceSearch.
Section WithDistance.

#[local] Set Warnings "-inexact-float".

(** [from Levenshtein import distance]: the edit distance of the library
    when it is installed, [None] when the import fails. *)
Variable distance : option (string -> string -> Z).

(** The characters of a text: a byte that does not continue a character,
    with the bytes that continue it. *)
Definition continues (c : ascii) : bool :=
  (128 <=? Str.ord c)%nat && (Str.ord c <? 192)%nat.

Definition continued (s : string) : bool :=
  match s with
  | String c _ => continues c
  | EmptyString => false
  end.

Fixpoint characters (s : string) : list string :=
  match s with
  | EmptyString => []
  | String c s' =>
      match characters s' with
      | following :: rest =>
          if continued s' then String c following :: rest
          else String c EmptyString :: following :: rest
      | [] => [String c EmptyString]
      end
  end.

(** [sum(c1 == c2 for c1, c2 in zip(s1, s2))] *)
Fixpoint equal_positions (l1 l2 : list string) : Z :=
  match l1, l2 with
  | c1 :: l1', c2 :: l2' =>
      (if String.eqb c1 c2 then 1 else 0) + equal_positions l1' l2'
  | _, _ => 0
  end.

(** [_string_similarity] *)
Definition _string_similarity (s1 s2 : string) : res float :=
  if negb (Str.nonempty s1) || negb (Str.nonempty s2) then Ok 0%float
  else
    let s1 := Str.lower s1 in
    let s2 := Str.lower s2 in
    if Str.contains s1 s2 || Str.contains s2 s1 then Ok 0.9%float
    else
      let max_len :=
        Z.max (Z.of_nat (List.length (characters s1)))
              (Z.of_nat (List.length (characters s2))) in
      match distance with
      | Some distance =>
          if max_len =? 0 then Ok 1%float
          else
            q <- Num.int_truediv (distance s1 s2) max_len ;;
            Ok (1 - q)%float
      | None =>
          let matches := equal_positions (characters s1) (characters s2) in
          if max_len =? 0 then Ok 1%float
          else Num.int_truediv matches max_len
      end.

(** [device_info.get(key, '').lower()]: a text or bytes in lower case;
    no other value has a [lower]. *)
Definition lower_field (device_info : pyval) (key : string) : res pyval :=
  match device_info with
  | PDict d =>
      match Dict.get d key with
      | None => Ok (PStr "")
      | Some (PStr s) => Ok (PStr (Str.lower s))
      | Some (PBytes b) => Ok (PBytes (Str.lower b))
      | Some _ => Raise AttributeError
      end
  | _ => Raise AttributeError
  end.

(** [self._format_db_device_info(device_info)] *)
Definition formatted (device_info : pyval) : dict :=
  match device_info with
  | PDict d => DeviceDatabase._format_db_device_info d
  | _ => []
  end.

(** The first loop: [db_make == make_lower and db_model == model_lower] *)
Fixpoint exact_match (make_lower model_lower : string) (table : dict)
    : res (option pyval) :=
  match table with
  | [] => Ok None
  | (device_id, device_info) :: table' =>
      db_make <- lower_field device_info "make" ;;
      db_model <- lower_field device_info "model" ;;
      if eq_str db_make make_lower && eq_str db_model model_lower
      then Ok (Some device_info)
      else exact_match make_lower model_lower table'
  end.

(** [model_lower in db_model or db_model in model_lower or
     self._string_similarity(db_model, model_lower) > 0.8]: bytes are no
    operand of [in] with a text. *)
Definition similar_model (db_model : pyval) (model_lower : string) : res bool :=
  match db_model with
  | PStr m =>
      if Str.contains model_lower m || Str.contains m model_lower then Ok true
      else
        score <- _string_similarity m model_lower ;;
        Ok (0.8 <? score)%float
  | _ => Raise TypeError
  end.

(** The second loop *)
Fixpoint close_match (make_lower model_lower : string) (table : dict)
    : res (option pyval) :=
  match table with
  | [] => Ok None
  | (device_id, device_info) :: table' =>
      db_make <- lower_field device_info "make" ;;
      db_model <- lower_field device_info "model" ;;
      found <- (if eq_str db_make make_lower then similar_model db_model model_lower
                else Ok false) ;;
      if found then Ok (Some device_info)
      else close_match make_lower model_lower table'
  end.

(** [self._string_similarity(db_text, text)] for a field of the database:
    bytes that are not empty are no operand of [in] with a text. *)
Definition field_similarity (db_text : pyval) (text : string) : res float :=
  match db_text with
  | PStr s => _string_similarity s text
  | PBytes b =>
      if negb (Str.nonempty b) || negb (Str.nonempty text) then Ok 0%float
      else Raise TypeError
  | _ => Raise TypeError
  end.

(** The third loop, from [best_match] and [best_score] *)
Fixpoint best_match (make_lower model_lower : string) (table : dict)
    (best : option pyval) (best_score : float) : res (option pyval) :=
  match table with
  | [] => Ok best
  | (device_id, device_info) :: table' =>
      db_make <- lower_field device_info "make" ;;
      db_model <- lower_field device_info "model" ;;
      make_score <- field_similarity db_make make_lower ;;
      model_score <- field_similarity db_model model_lower ;;
      let combined_score := (make_score * 0.4 + model_score * 0.6)%float in
      if (best_score <? combined_score)%float && (0.7 <? combined_score)%float
      then best_match make_lower model_lower table' (Some device_info) combined_score
      else best_match make_lower model_lower table' best best_score
  end.

Definition db_category (device_type : pyval) : string :=
  if eq_str device_type "Smartphone" then "phones"
  else if eq_str device_type "Tablet" then "phones"
  else if eq_str device_type "Drone" then "cameras"
  else "cameras".

(** [_lookup_device_in_database] from [make_lower = make.lower()] on *)
Definition search (device_db : dict) (make model : string) (device_type : pyval)
    : res dict :=
  let make_lower := Str.lower make in
  let model_lower := Str.lower model in
  match Dict.get device_db (db_category device_type) with
  | None => Ok []
  | Some (PDict table) =>
      exact <- exact_match make_lower model_lower table ;;
      match exact with
      | Some device_info => Ok (formatted device_info)
      | None =>
          close <- close_match make_lower model_lower table ;;
          match close with
          | Some device_info => Ok (formatted device_info)
          | None =>
              best <- best_match make_lower model_lower table None 0%float ;;
              match best with
              | Some device_info =>
                  if truthy device_info then Ok (formatted device_info) else Ok []
              | None => Ok []
              end
          end
      end
  | Some _ => Raise AttributeError
  end.

(** The database of a loaded document *)
Definition database (device_db : dict) : DeviceIdentifier.DeviceDb :=
  {| DeviceIdentifier.db_empty := negb (DeviceIdentifier.nonempty_dict device_db);
     DeviceIdentifier.db_search := search device_db |}.

End WithDistance.
End DeviceSearch.

(** * A reference library

    One instance of [PyLib], used to run the embedding on concrete
    records: decimal numerals for [float] and [int], the shortest decimal
    that reads back for the [repr] of a float, the six date formats of the
    source, and the three codecs. *)

Module Reference.

Definition sign_and_body (s : string) : bool * string :=
  match s with
  | String "-" r => (true, r)
  | String "+" r => (false, r)
  | _ => (false, s)
  end.

Fixpoint split_dot (s : string) : string * option string :=
  match s with
  | EmptyString => (EmptyString, None)
  | String "." r => (EmptyString, Some r)
  | String c r => let '(a, b) := split_dot r in (String c a, b)
  end.

(** [float(s)] for a decimal numeral with an optional sign and fraction *)
Definition float_of_str (s : string) : option float :=
  let '(neg, body) := sign_and_body (Str.strip s) in
  let '(ip, fp) := split_dot body in
  let fp := match fp with Some f => f | None => EmptyString end in
  if Str.isdigit (ip ++ fp) then
    let x := Num.of_ratio (Str.digits_value (ip ++ fp) 0)
                          (10 ^ Z.of_nat (String.length fp)) in
    Some (if neg then (- x)%float else x)
  else None.

(** [int(s)] for a decimal numeral with an optional sign *)
Definition int_of_str (s : string) : option Z :=
  let '(neg, body) := sign_and_body (Str.strip s) in
  if Str.isdigit body then
    let n := Str.digits_value body 0 in Some (if neg then - n else n)
  else None.

(** The decimal exponent [e] of a positive ratio: [10^e <= n/d < 10^(e+1)]. *)
Fixpoint exponent_down (fuel : nat) (n d e : Z) : Z :=
  match fuel with
  | O => e
  | S fuel' => if d <=? n then e else exponent_down fuel' (10 * n) d (e - 1)
  end.

Definition decimal_exponent (n d : Z) : Z :=
  if d <=? n then Z.of_nat (String.length (Str.of_Z (n / d))) - 1
  else exponent_down 400 n d 0.

(** [n/d] scaled by [10^(-k)], as a ratio *)
Definition scale (n d k : Z) : Z * Z :=
  if 0 <=? k then (n, d * 10 ^ k) else (n * 10 ^ (- k), d).

(** The digits of the shortest decimal with at most 17 digits that reads
    back as [x], and the exponent of its last digit. *)
Fixpoint shortest (fuel : nat) (p : Z) (x : float) (n d e : Z) : Z * Z :=
  let k := e - p + 1 in
  let '(sn, sd) := scale n d k in
  let digits := Num.round_half_even sn sd in
  match fuel with
  | O => (digits, k)
  | S fuel' =>
      let '(bn, bd) := scale digits 1 (- k) in
      if (Num.of_ratio bn bd =? x)%float then (digits, k)
      else shortest fuel' (p + 1) x n d e
  end.

Fixpoint strip_zeros (fuel : nat) (digits k : Z) : Z * Z :=
  match fuel with
  | O => (digits, k)
  | S fuel' =>
      if (digits mod 10 =? 0) && negb (digits =? 0)
      then strip_zeros fuel' (digits / 10) (k + 1) else (digits, k)
  end.

(** [repr(x)] *)
Definition str_of_float (x : float) : string :=
  match Prim2SF x with
  | S754_nan => "nan"
  | S754_infinity s => if s then "-inf" else "inf"
  | S754_zero s => if s then "-0.0" else "0.0"
  | S754_finite s _ _ =>
      match Num.to_ratio (abs x) with
      | None => "nan"
      | Some (n, d) =>
          let e := decimal_exponent n d in
          let '(digits, k) := shortest 17 1 (abs x) n d e in
          let '(digits, k) := strip_zeros 20 digits k in
          let text := Str.of_Z digits in
          let e := Z.of_nat (String.length text) + k - 1 in
          let sign := if s then "-" else "" in
          if (e <? -4) || (16 <=? e) then
            sign ++ Re.take 1 text ++
            (if (1 <? String.length text)%nat then "." ++ Str.drop 1 text else "") ++
            "e" ++ (if e <? 0 then "-" else "+") ++ Str.pad_left 2 (Str.of_Z (Z.abs e))
          else if 0 <=? k then
            sign ++ text ++ Str.repeat "0" (Z.to_nat k) ++ ".0"
          else if 0 <=? e then
            sign ++ Re.take (Z.to_nat (e + 1)) text ++ "." ++ Str.drop (Z.to_nat (e + 1)) text
          else
            sign ++ "0." ++ Str.repeat "0" (Z.to_nat (- e - 1)) ++ text
      end
  end.

(** [repr] and [str] of the other values; text is quoted without escapes. *)
Fixpoint repr (v : pyval) : string :=
  match v with
  | PNone => "None"
  | PBool b => if b then "True" else "False"
  | PInt n => Str.of_Z n
  | PFloat x => str_of_float x
  | PStr s => "'" ++ s ++ "'"
  | PBytes b => "b'" ++ b ++ "'"
  | PList l => "[" ++ Str.join ", " (map repr l) ++ "]"
  | PTuple l =>
      match l with
      | [x] => "(" ++ repr x ++ ",)"
      | _ => "(" ++ Str.join ", " (map repr l) ++ ")"
      end
  | PDict d =>
      "{" ++ Str.join ", " (map (fun kv => "'" ++ fst kv ++ "': " ++ repr (snd kv)) d) ++ "}"
  | PFraction n d => "Fraction(" ++ Str.of_Z n ++ ", " ++ Str.of_Z d ++ ")"
  | PDatetime t => "datetime(" ++ t ++ ")"
  end.

Definition str_of_other (v : pyval) : string :=
  match v with
  | PFraction n d => if d =? 1 then Str.of_Z n else Str.of_Z n ++ "/" ++ Str.of_Z d
  | PDatetime t => t
  | _ => repr v
  end.

(** The directives of [strptime], as the patterns the library compiles
    them to. *)
Definition range (lo hi : ascii) : Re.regex :=
  Re.Chr (fun c => (Str.ord lo <=? Str.ord c)%nat && (Str.ord c <=? Str.ord hi)%nat).

Definition directive (c : ascii) : Re.regex :=
  match c with
  | "Y"%char => Re.seq [Re.d; Re.d; Re.d; Re.d]
  | "m"%char => Re.Alt (Re.Seq (Re.Char "1") (range "0" "2"))
                  (Re.Alt (Re.Seq (Re.Char "0") (range "1" "9")) (range "1" "9"))
  | "d"%char => Re.Alt (Re.Seq (Re.Char "3") (range "0" "1"))
                  (Re.Alt (Re.Seq (range "1" "2") Re.d)
                    (Re.Alt (Re.Seq (Re.Char "0") (range "1" "9"))
                      (Re.Alt (range "1" "9") (Re.Seq (Re.Char " ") (range "1" "9")))))
  | "H"%char => Re.Alt (Re.Seq (Re.Char "2") (range "0" "3"))
                  (Re.Alt (Re.Seq (range "0" "1") Re.d) Re.d)
  | "M"%char => Re.Alt (Re.Seq (range "0" "5") Re.d) Re.d
  | "S"%char => Re.Alt (Re.Seq (Re.Char "6") (range "0" "1"))
                  (Re.Alt (Re.Seq (range "0" "5") Re.d) Re.d)
  | _ => Re.Char c
  end.

Definition field_index (c : ascii) : nat :=
  match c with
  | "Y"%char => 1 | "m"%char => 2 | "d"%char => 3
  | "H"%char => 4 | "M"%char => 5 | "S"%char => 6
  | _ => 7
  end.

Fixpoint format_regex (fmt : string) : Re.regex :=
  match fmt with
  | EmptyString => Re.Eps
  | String "%" (String c fmt') =>
      Re.Seq (Re.Group (field_index c) (directive c)) (format_regex fmt')
  | String c fmt' =>
      if Str.is_space c then Re.Seq (Re.Plus (Re.Chr Str.is_space)) (format_regex fmt')
      else Re.Seq (Re.Char c) (format_regex fmt')
  end.

Definition days_in_month (y m : Z) : Z :=
  if m =? 2 then
    if ((y mod 4 =? 0) && negb (y mod 100 =? 0)) || (y mod 400 =? 0) then 29 else 28
  else if (m =? 4) || (m =? 6) || (m =? 9) || (m =? 11) then 30 else 31.

Definition field (caps : Re.captures) (i : nat) (default : Z) : Z :=
  match Re.group caps i with
  | Some s => Str.digits_value (Str.strip s) 0
  | None => default
  end.

(** [datetime.strptime(s, fmt).strftime('%Y-%m-%d %H:%M:%S')] *)
Definition strptime_reformat (s fmt : string) : option string :=
  match Re.match_here (Re.Group 0 (format_regex fmt)) None s with
  | None => None
  | Some caps =>
      if negb (String.eqb (Re.group_text caps 0) s) then None
      else
        let y := field caps 1 1900 in
        let m := field caps 2 1 in
        let d := field caps 3 1 in
        let hh := field caps 4 0 in
        let mm := field caps 5 0 in
        let ss := field caps 6 0 in
        if (1 <=? y) && (d <=? days_in_month y m) && (ss <=? 59) then
          Some (Str.pad_left 4 (Str.of_Z y) ++ "-" ++ Str.pad_left 2 (Str.of_Z m) ++ "-" ++
                Str.pad_left 2 (Str.of_Z d) ++ " " ++ Str.pad_left 2 (Str.of_Z hh) ++ ":" ++
                Str.pad_left 2 (Str.of_Z mm) ++ ":" ++ Str.pad_left 2 (Str.of_Z ss))
        else None
  end.

(** UTF-8: the lead byte fixes the number of continuation bytes. *)
Fixpoint utf8_ok (s : string) (pending : nat) : bool :=
  match s with
  | EmptyString => (pending =? 0)%nat
  | String c s' =>
      let n := Str.ord c in
      match pending with
      | S p => (128 <=? n)%nat && (n <? 192)%nat && utf8_ok s' p
      | O =>
          if (n <? 128)%nat then utf8_ok s' 0
          else if (194 <=? n)%nat && (n <? 224)%nat then utf8_ok s' 1
          else if (224 <=? n)%nat && (n <? 240)%nat then utf8_ok s' 2
          else if (240 <=? n)%nat && (n <? 245)%nat then utf8_ok s' 3
          else false
      end
  end.

Fixpoint latin1 (s : string) : string :=
  match s with
  | EmptyString => EmptyString
  | String c s' =>
      let n := Str.ord c in
      if (n <? 128)%nat then String c (latin1 s')
      else String (Str.chr (192 + n / 64)) (String (Str.chr (128 + n mod 64)) (latin1 s'))
  end.

Definition decode (codec b : string) : option string :=
  if String.eqb codec "utf-8" then (if utf8_ok b 0 then Some b else None)
  else if String.eqb codec "ascii"
  then (if Str.forallb (fun c => (Str.ord c <? 128)%nat) b then Some b else None)
  else if String.eqb codec "latin-1" then Some (latin1 b)
  else None.

Definition python : PyLib :=
  Build_PyLib float_of_str int_of_str str_of_float str_of_other
              strptime_reformat decode.


(** The piexif library as released: its classes hold the tag numbers as
    attributes and have no [get], so the lookup of a tag name raises. *)
Definition released_piexif : string -> Z -> res pyval :=
  fun _ _ => Raise AttributeError.

(** No geocoding service installed. *)
Definition no_geocoders : GPSParser.Geocoders :=
  {| GPSParser.online := None; GPSParser.offline := None |}.

End Reference.

(** * Properties *)

(** ** Dictionaries *)

Module DictFacts.
Import Dict.

Lemma get_set_eq {A} (d : list (string * A)) k v : get (set d k v) k = Some v.
Proof.
  induction d as [|[k' v'] d IH]; simpl.
  - now rewrite String.eqb_refl.
  - destruct (String.eqb k k') eqn:E; simpl; rewrite E; auto.
Qed.

Lemma get_set_neq {A} (d : list (string * A)) k k' v :
  k <> k' -> get (set d k v) k' = get d k'.
Proof.
  intros Hne. induction d as [|[k0 v0] d IH]; simpl.
  - destruct (String.eqb k' k) eqn:E; auto.
    apply String.eqb_eq in E. congruence.
  - destruct (String.eqb k k0) eqn:E; simpl.
    + apply String.eqb_eq in E. subst k0.
      destruct (String.eqb k' k) eqn:E'; auto.
      apply String.eqb_eq in E'. congruence.
    + destruct (String.eqb k' k0); auto.
Qed.

Lemma get_set {A} (d : list (string * A)) k k' v :
  get (set d k v) k' = if String.eqb k k' then Some v else get d k'.
Proof.
  destruct (String.eqb k k') eqn:E.
  - apply String.eqb_eq in E. subst. apply get_set_eq.
  - apply get_set_neq. now apply String.eqb_neq.
Qed.

Lemma get_update {A} (other d : list (string * A)) k :
  get (update d other) k =
  match get (rev other) k with
  | Some v => Some v
  | None => get d k
  end.
Proof.
  unfold update. revert d.
  induction other as [|[k0 v0] other IH] using rev_ind; intros d; simpl.
  - reflexivity.
  - rewrite fold_left_app, rev_app_distr. simpl.
    rewrite get_set. rewrite String.eqb_sym.
    destruct (String.eqb k k0); auto.
Qed.

Lemma get_rev_none {A} (d : list (string * A)) k :
  get d k = None -> get (rev d) k = None.
Proof.
  induction d as [|[k0 v0] d IH]; simpl; auto.
  destruct (String.eqb k k0) eqn:E; [discriminate|]. intros H.
  specialize (IH H). clear H.
  induction (rev d) as [|[k1 v1] r IHr]; simpl in *.
  - now rewrite E.
  - destruct (String.eqb k k1); [discriminate|auto].
Qed.

(** A key that the update does not define keeps its value. *)
Lemma get_update_other {A} (d other : list (string * A)) k :
  get other k = None -> get (update d other) k = get d k.
Proof.
  intros H. rewrite get_update. now rewrite (get_rev_none _ _ H).
Qed.

(** Two dictionaries that agree on a key agree on its membership. *)
Lemma mem_agree {A} (d d' : list (string * A)) k :
  get d' k = get d k -> mem d' k = mem d k.
Proof. unfold mem. now intros ->. Qed.

End DictFacts.

(** ** Privacy assessment *)

Module PrivacyFacts.
Import DeviceIdentifier.
Section WithLib.

Context {lib : PyLib}.

(** While nothing has been detected the risk is still [Low]. *)
Definition consistent (a : assessment) : Prop :=
  SensitiveDataPresent a = false -> PrivacyRisk a = Low.

(** A check keeps the state consistent and does not lower the risk. *)
Definition escalating (c : assessment -> assessment) : Prop :=
  forall a, consistent a ->
    consistent (c a) /\ risk_le (PrivacyRisk a) (PrivacyRisk (c a)).

Lemma risk_le_refl r : risk_le r r.
Proof. unfold risk_le. lia. Qed.

Lemma risk_le_high r : risk_le High r -> r = High.
Proof. destruct r; unfold risk_le; simpl; intros; try lia; reflexivity. Qed.

Lemma unchanged_escalating : escalating (fun a => a).
Proof. intros a Ha. split; [assumption | apply risk_le_refl]. Qed.

Lemma flag_high_escalating label rec : escalating (flag_high label rec).
Proof.
  intros a _. split.
  - intros H. discriminate H.
  - unfold risk_le. simpl. destruct (PrivacyRisk a); simpl; lia.
Qed.

Lemma flag_medium_escalating label rec : escalating (flag_medium label rec).
Proof.
  intros a _. split.
  - intros H. discriminate H.
  - unfold risk_le. simpl. destruct (PrivacyRisk a); simpl; lia.
Qed.

Lemma flag_low_escalating label rec : escalating (flag_low label rec).
Proof.
  intros a Ha. split.
  - intros H. discriminate H.
  - unfold risk_le. simpl. destruct (SensitiveDataPresent a) eqn:E.
    + lia.
    + rewrite (Ha E). simpl. lia.
Qed.

Lemma checks_escalating md device_type :
  Forall escalating (checks md device_type).
Proof.
  unfold checks, check_gps, check_serial, check_owner, check_device_id,
    check_timestamp, check_software.
  repeat (apply Forall_cons;
          [ match goal with
            | |- escalating (fun a => if ?b then _ else _) =>
                destruct b;
                auto using unchanged_escalating, flag_high_escalating,
                  flag_medium_escalating, flag_low_escalating
            end | ]).
  apply Forall_nil.
Qed.

Lemma run_head cs a : exists l, run cs a = a :: l.
Proof. destruct cs; simpl; eauto. Qed.

(** Along a pass the risk never goes down. *)
Lemma run_sorted cs :
  Forall escalating cs ->
  forall a, consistent a -> LocallySorted risk_le (map PrivacyRisk (run cs a)).
Proof.
  induction 1 as [|c cs Hc Hcs IH]; intros a Ha; simpl.
  - constructor.
  - destruct (Hc a Ha) as [Hca Hle].
    specialize (IH (c a) Hca).
    destruct (run_head cs (c a)) as [l El]. rewrite El in *. simpl in *.
    constructor; assumption.
Qed.

(** Once [High], the risk is [High] in every later state. *)
Lemma run_high cs :
  Forall escalating cs ->
  forall a, consistent a -> PrivacyRisk a = High ->
  forall b, In b (run cs a) -> PrivacyRisk b = High.
Proof.
  induction 1 as [|c cs Hc Hcs IH]; intros a Ha Hh b Hb; simpl in Hb.
  - destruct Hb as [<-|[]]. assumption.
  - destruct Hb as [<-|Hb]; [assumption|].
    destruct (Hc a Ha) as [Hca Hle]. rewrite Hh in Hle.
    apply (IH (c a) Hca (risk_le_high _ Hle) b Hb).
Qed.

(** The state that the pass ends in is the last one of the run. *)
Lemma pass_in_run cs a : In (fold_left (fun a c => c a) cs a) (run cs a).
Proof.
  revert a. induction cs as [|c cs IH]; intros a; simpl.
  - now left.
  - right. apply IH.
Qed.

Lemma has_gps_intro md k v :
  In k gps_keys -> Dict.get md k = Some v -> v <> PNone -> has_gps md = true.
Proof.
  intros Hk Hv Hn. unfold has_gps. apply existsb_exists. exists k. split; [assumption|].
  unfold present_not_none. rewrite Hv. destruct v; congruence.
Qed.

Lemma initial_consistent : consistent initial_assessment.
Proof. intros _. reflexivity. Qed.

Lemma assessed_risk md device_type :
  Dict.get (_assess_privacy_implications md device_type) "PrivacyRisk" =
  Some (PStr (risk_name (PrivacyRisk (pass md device_type)))).
Proof.
  unfold _assess_privacy_implications.
  destruct (SensitiveDataPresent (pass md device_type)); reflexivity.
Qed.

(** C2.  Within one pass of the privacy assessment the risk only goes up
    along Low < Medium < High: the risks of the seven states of the pass
    (the initial one and the one after each of the six checks) are in
    non-decreasing order.  If a GPS key is present in the record (a record
    holds no null value), the risk is High after the first check and in
    every later state, and the assessment returned has PrivacyRisk "High",
    whatever else the record contains, serial-number keys included. *)
Theorem privacy_risk_only_escalates (md : dict) (device_type : pyval) :
  LocallySorted risk_le
    (map PrivacyRisk (run (checks md device_type) initial_assessment)) /\
  (forall k v,
     In k gps_keys -> Dict.get md k = Some v -> v <> PNone ->
     (forall a, In a (tl (run (checks md device_type) initial_assessment)) ->
                PrivacyRisk a = High) /\
     Dict.get (_assess_privacy_implications md device_type) "PrivacyRisk" =
       Some (PStr "High")).
Proof.
  split.
  - apply run_sorted; [apply checks_escalating | apply initial_consistent].
  - intros k v Hk Hv Hn.
    pose proof (has_gps_intro md k v Hk Hv Hn) as Hgps.
    assert (Hlater : forall a,
               In a (tl (run (checks md device_type) initial_assessment)) ->
               PrivacyRisk a = High).
    { pose proof (checks_escalating md device_type) as Hall.
      unfold checks in *. simpl.
      inversion Hall as [|c cs Hc Hcs]; subst.
      apply (run_high _ Hcs).
      - apply (Hc initial_assessment initial_consistent).
      - unfold check_gps. rewrite Hgps. reflexivity. }
    split; [exact Hlater|].
    rewrite assessed_risk.
    rewrite (Hlater (pass md device_type)); [reflexivity|].
    unfold pass, checks. simpl.
    apply (pass_in_run
             [check_serial md; check_owner md; check_device_id md device_type;
              check_timestamp md; check_software md]).
Qed.

End WithLib.

(** A record with a GPS key and a serial number. *)
Definition gps_and_serial : dict :=
  [("SerialNumber", PStr "0123456789"); ("GPSLatitude", PStr "40.7128");
   ("GPSLongitude", PStr "-74.0060")].

Lemma privacy_risk_only_escalates_witness :
  Dict.get (_assess_privacy_implications gps_and_serial (PStr "Camera")) "PrivacyRisk" =
  Some (PStr "High").
Proof.
  destruct (privacy_risk_only_escalates gps_and_serial (PStr "Camera")) as [_ H].
  apply (H "GPSLatitude" (PStr "40.7128")).
  - simpl. tauto.
  - reflexivity.
  - discriminate.
Defined.

End PrivacyFacts.

(** ** Device-type classification *)

Module DeviceTypeFacts.
Import DeviceIdentifier.

(** The rules (b) to (h) of section 4.3 of the specification, in its
    order: each with its condition and the type it gives. *)
Definition rule_table (make_lower model_lower : string) (md : dict)
    : list (bool * string) :=
  [ (any_in smartphone_manufacturers make_lower &&
     any_in tablet_indicators model_lower, "Tablet");
    (any_in smartphone_manufacturers make_lower, "Smartphone");
    (any_in camera_manufacturers make_lower, "Camera");
    (any_in drone_manufacturers make_lower, "Drone");
    (any_in action_camera_indicators make_lower ||
     any_in action_camera_indicators model_lower, "Action Camera");
    (any_in ["phone"; "smartphone"] model_lower, "Smartphone");
    (any_in ["camera"; "dslr"; "mirrorless"] model_lower, "Camera");
    (any_in ["drone"] model_lower, "Drone");
    (any_key md lens_indicators, "Camera");
    ((Dict.mem md "FocalLength" || Dict.mem md "FNumber") &&
     Dict.mem md "ISO" && Dict.mem md "ExposureTime", "Camera") ].

Fixpoint first_applicable (rules : list (bool * string)) : option string :=
  match rules with
  | [] => None
  | (true, t) :: _ => Some t
  | (false, _) :: rules' => first_applicable rules'
  end.

(** The classification as section 4.3 of the specification words it, to
    compare the source with: (a) the explicit key, used verbatim; then
    the first of the rules (b) to (h) that applies, whatever the make and
    the model are; (i) otherwise the generic type when a make or a model
    is known, and no type when none is. *)
Definition classify_by_precedence (make model : option string) (md : dict) : pyval :=
  match Dict.get md "DeviceType" with
  | Some v => v
  | None =>
      match first_applicable
              (rule_table (Str.lower (text_or_empty make))
                          (Str.lower (text_or_empty model)) md) with
      | Some t => PStr t
      | None =>
          if some_text make || some_text model then PStr "Digital Camera" else PNone
      end
  end.

Lemma lower_empty_text (s : option string) :
  (if some_text s then Str.lower (text_or_empty s) else "") = Str.lower (text_or_empty s).
Proof. destruct s as [[|c t]|]; reflexivity. Qed.

Lemma any_in_empty : forall words,
  forallb Str.nonempty words = true -> any_in words "" = false.
Proof.
  induction words as [|w words IH]; simpl; auto.
  intros H. apply andb_prop in H as [Hw Hws].
  rewrite (IH Hws). destruct w; [discriminate|reflexivity].
Qed.

Lemma action_camera_split make_lower model_lower :
  existsb (fun i => Str.contains i make_lower || Str.contains i model_lower)
          action_camera_indicators =
  any_in action_camera_indicators make_lower ||
  any_in action_camera_indicators model_lower.
Proof.
  unfold any_in, action_camera_indicators. simpl.
  repeat match goal with
         | |- context [Str.contains ?a ?b] =>
             let x := fresh "b" in
             generalize (Str.contains a b); intro x
         end.
  repeat match goal with b : bool |- _ => destruct b end; reflexivity.
Qed.

(** The source function is the precedence of the specification behind its
    guard: a record without the explicit key that names no make and no
    model is given no type before any rule is looked at. *)
Lemma identify_is_precedence make model md :
  _identify_device_type make model md =
  if Dict.mem md "DeviceType" || some_text make || some_text model
  then classify_by_precedence make model md
  else PNone.
Proof.
  unfold _identify_device_type, classify_by_precedence, rule_table.
  change (Dict.mem md "DeviceType") with
    (match Dict.get md "DeviceType" with Some _ => true | None => false end).
  destruct (Dict.get md "DeviceType") as [v|]; [reflexivity|]. cbn [orb].
  rewrite !lower_empty_text, action_camera_split.
  destruct model as [[|c t]|];
    cbn [some_text text_or_empty Str.nonempty Str.lower first_applicable];
    rewrite ?any_in_empty by reflexivity.
  all: generalize (some_text make); intro known.
  all: repeat match goal with
         | |- context [any_in ?w ?s] =>
             let x := fresh "b" in
             generalize (any_in w s); intro x
         | |- context [any_key ?m ?s] =>
             let x := fresh "b" in
             generalize (any_key m s); intro x
         | |- context [Dict.mem ?m ?s] =>
             let x := fresh "b" in
             generalize (Dict.mem m s); intro x
         end.
  all: repeat (try reflexivity;
               match goal with
               | |- context [if ?b then _ else _] => is_var b; destruct b
               | |- context [negb ?b] => is_var b; destruct b
               | |- context [andb ?b _] => is_var b; destruct b
               | |- context [orb ?b _] => is_var b; destruct b
               end; cbn [negb andb orb first_applicable]).
Qed.

(** C7 (amended).  The classification is a function of make, model and
    record.  The explicit DeviceType key is used verbatim.  Without it, a
    record that names a make or a model is classified by the rules in
    the fixed precedence of the specification (smartphone makers with
    the tablet refinement, camera makers, drone makers, action-camera
    words, model words, lens keys, the ISO and exposure heuristic, then
    the generic Digital Camera), and a record that names neither is given
    no type, whatever lens or exposure keys it has: the source returns
    before any rule.  For every record that has no explicit DeviceType
    key, make "Canon" gives Camera, with any model and whether or not a
    LensModel key is present, and make "Apple" with model "iPad Pro"
    gives Tablet. *)
Theorem device_type_precedence (make model : option string) (md : dict) :
  (Dict.mem md "DeviceType" || some_text make || some_text model = true ->
   _identify_device_type make model md = classify_by_precedence make model md) /\
  (Dict.mem md "DeviceType" || some_text make || some_text model = false ->
   _identify_device_type make model md = PNone) /\
  (Dict.get md "DeviceType" = None ->
   _identify_device_type (Some "Canon") model md = PStr "Camera" /\
   _identify_device_type (Some "Apple") (Some "iPad Pro") md = PStr "Tablet").
Proof.
  split; [|split].
  - intros H. now rewrite identify_is_precedence, H.
  - intros H. now rewrite identify_is_precedence, H.
  - intros H. unfold _identify_device_type. rewrite H. split; reflexivity.
Qed.

(** A Canon record with a lens key, the same record with an explicit
    device type, and a record that has a lens key only. *)
Definition canon_with_lens : dict :=
  [("Make", PStr "Canon"); ("Model", PStr "Canon EOS R5");
   ("LensModel", PStr "RF 24-70mm F2.8 L IS USM")].

Definition canon_declared_scanner : dict :=
  Dict.set canon_with_lens "DeviceType" (PStr "Film Scanner").

Definition lens_only : dict := [("LensModel", PStr "RF 24-70mm F2.8 L IS USM")].

Lemma device_type_precedence_witness :
  _identify_device_type (Some "Canon") (Some "EOS R5") canon_with_lens =
    classify_by_precedence (Some "Canon") (Some "EOS R5") canon_with_lens /\
  _identify_device_type None None lens_only = PNone /\
  _identify_device_type (Some "Canon") (Some "EOS R5") canon_with_lens = PStr "Camera" /\
  _identify_device_type (Some "Apple") (Some "iPad Pro") canon_with_lens = PStr "Tablet".
Proof.
  split; [|split].
  - apply (proj1 (device_type_precedence (Some "Canon") (Some "EOS R5") canon_with_lens)).
    reflexivity.
  - apply (proj1 (proj2 (device_type_precedence None None lens_only))). reflexivity.
  - apply (proj2 (proj2 (device_type_precedence None (Some "EOS R5") canon_with_lens))).
    reflexivity.
Defined.

(** The claim as stated fails on a record with make Canon, a LensModel key
    and an explicit DeviceType: the explicit value is returned.  It also
    fails on a record that has a lens key and names no make and no model:
    the rules of the specification give Camera by the lens key, the
    source gives no type. *)
Lemma device_type_counterexample :
  @_extract_make_model Reference.python canon_declared_scanner =
    (Some "Canon", Some "EOS R5") /\
  Dict.mem canon_declared_scanner "LensModel" = true /\
  _identify_device_type (Some "Canon") (Some "EOS R5") canon_declared_scanner =
    PStr "Film Scanner" /\
  PStr "Film Scanner" <> PStr "Camera" /\
  @_extract_make_model Reference.python lens_only = (None, None) /\
  classify_by_precedence None None lens_only = PStr "Camera" /\
  _identify_device_type None None lens_only = PNone /\
  PNone <> PStr "Camera".
Proof.
  repeat split; try reflexivity; discriminate.
Qed.

End DeviceTypeFacts.

(** ** Normalisation of rational values *)

Module RationalFacts.
Import MetadataExtractor.
Section WithLib.

Context {lib : PyLib}.

Definition int_pair (p : Z * Z) : pyval := PTuple [PInt (fst p); PInt (snd p)].

Lemma of_int_no_fault n : Num.of_int n <> Raise ZeroDivisionError.
Proof. unfold Num.of_int. destruct (is_infinity _); discriminate. Qed.

Lemma div_int_no_fault x d : d <> 0 -> Num.div_int x d <> Raise ZeroDivisionError.
Proof.
  intros Hd. unfold Num.div_int.
  destruct (d =? 0) eqn:E; [apply Z.eqb_eq in E; contradiction|].
  unfold Num.of_int. destruct (is_infinity _); discriminate.
Qed.

Lemma bind_no_fault {A B} (m : res A) (f : A -> res B) :
  m <> Raise ZeroDivisionError ->
  (forall a, f a <> Raise ZeroDivisionError) ->
  bind m f <> Raise ZeroDivisionError.
Proof.
  destruct m as [a|e]; simpl; intros Hm Hf.
  - apply Hf.
  - intros [= ->]. now apply Hm.
Qed.

Lemma rational_value_no_fault n d : rational_value n d <> Raise ZeroDivisionError.
Proof.
  unfold rational_value.
  destruct (d =? 0) eqn:E0; [discriminate|].
  destruct (d =? 1); [discriminate|].
  apply Z.eqb_neq in E0.
  apply bind_no_fault; [apply of_int_no_fault|]. intros x.
  apply bind_no_fault; [now apply div_int_no_fault|]. discriminate.
Qed.

Lemma ratio_of_int_pair_no_fault n d :
  ratio_of_pair (PInt n) (PInt d) <> Raise ZeroDivisionError.
Proof.
  unfold ratio_of_pair. simpl.
  destruct (d =? 0) eqn:E0; [discriminate|].
  destruct (d =? 1); [discriminate|].
  apply Z.eqb_neq in E0.
  apply bind_no_fault; [apply of_int_no_fault|]. intros x.
  apply bind_no_fault; [now apply div_int_no_fault|]. discriminate.
Qed.

Lemma int_pairs_are_pairs l : forallb is_pair (map int_pair l) = true.
Proof. induction l; simpl; auto. Qed.

Lemma ratios_of_int_pairs_no_fault l :
  ratios_of_pairs (map int_pair l) <> Raise ZeroDivisionError.
Proof.
  induction l as [|[n d] l IH]; [discriminate|].
  cbn [map int_pair ratios_of_pairs fst snd].
  apply bind_no_fault; [apply ratio_of_int_pair_no_fault|]. intros r.
  apply bind_no_fault; [exact IH|]. discriminate.
Qed.

Lemma ratios_of_zero_denominators ns :
  ratios_of_pairs (map (fun n => int_pair (n, 0)) ns) = Ok (map (fun _ => PInt 0) ns).
Proof.
  induction ns as [|n ns IH]; [reflexivity|].
  cbn [map int_pair ratios_of_pairs fst snd]. rewrite IH. reflexivity.
Qed.

(** X21.  The conversions that test the denominator.  A rational value
    with denominator 0 becomes the integer 0 in the cleaning of a value
    ([_clean_value], on a fraction) and in the value conversion of
    [_process_piexif_data] (on a pair of integers, and on every pair of a
    list of pairs); and for every numerator and denominator neither
    conversion raises a division fault. *)
Theorem zero_denominator_gives_zero (n d : Z) (l : list (Z * Z)) (ns : list Z) :
  _clean_value (PFraction n 0) = Ok (PInt 0) /\
  piexif_value (PTuple [PInt n; PInt 0]) = Ok (Some (PInt 0)) /\
  piexif_value (PList (map (fun n => int_pair (n, 0)) ns)) =
    Ok (Some (PList (map (fun _ => PInt 0) ns))) /\
  _clean_value (PFraction n d) <> Raise ZeroDivisionError /\
  piexif_value (PTuple [PInt n; PInt d]) <> Raise ZeroDivisionError /\
  piexif_value (PList (map int_pair l)) <> Raise ZeroDivisionError.
Proof.
  repeat split.
  - unfold piexif_value.
    replace (forallb is_pair (map (fun n0 => int_pair (n0, 0)) ns)) with true.
    + rewrite ratios_of_zero_denominators. reflexivity.
    + symmetry. rewrite <- (map_map (fun n0 => (n0, 0)) int_pair).
      apply int_pairs_are_pairs.
  - simpl. apply rational_value_no_fault.
  - unfold piexif_value. cbn [is_int andb].
    apply bind_no_fault; [apply ratio_of_int_pair_no_fault|]. discriminate.
  - unfold piexif_value. rewrite int_pairs_are_pairs.
    apply bind_no_fault; [apply ratios_of_int_pairs_no_fault|]. discriminate.
Qed.

(** C4.  The code at the failing input.  An exifread tag of type rational
    (5, or 10 for a signed one) whose only value is 28/0 makes
    [_process_exifread_tags] raise ZeroDivisionError: the branch for a
    single value divides with no test of the denominator.  The sibling
    paths have the test: with a second value the same tag gives the
    integers 0, and so do [_clean_value] on a fraction and the value
    conversion of [_process_piexif_data].  With the piexif library as
    released, [_process_piexif_data] itself raises AttributeError at the
    lookup of the tag name, before it reaches that conversion. *)
Theorem single_rational_with_zero_denominator_raises :
  TagReaders._process_exifread_tags
    [("EXIF FNumber", TagReaders.IfdTag 5 (TagReaders.TagList [PFraction 28 0]))] =
    Raise ZeroDivisionError /\
  TagReaders._process_exifread_tags
    [("EXIF ExposureBiasValue",
      TagReaders.IfdTag 10 (TagReaders.TagList [PFraction 28 0]))] =
    Raise ZeroDivisionError /\
  TagReaders._process_exifread_tags
    [("EXIF FNumber",
      TagReaders.IfdTag 5 (TagReaders.TagList [PFraction 28 0; PFraction 4 0]))] =
    Ok [("EXIF FNumber", PList [PInt 0; PInt 0])] /\
  _clean_value (PFraction 28 0) = Ok (PInt 0) /\
  piexif_value (PTuple [PInt 28; PInt 0]) = Ok (Some (PInt 0)) /\
  _process_piexif_data Reference.released_piexif
    [("Exif", Ifd [(33437, PTuple [PInt 28; PInt 0])])] = Raise AttributeError.
Proof. repeat split. Qed.

End WithLib.
End RationalFacts.

(** ** Derived fields *)

Module DerivedFacts.
Import MetadataExtractor.
Section WithLib.

Context {lib : PyLib}.

(** C9.  The code at the failing input: a numeric exposure time of 0 makes
    the exposure summary divide by zero, so the derivation raises instead
    of leaving the field out.  It does so in the derived fields (for the
    integer and for the float), in the whole normalisation of a record
    whose exposure time is the ratio 1/0 (which the cleaning turns into
    0), and in the camera settings of the device identifier. *)
Theorem exposure_time_zero_raises :
  _add_derived_metadata [("ExposureTime", PInt 0)] = Raise ZeroDivisionError /\
  _add_derived_metadata [("ExposureTime", PFloat 0)] = Raise ZeroDivisionError /\
  _process_metadata [("ExposureTime", PFraction 1 0)] = Raise ZeroDivisionError /\
  DeviceIdentifier._extract_camera_settings [("ExposureTime", PInt 0)] =
    Raise ZeroDivisionError.
Proof. repeat split; reflexivity. Qed.

Definition summary_fields : list string :=
  ["AspectRatio"; "AspectRatioName"; "Megapixels"; "CameraInfo"; "ExposureInfo"].

(** [r] keeps every entry of [d], except perhaps under the keys [ks]. *)
Definition keeps (ks : list string) (d r : dict) : Prop :=
  forall k v, ~ In k ks -> Dict.get d k = Some v -> Dict.get r k = Some v.

Lemma keeps_refl ks d : keeps ks d d.
Proof. intros k v _ H. exact H. Qed.

Lemma keeps_trans ks d1 d2 d3 : keeps ks d1 d2 -> keeps ks d2 d3 -> keeps ks d1 d3.
Proof. intros H12 H23 k v Hk H. apply (H23 k v Hk). apply (H12 k v Hk H). Qed.

Lemma keeps_set ks d k0 v0 : In k0 ks -> keeps ks d (Dict.set d k0 v0).
Proof.
  intros Hin k v Hk H. rewrite DictFacts.get_set_neq; [exact H|].
  intros ->. contradiction.
Qed.

(** Setting a key that is absent keeps every entry. *)
Lemma keeps_set_absent ks d k0 v0 :
  Dict.mem d k0 = false -> keeps ks d (Dict.set d k0 v0).
Proof.
  intros Hm k v _ H. rewrite DictFacts.get_set_neq; [exact H|].
  intros ->. unfold Dict.mem in Hm. rewrite H in Hm. discriminate.
Qed.

Lemma try_except_ok {A} (m h : res A) catches (P : A -> Prop) :
  (forall a, m = Ok a -> P a) -> (forall a, h = Ok a -> P a) ->
  forall a, try_except m catches h = Ok a -> P a.
Proof.
  intros Hm Hh a. unfold try_except. destruct m as [x|e].
  - intros [= <-]. now apply Hm.
  - destruct (catches e); [apply Hh | discriminate].
Qed.

Lemma add_aspect_ratio_keeps d r :
  add_aspect_ratio d = Ok r -> keeps summary_fields d r.
Proof.
  unfold add_aspect_ratio. destruct (dimensions d) as [dims|].
  - revert r. apply try_except_ok.
    + intros r. destruct dims as [[width height]|e]; [|discriminate]. simpl.
      destruct ((0 <? width)%float && (0 <? height)%float).
      * destruct (abs _ <? _)%float; intros [= <-].
        -- eapply keeps_trans; apply keeps_set; simpl; tauto.
        -- apply keeps_set. simpl. tauto.
      * intros [= <-]. apply keeps_refl.
    + intros r [= <-]. apply keeps_refl.
  - intros [= <-]. apply keeps_refl.
Qed.

Lemma add_megapixels_keeps d r :
  add_megapixels d = Ok r -> keeps summary_fields d r.
Proof.
  unfold add_megapixels. destruct (dimensions d) as [dims|].
  - revert r. apply try_except_ok.
    + intros r. destruct dims as [[width height]|e]; [|discriminate]. simpl.
      destruct ((0 <? width)%float && (0 <? height)%float); intros [= <-].
      * apply keeps_set. simpl. tauto.
      * apply keeps_refl.
    + intros r [= <-]. apply keeps_refl.
  - intros [= <-]. apply keeps_refl.
Qed.

Lemma add_date_keeps d field : keeps summary_fields d (add_date d field).
Proof.
  unfold add_date. destruct field as [source_field target_field].
  destruct (Dict.get d source_field) as [[]|]; try apply keeps_refl.
  destruct (Dict.mem d target_field) eqn:Em; [apply keeps_refl|].
  destruct (first_format _ _); [|apply keeps_refl].
  now apply keeps_set_absent.
Qed.

Lemma add_dates_keeps d : keeps summary_fields d (add_dates d).
Proof.
  unfold add_dates. generalize date_fields. intros fields. revert d.
  induction fields as [|f fields IH]; intros d; simpl.
  - apply keeps_refl.
  - eapply keeps_trans; [apply add_date_keeps | apply IH].
Qed.

Lemma add_camera_info_keeps d r :
  add_camera_info d = Ok r -> keeps summary_fields d r.
Proof.
  unfold add_camera_info. destruct (present d _); [intros [= <-]; apply keeps_refl|].
  destruct (texts _); simpl; [|discriminate].
  intros [= <-]. apply keeps_set. simpl. tauto.
Qed.

Lemma add_exposure_info_keeps d r :
  add_exposure_info d = Ok r -> keeps summary_fields d r.
Proof.
  unfold add_exposure_info. destruct (exposure_entries _ _) as [[|t ts]|]; simpl;
    [intros [= <-]; apply keeps_refl | | discriminate].
  intros [= <-]. apply keeps_set. simpl. tauto.
Qed.

(** X20.  What the derivation keeps.  When [_add_derived_metadata]
    returns, every key present before, other than the five summary names
    AspectRatio, AspectRatioName, Megapixels, CameraInfo and ExposureInfo,
    has its original value afterwards; in particular the formatted dates
    DateTaken, DateCreated and DateModified are added only when absent. *)
Theorem derived_fields_keep_other_keys (md md' : dict) (k : string) (v : pyval) :
  _add_derived_metadata md = Ok md' ->
  ~ In k summary_fields ->
  Dict.get md k = Some v ->
  Dict.get md' k = Some v.
Proof.
  unfold _add_derived_metadata. intros H Hk Hv.
  destruct (add_aspect_ratio md) as [r1|] eqn:E1; [simpl in H|discriminate].
  destruct (add_megapixels r1) as [r2|] eqn:E2; [simpl in H|discriminate].
  destruct (add_camera_info (add_dates r2)) as [r3|] eqn:E3; [simpl in H|discriminate].
  apply (add_exposure_info_keeps _ _ H k v Hk).
  apply (add_camera_info_keeps _ _ E3 k v Hk).
  apply (add_dates_keeps r2 k v Hk).
  apply (add_megapixels_keeps _ _ E2 k v Hk).
  apply (add_aspect_ratio_keeps _ _ E1 k v Hk).
  exact Hv.
Qed.

End WithLib.

(** A record that already has a date under the name of a derived date and
    a text under the name of the camera summary. *)
Definition described_record : dict :=
  [("Make", PStr "Canon"); ("Model", PStr "EOS R5");
   ("DateTimeOriginal", PStr "2021:03:04 10:20:30");
   ("DateTaken", PStr "4 March 2021"); ("CameraInfo", PStr "studio body 2")].

Lemma derived_fields_keep_other_keys_witness :
  Dict.get
    [("Make", PStr "Canon"); ("Model", PStr "EOS R5");
     ("DateTimeOriginal", PStr "2021:03:04 10:20:30");
     ("DateTaken", PStr "4 March 2021"); ("CameraInfo", PStr "Canon - EOS R5")]
    "DateTaken" = Some (PStr "4 March 2021").
Proof.
  apply (@derived_fields_keep_other_keys Reference.python described_record).
  - reflexivity.
  - simpl. intros [H|[H|[H|[H|[H|[]]]]]]; discriminate H.
  - reflexivity.
Defined.

(** C3.  The code at the failing input.  On a cleaned record that already
    has a [DateTaken] and a [CameraInfo], the derivation keeps the date,
    whose block tests [target_field not in result], and replaces the
    camera summary, which is assigned with no such test: a key present
    before the derivation has lost its value. *)
Theorem existing_summary_is_overwritten :
  @_add_derived_metadata Reference.python described_record =
    Ok [("Make", PStr "Canon"); ("Model", PStr "EOS R5");
        ("DateTimeOriginal", PStr "2021:03:04 10:20:30");
        ("DateTaken", PStr "4 March 2021"); ("CameraInfo", PStr "Canon - EOS R5")] /\
  Dict.get described_record "DateTaken" = Some (PStr "4 March 2021") /\
  Dict.get described_record "CameraInfo" = Some (PStr "studio body 2") /\
  PStr "Canon - EOS R5" <> PStr "studio body 2".
Proof. repeat split. discriminate. Qed.

End DerivedFacts.

(** ** The fold of the device profile *)

Module FoldFacts.
Import MetadataExtractor.
Section WithLib.

Context {lib : PyLib} {db : DeviceIdentifier.DeviceDb}.


End WithLib.




End FoldFacts.

(** ** The generic scan *)

Module GenericFacts.
Import GPSParser.
Section WithLib.

Context {lib : PyLib}.

(** [-90 <= lat <= 90] and [-180 <= lon <= 180], as comparisons of floats *)
Definition in_range (lat lon : float) : Prop :=
  (-90 <=? lat)%float = true /\ (lat <=? 90)%float = true /\
  (-180 <=? lon)%float = true /\ (lon <=? 180)%float = true.

Lemma valid_in_range lat lon : valid_coordinates lat lon = true -> in_range lat lon.
Proof.
  unfold valid_coordinates, in_range. intros H.
  apply andb_prop in H as [H1 H2].
  apply andb_prop in H1 as [H1 H1'].
  apply andb_prop in H2 as [H2 H2'].
  auto.
Qed.

Lemma decimal_pair_in_range text lat lon :
  decimal_pair text = Some (lat, lon) -> in_range lat lon.
Proof.
  unfold decimal_pair.
  destruct (Re.search _ _) as [m|]; [|discriminate].
  destruct (float_of_str _) as [x|]; [|discriminate].
  destruct (float_of_str _) as [y|]; [|discriminate].
  destruct (valid_coordinates x y) eqn:E; [|discriminate].
  intros [= <- <-]. now apply valid_in_range.
Qed.

Lemma dms_pair_in_range text lat lon :
  dms_pair text = Ok (Some (lat, lon)) -> in_range lat lon.
Proof.
  unfold dms_pair.
  destruct (Re.search _ _) as [m|]; [|discriminate].
  destruct (float_of_str _) as [lat_sec|]; [|discriminate].
  destruct (float_of_str _) as [lon_sec|]; [|discriminate].
  destruct (dms_sum _ _ lat_sec) as [a|]; [simpl|discriminate].
  destruct (dms_sum _ _ lon_sec) as [b|]; [simpl|discriminate].
  match goal with |- context [valid_coordinates ?x ?y] =>
    destruct (valid_coordinates x y) eqn:E end; [|discriminate].
  intros [= <- <-]. now apply valid_in_range.
Qed.

Lemma extracted_in_range text lat lon :
  _extract_coordinates_from_string text = Ok (Some (lat, lon)) -> in_range lat lon.
Proof.
  unfold _extract_coordinates_from_string.
  destruct (decimal_pair text) as [[x y]|] eqn:E.
  - intros [= <- <-]. now apply (decimal_pair_in_range text).
  - apply dms_pair_in_range.
Qed.

(** C10.  Every pair found in a text by the generic scan lies in the valid
    ranges, and the result of the scan over a record is either empty or
    exactly a Latitude and a Longitude with -90 <= Latitude <= 90 and
    -180 <= Longitude <= 180: a matched pair outside the ranges gives no
    coordinates. *)
Theorem generic_scan_in_range (text : string) (md gps_info : dict) :
  (forall lat lon,
     _extract_coordinates_from_string text = Ok (Some (lat, lon)) -> in_range lat lon) /\
  (_parse_generic_gps md = Ok gps_info ->
   gps_info = [] \/
   exists lat lon,
     gps_info = [("Latitude", PFloat lat); ("Longitude", PFloat lon)] /\
     in_range lat lon).
Proof.
  split; [intros lat lon; apply extracted_in_range|].
  induction md as [|[key value] md IH]; simpl.
  - intros [= <-]. now left.
  - destruct value; try exact IH.
    destruct (gps_like key); [|exact IH].
    destruct (_extract_coordinates_from_string s) as [[[lat lon]|]|] eqn:E; simpl;
      [ | exact IH | discriminate].
    intros [= <-]. right. exists lat, lon. split; [reflexivity|].
    now apply (extracted_in_range s).
Qed.

End WithLib.

Definition gps_in_a_comment : dict :=
  [("Software", PStr "12.345, -67.890"); ("GPSPosition", PStr "12.345, -67.890")].

Lemma generic_scan_in_range_witness :
  exists lat lon,
    @_parse_generic_gps Reference.python gps_in_a_comment =
      Ok [("Latitude", PFloat lat); ("Longitude", PFloat lon)] /\
    in_range lat lon.
Proof.
  destruct (@generic_scan_in_range Reference.python "" gps_in_a_comment
              [("Latitude", PFloat (Num.of_ratio 12345 1000));
               ("Longitude", PFloat (- Num.of_ratio 67890 1000)%float)])
    as [_ H].
  destruct (H eq_refl) as [H0 | (lat & lon & Heq & Hr)].
  - discriminate H0.
  - exists lat, lon. split; [|exact Hr].
    rewrite <- Heq. reflexivity.
Defined.

(** A pair out of range is dropped: the scan finds no coordinates. *)
Lemma out_of_range_is_dropped :
  @_parse_generic_gps Reference.python [("GPSPosition", PStr "95.5, 10.25")] = Ok [] /\
  @_parse_generic_gps Reference.python
     [("Location", PStr ("95° 10' 30" ++ Str.dquote ++ " N, 10° 20' 30" ++ Str.dquote ++ " E"))]
    = Ok [].
Proof. split; reflexivity. Qed.

End GenericFacts.

(** ** Reverse geocoding *)

Module GeocodeFacts.
Import GPSParser.

#[local] Set Warnings "-inexact-float".

Section WithLib.

Context {lib : PyLib}.

(** A service that is not installed, or whose call raises. *)
Definition fails {A} (service : option (pyval -> pyval -> res A)) (lat lon : pyval) : Prop :=
  match service with
  | None => True
  | Some call => exists e, call lat lon = Raise e
  end.

(** The cache key of two floats. *)
Definition float_key (x y : float) : string :=
  Num.format_fixed 6 x ++ "," ++ Num.format_fixed 6 y.

Lemma cache_key_float x y : cache_key (PFloat x) (PFloat y) = Ok (float_key x y).
Proof. reflexivity. Qed.

Lemma online_fails_none (geo : Geocoders) lat lon :
  fails online lat lon -> online_lookup lat lon = None.
Proof.
  unfold fails, online_lookup. destruct online as [call|]; [|reflexivity].
  intros [e ->]. reflexivity.
Qed.

Lemma offline_fails_none (geo : Geocoders) lat lon :
  fails offline lat lon -> offline_lookup lat lon = None.
Proof.
  unfold fails, offline_lookup. destruct offline as [call|]; [|reflexivity].
  intros [e ->]. reflexivity.
Qed.

(** With failing services the lookup is the one of a parser without
    services. *)
Lemma failing_like_absent (geo : Geocoders) c lat lon :
  fails online lat lon -> fails offline lat lon ->
  reverse_geocode (geo := geo) c lat lon =
  reverse_geocode (geo := Reference.no_geocoders) c lat lon.
Proof.
  intros Hon Hoff. unfold reverse_geocode.
  rewrite (online_fails_none geo _ _ Hon), (offline_fails_none geo _ _ Hoff).
  reflexivity.
Qed.

Lemma enrich_failing_like_absent (geo : Geocoders) c gps_info :
  (forall lat lon, fails online lat lon /\ fails offline lat lon) ->
  enrich (geo := geo) c gps_info = enrich (geo := Reference.no_geocoders) c gps_info.
Proof.
  intros H. unfold enrich.
  destruct (Dict.get gps_info "Latitude") as [lat|]; [|reflexivity].
  destruct (Dict.get gps_info "Longitude") as [lon|]; [|reflexivity].
  destruct (is_number lat && is_number lon); [|reflexivity].
  destruct (decimal_to_dms lat "lat"); [simpl|reflexivity].
  destruct (decimal_to_dms lon "lon"); [simpl|reflexivity].
  destruct (H lat lon) as [Hon Hoff].
  now rewrite (failing_like_absent geo c lat lon Hon Hoff).
Qed.

(** A lookup whose key is cached returns the cached answer, whatever the
    services do. *)
Lemma cached_answer (geo : Geocoders) c lat lon key info :
  cache_key lat lon = Ok key -> Dict.get c key = Some info ->
  reverse_geocode c lat lon = Ok (info, c).
Proof.
  intros Hk Hc. unfold reverse_geocode. rewrite Hk. simpl. now rewrite Hc.
Qed.

(** C8.  Reverse geocoding fails open and caches.  For every pair of
    float coordinates the lookup returns; when both services are
    unavailable or raise and the key is not cached, it returns the empty
    result and leaves the cache as it is; when the services fail at every
    point, [parse_gps_info] returns what it returns without any service,
    so the extraction goes on.  When a service answers, the answer is
    stored under the key made of the two coordinates with six decimals,
    and every later lookup of coordinates with that key returns the stored
    answer from the stored cache, whatever the services do then. *)
Theorem reverse_geocode_fails_open_and_caches
    (geo : Geocoders) (c : cache) (x y : float) :
  (exists r, reverse_geocode c (PFloat x) (PFloat y) = Ok r) /\
  (fails online (PFloat x) (PFloat y) -> fails offline (PFloat x) (PFloat y) ->
   Dict.get c (float_key x y) = None ->
   reverse_geocode c (PFloat x) (PFloat y) = Ok ([], c)) /\
  ((forall lat lon, fails online lat lon /\ fails offline lat lon) ->
   forall md, parse_gps_info (geo := geo) c md =
              parse_gps_info (geo := Reference.no_geocoders) c md) /\
  (forall info,
     Dict.get c (float_key x y) = None ->
     online_lookup (PFloat x) (PFloat y) = Some info \/
     (online_lookup (PFloat x) (PFloat y) = None /\
      offline_lookup (PFloat x) (PFloat y) = Some info) ->
     reverse_geocode c (PFloat x) (PFloat y) = Ok (info, Dict.set c (float_key x y) info) /\
     forall (geo' : Geocoders) (x' y' : float),
       float_key x' y' = float_key x y ->
       reverse_geocode (geo := geo') (Dict.set c (float_key x y) info) (PFloat x') (PFloat y') =
       Ok (info, Dict.set c (float_key x y) info)).
Proof.
  repeat split.
  - unfold reverse_geocode. rewrite cache_key_float. simpl.
    destruct (Dict.get c _); [eauto|].
    destruct (online_lookup _ _); [eauto|].
    destruct (offline_lookup _ _); eauto.
  - intros Hon Hoff Hc. unfold reverse_geocode. rewrite cache_key_float. simpl.
    rewrite Hc, (online_fails_none geo _ _ Hon), (offline_fails_none geo _ _ Hoff).
    reflexivity.
  - intros H md. unfold parse_gps_info, finish.
    destruct (parse_tier (tier_of md) md) as [gps_info|]; [simpl|reflexivity].
    now rewrite (enrich_failing_like_absent geo c gps_info H).
  - unfold reverse_geocode. rewrite cache_key_float. simpl. rewrite H.
    destruct H0 as [-> | [-> ->]]; reflexivity.
  - intros geo' x' y' Hk.
    apply (cached_answer geo' _ _ _ (float_key x y)).
    + rewrite cache_key_float. now rewrite Hk.
    + apply DictFacts.get_set_eq.
Qed.

End WithLib.

(** Services that raise, and an online service that knows one address. *)
Definition broken_services : Geocoders :=
  {| online := Some (fun _ _ => Raise OtherError);
     offline := Some (fun _ _ => Raise OtherError) |}.

Definition paris_service : Geocoders :=
  {| online := Some (fun _ _ =>
       Ok (Some [("city", "Paris"); ("state", "Ile-de-France"); ("country", "France")]));
     offline := None |}.

Definition paris : dict :=
  [("City", PStr "Paris"); ("State", PStr "Ile-de-France"); ("Country", PStr "France");
   ("LocationName", PStr "Paris, Ile-de-France, France")].

Lemma reverse_geocode_fails_open_and_caches_witness :
  reverse_geocode (geo := broken_services) []
     (PFloat 48.8566) (PFloat 2.3522) = Ok ([], []) /\
  reverse_geocode (geo := paris_service) []
     (PFloat 48.8566) (PFloat 2.3522) = Ok (paris, [("48.856600,2.352200", paris)]) /\
  reverse_geocode (geo := broken_services) [("48.856600,2.352200", paris)]
     (PFloat 48.85660004) (PFloat 2.35219996) = Ok (paris, [("48.856600,2.352200", paris)]).
Proof.
  split; [|split].
  - apply (reverse_geocode_fails_open_and_caches (lib := Reference.python)
             broken_services [] 48.8566 2.3522).
    + simpl. eauto.
    + simpl. eauto.
    + reflexivity.
  - apply (reverse_geocode_fails_open_and_caches (lib := Reference.python)
             paris_service [] 48.8566 2.3522).
    + reflexivity.
    + left. reflexivity.
  - apply (reverse_geocode_fails_open_and_caches (lib := Reference.python)
             paris_service [] 48.8566 2.3522).
    + reflexivity.
    + left. reflexivity.
    + reflexivity.
Defined.

End GeocodeFacts.

(** ** The four detection tiers *)

Module TierFacts.
Import GPSParser.

#[local] Set Warnings "-inexact-float".

Section WithLib.

Context {lib : PyLib} {geo : Geocoders}.

(** The tiers as the specification words them: three lists of detection
    keys tried in order, the first list with a key of the record wins, and
    the generic scan is what remains. *)
Definition detection_tiers : list (tier * list string) :=
  [(ExifTier, exif_gps_tags); (XmpTier, xmp_gps_tags); (IptcTier, iptc_location_tags)].

Fixpoint first_match (tiers : list (tier * list string)) (md : dict) : tier :=
  match tiers with
  | [] => GenericTier
  | (t, keys) :: tiers' => if any_key md keys then t else first_match tiers' md
  end.

Definition first_matching_tier (md : dict) : tier := first_match detection_tiers md.

(** The keys that the parser of a tier reads. *)
Definition exif_fields : list string :=
  ["GPSLatitude"; "GPSLongitude"; "GPSLatitudeRef"; "GPSLongitudeRef";
   "GPSAltitude"; "GPSAltitudeRef"; "GPSTimeStamp"; "GPSDateStamp";
   "GPSImgDirection"; "GPSSpeed"; "GPSSpeedRef"].

Definition tier_reads (t : tier) : list string :=
  match t with
  | ExifTier => flat_map exif_aliases exif_fields
  | XmpTier =>
      ["XMP:GPSLatitude"; "XMP:Latitude"; "XMP-exif:GPSLatitude";
       "XMP:GPSLongitude"; "XMP:Longitude"; "XMP-exif:GPSLongitude";
       "XMP:GPSAltitude"; "XMP:Altitude"; "XMP-exif:GPSAltitude"]
  | IptcTier =>
      ["IPTC:Sub-location"; "IPTC:Sublocation"; "IPTC:City";
       "IPTC:Province-State"; "IPTC:State"; "IPTC:Province"; "IPTC:Country"]
  | GenericTier => []
  end.

(** The keys consulted when a tier wins: the detection keys of the tiers
    up to it, and the keys that its parser reads.  The keys of the later
    tiers are not among them. *)
Definition consulted (t : tier) : list string :=
  match t with
  | ExifTier => exif_gps_tags ++ tier_reads ExifTier
  | XmpTier => exif_gps_tags ++ xmp_gps_tags ++ tier_reads XmpTier
  | IptcTier => exif_gps_tags ++ xmp_gps_tags ++ iptc_location_tags ++ tier_reads IptcTier
  | GenericTier => []
  end.

(** Two records with the same entries under the keys [ks]. *)
Definition agree (ks : list string) (md md' : dict) : Prop :=
  forall k, In k ks -> Dict.get md' k = Dict.get md k.

Lemma agree_app ks1 ks2 md md' :
  agree (ks1 ++ ks2) md md' -> agree ks1 md md' /\ agree ks2 md md'.
Proof.
  intros H. split; intros k Hk; apply H; apply in_or_app; auto.
Qed.

Lemma agree_tail k ks md md' : agree (k :: ks) md md' -> agree ks md md'.
Proof. intros H k' Hk'. apply H. now right. Qed.

Lemma agree_head k ks md md' : agree (k :: ks) md md' -> Dict.get md' k = Dict.get md k.
Proof. intros H. apply H. now left. Qed.

Lemma agree_incl ks ks' md md' :
  incl ks' ks -> agree ks md md' -> agree ks' md md'.
Proof. intros Hi H k Hk. apply H, Hi, Hk. Qed.

Lemma agree_field f md md' :
  In f exif_fields -> agree (tier_reads ExifTier) md md' -> agree (exif_aliases f) md md'.
Proof.
  intros Hf H k Hk. apply H. unfold tier_reads. apply in_flat_map. eauto.
Qed.

Lemma any_key_agree ks md md' : agree ks md md' -> any_key md' ks = any_key md ks.
Proof.
  unfold any_key. induction ks as [|k ks IH]; intros H; simpl; [reflexivity|].
  rewrite (DictFacts.mem_agree md md' k (agree_head _ _ _ _ H)).
  now rewrite (IH (agree_tail _ _ _ _ H)).
Qed.

(** A loop over a list of keys that looks the record up under each key
    gives the same on two records that agree on the keys. *)
Ltac by_keys keys :=
  induction keys as [|key keys IH]; intros H; simpl;
  [ reflexivity
  | rewrite (agree_head _ _ _ _ H); rewrite (IH (agree_tail _ _ _ _ H)); reflexivity ].

Lemma first_true_agree keys md md' :
  agree keys md md' -> first_true md' keys = first_true md keys.
Proof. unfold present_true. induction keys as [|key keys IH]; intros H; simpl.
  - reflexivity.
  - unfold present_true. rewrite (agree_head _ _ _ _ H), (IH (agree_tail _ _ _ _ H)).
    reflexivity.
Qed.

Lemma coordinate_agree keys md md' :
  agree keys md md' -> _extract_gps_coordinate md' keys = _extract_gps_coordinate md keys.
Proof. by_keys keys. Qed.

Lemma ref_agree keys default md md' :
  agree keys md md' -> _extract_gps_ref md' keys default = _extract_gps_ref md keys default.
Proof. by_keys keys. Qed.

Lemma measure_agree strip_m keys md md' :
  agree keys md md' -> first_measure strip_m md' keys = first_measure strip_m md keys.
Proof. by_keys keys. Qed.

Lemma altitude_ref_agree keys md md' :
  agree keys md md' -> altitude_ref md' keys = altitude_ref md keys.
Proof. by_keys keys. Qed.

Lemma timestamp_agree keys gps_info md md' :
  agree keys md md' -> gps_timestamp md' keys gps_info = gps_timestamp md keys gps_info.
Proof. by_keys keys. Qed.

Lemma datestamp_agree keys gps_info md md' :
  agree keys md md' -> gps_datestamp md' keys gps_info = gps_datestamp md keys gps_info.
Proof. by_keys keys. Qed.

Lemma speed_ref_agree keys gps_info md md' :
  agree keys md md' -> gps_speed_ref md' keys gps_info = gps_speed_ref md keys gps_info.
Proof. by_keys keys. Qed.

Lemma xmp_altitude_agree keys md md' :
  agree keys md md' -> xmp_altitude md' keys = xmp_altitude md keys.
Proof. by_keys keys. Qed.

Lemma bind_ext {A B} (m : res A) (f g : A -> res B) :
  (forall a, f a = g a) -> bind m f = bind m g.
Proof. intros H. destruct m; simpl; auto. Qed.

Lemma additional_agree gps_info md md' :
  agree (tier_reads ExifTier) md md' ->
  _extract_additional_gps_info md' gps_info = _extract_additional_gps_info md gps_info.
Proof.
  intros H.
  assert (Hf : forall f, In f exif_fields -> agree (exif_aliases f) md md')
    by (intros f Hf; now apply agree_field).
  unfold _extract_additional_gps_info, gps_measure.
  rewrite (timestamp_agree _ _ md md'), !(measure_agree _ _ md md')
    by (apply Hf; unfold exif_fields; cbn [In]; tauto).
  apply bind_ext; intros g1.
  rewrite (datestamp_agree _ _ md md') by (apply Hf; unfold exif_fields; cbn [In]; tauto).
  apply bind_ext; intros g2. apply bind_ext; intros g3.
  now rewrite (speed_ref_agree _ _ md md') by (apply Hf; unfold exif_fields; cbn [In]; tauto).
Qed.

Lemma exif_agree md md' :
  agree (tier_reads ExifTier) md md' -> _parse_exif_gps md' = _parse_exif_gps md.
Proof.
  intros H.
  assert (Hf : forall f, In f exif_fields -> agree (exif_aliases f) md md')
    by (intros f Hf; now apply agree_field).
  unfold _parse_exif_gps, _extract_gps_altitude.
  change altitude_keys with (exif_aliases "GPSAltitude").
  change altitude_ref_keys with (exif_aliases "GPSAltitudeRef").
  rewrite !(coordinate_agree _ md md'), !(ref_agree _ _ md md'),
    !(measure_agree _ _ md md'), !(altitude_ref_agree _ md md')
    by (apply Hf; unfold exif_fields; cbn [In]; tauto).
  apply bind_ext; intros lat. apply bind_ext; intros lon. apply bind_ext; intros alt.
  now apply additional_agree.
Qed.

Lemma xmp_agree md md' :
  agree (tier_reads XmpTier) md md' -> _parse_xmp_gps md' = _parse_xmp_gps md.
Proof.
  intros H. unfold _parse_xmp_gps.
  rewrite !(coordinate_agree _ md md'), (xmp_altitude_agree _ md md')
    by (eapply agree_incl; [|exact H]; intros k Hk; simpl in *; tauto).
  reflexivity.
Qed.

Lemma location_part_agree keys target acc md md' :
  agree keys md md' -> location_part md' keys target acc = location_part md keys target acc.
Proof. intros H. unfold location_part. now rewrite (first_true_agree _ md md' H). Qed.

Lemma iptc_agree md md' :
  agree (tier_reads IptcTier) md md' -> _parse_iptc_location md' = _parse_iptc_location md.
Proof.
  intros H. unfold _parse_iptc_location.
  rewrite !(location_part_agree _ _ _ md md')
    by (eapply agree_incl; [|exact H]; intros k Hk; simpl in *; tauto).
  reflexivity.
Qed.

Lemma tier_of_first md : tier_of md = first_matching_tier md.
Proof.
  unfold tier_of, first_matching_tier, detection_tiers, first_match,
    _has_exif_gps_tags, _has_xmp_gps_tags, _has_iptc_location_tags.
  simpl DeviceIdentifier.nonempty_dict. simpl negb.
  now rewrite !andb_true_r.
Qed.

Lemma first_matching_agree md md' :
  agree (consulted (first_matching_tier md)) md md' ->
  first_matching_tier md <> GenericTier ->
  first_matching_tier md' = first_matching_tier md.
Proof.
  unfold first_matching_tier, detection_tiers, first_match.
  destruct (any_key md exif_gps_tags) eqn:E1.
  { intros H _. apply agree_app in H as [H _].
    now rewrite (any_key_agree _ _ _ H), E1. }
  destruct (any_key md xmp_gps_tags) eqn:E2.
  { intros H _. apply agree_app in H as [H1 H]. apply agree_app in H as [H2 _].
    now rewrite (any_key_agree _ _ _ H1), E1, (any_key_agree _ _ _ H2), E2. }
  destruct (any_key md iptc_location_tags) eqn:E3.
  { intros H _. apply agree_app in H as [H1 H]. apply agree_app in H as [H2 H].
    apply agree_app in H as [H3 _].
    now rewrite (any_key_agree _ _ _ H1), E1, (any_key_agree _ _ _ H2), E2,
      (any_key_agree _ _ _ H3), E3. }
  intros _ H. now contradiction H.
Qed.

Lemma reads_consulted t md md' :
  agree (consulted t) md md' -> agree (tier_reads t) md md'.
Proof.
  destruct t; unfold consulted; intros H.
  - now apply agree_app in H as [_ H].
  - apply agree_app in H as [_ H]. now apply agree_app in H as [_ H].
  - apply agree_app in H as [_ H]. apply agree_app in H as [_ H].
    now apply agree_app in H as [_ H].
  - exact H.
Qed.

Lemma parse_tier_agree t md md' :
  t <> GenericTier -> agree (tier_reads t) md md' -> parse_tier t md' = parse_tier t md.
Proof.
  destruct t; intros Ht H; simpl.
  - now apply exif_agree.
  - now apply xmp_agree.
  - now apply iptc_agree.
  - now contradiction Ht.
Qed.

(** C1.  GPS resolution takes the first of the four tiers, in the order
    EXIF, XMP, IPTC, generic scan, that has a matching key, and its result
    is the result of that tier alone: what [parse_gps_info] returns is
    the outcome of the parser of the first matching tier, enriched (or
    empty after an exception), also when that tier yields no coordinates;
    and when a tier before the generic scan wins, a record that differs
    only outside the keys consulted up to that tier (so in the keys of any
    later tier) gives the same result: no later tier is consulted and no
    value of a later tier appears. *)
Theorem first_matching_tier_wins (c : cache) (md md' : dict) :
  tier_of md = first_matching_tier md /\
  parse_gps_info c md = finish c (parse_tier (first_matching_tier md) md) /\
  (first_matching_tier md <> GenericTier ->
   agree (consulted (first_matching_tier md)) md md' ->
   parse_gps_info c md' = parse_gps_info c md).
Proof.
  split; [apply tier_of_first|]. split.
  - unfold parse_gps_info. now rewrite tier_of_first.
  - intros Ht H. unfold parse_gps_info. rewrite !tier_of_first.
    rewrite (first_matching_agree md md' H Ht).
    rewrite (parse_tier_agree _ md md' Ht (reads_consulted _ _ _ H)).
    reflexivity.
Qed.

End WithLib.

(** A record in which every tier is populated, each with its own place,
    and the same record with other values in the later tiers. *)
Definition every_tier : dict :=
  [("GPS:GPSLatitude", PFloat 40.7128); ("GPS:GPSLatitudeRef", PStr "N");
   ("GPS:GPSLongitude", PFloat 74.0060); ("GPS:GPSLongitudeRef", PStr "W");
   ("XMP:GPSLatitude", PFloat 48.8566); ("XMP:GPSLongitude", PFloat 2.3522);
   ("IPTC:City", PStr "Sydney"); ("GPSPosition", PStr "35.6762, 139.6503")].

Definition every_tier_changed : dict :=
  [("GPS:GPSLatitude", PFloat 40.7128); ("GPS:GPSLatitudeRef", PStr "N");
   ("GPS:GPSLongitude", PFloat 74.0060); ("GPS:GPSLongitudeRef", PStr "W");
   ("XMP:GPSLatitude", PFloat (-33.8688)); ("IPTC:Country", PStr "Japan");
   ("GPSPosition", PStr "51.5074, -0.1278")].

Lemma first_matching_tier_wins_witness :
  parse_gps_info (lib := Reference.python) (geo := Reference.no_geocoders) [] every_tier_changed =
  parse_gps_info (lib := Reference.python) (geo := Reference.no_geocoders) [] every_tier.
Proof.
  apply (first_matching_tier_wins (lib := Reference.python) (geo := Reference.no_geocoders)
           [] every_tier every_tier_changed).
  - discriminate.
  - intros k Hk. vm_compute in Hk.
    repeat (destruct Hk as [<-|Hk]; [reflexivity|]). contradiction.
Defined.

(** Only the place of the first tier appears in the result. *)
Lemma only_first_tier_appears :
  fst (parse_gps_info (lib := Reference.python) (geo := Reference.no_geocoders) [] every_tier) =
  [("Latitude", PFloat 40.7128); ("Longitude", PFloat (-74.0060));
   ("Location", PStr "40.7128, -74.006"); ("Coordinates", PStr "40.7128, -74.006");
   ("LatitudeDMS", PStr ("40° 42' 46.08" ++ Str.dquote ++ " N"));
   ("LongitudeDMS", PStr ("74° 0' 21.60" ++ Str.dquote ++ " W"));
   ("GoogleMapsURL",
    PStr "https://www.google.com/maps/search/?api=1&query=40.7128,-74.006")].
Proof. vm_compute. reflexivity. Qed.

(** The first tier wins by one of its detection keys even when its parser
    reads no coordinate under it: the result is empty, whatever the later
    tiers hold. *)
Lemma first_tier_without_coordinates :
  parse_gps_info (lib := Reference.python) (geo := Reference.no_geocoders) []
    [("GPS:Latitude", PFloat 40.7128); ("XMP:GPSLatitude", PFloat 48.8566);
     ("XMP:GPSLongitude", PFloat 2.3522); ("IPTC:City", PStr "Sydney")] = ([], []).
Proof. vm_compute. reflexivity. Qed.

End TierFacts.

(** * Degrees, minutes and seconds: converting there and back

    [dms_to_decimal] and [decimal_to_dms] compute on binary64 numbers, so
    what comes back is the text of the angle after three roundings.  The
    lemmas below evaluate both functions, with Python's [float] and
    [format], on given texts. *)
Module DmsFacts.
Import GPSParser.

#[local] Set Warnings "-inexact-float".

(** the text of [d] degrees, [m] minutes and [s] whole seconds (written
    with two decimals) followed by the letter of the hemisphere *)
Definition dms_text (d m s : Z) (letter : string) : string :=
  Str.of_Z d ++ "° " ++ Str.of_Z m ++ "' " ++ Str.of_Z s ++ ".00" ++
  Str.dquote ++ " " ++ letter.

(** [decimal_to_dms(dms_to_decimal(s), axis)] *)
Definition round_trip (s axis : string) : res string :=
  x <- dms_to_decimal (lib := Reference.python) s ;;
  decimal_to_dms (PFloat x) axis.

(** the angle read from [s] and the angle read from the text that comes
    back differ by at most [1e-9] degrees *)
Definition reads_back (s axis : string) : bool :=
  match dms_to_decimal (lib := Reference.python) s with
  | Ok x =>
      match decimal_to_dms (PFloat x) axis with
      | Ok t =>
          match dms_to_decimal (lib := Reference.python) t with
          | Ok y => (abs (x - y) <=? 1e-9)%float
          | Raise _ => false
          end
      | Raise _ => false
      end
  | Raise _ => false
  end.

Definition upto (n : nat) : list Z := map Z.of_nat (seq 0 n).

(** The text of the documentation comes back character for character. *)
Lemma round_trip_of_documented_example :
  round_trip (dms_text 40 26 46 "N") "lat" = Ok (dms_text 40 26 46 "N").
Proof. vm_compute. reflexivity. Qed.

Lemma round_trip_of_western_longitude :
  round_trip (dms_text 79 58 56 "W") "lon" = Ok (dms_text 79 58 56 "W").
Proof. vm_compute. reflexivity. Qed.


(** A zero angle loses its southern letter: [-0.0 >= 0] holds. *)
Lemma round_trip_of_southern_zero :
  round_trip (dms_text 0 0 0 "S") "lat" = Ok (dms_text 0 0 0 "N").
Proof. vm_compute. reflexivity. Qed.

(** On the other axis the letter changes. *)
Lemma round_trip_on_other_axis :
  round_trip (dms_text 40 26 46 "N") "lon" = Ok (dms_text 40 26 46 "E").
Proof. vm_compute. reflexivity. Qed.

(** Every whole minute and second of the fortieth degree reads back within
    [1e-9] degrees. *)
Lemma fortieth_degree_reads_back :
  forallb (fun m => forallb (fun s => reads_back (dms_text 40 m s "N") "lat") (upto 60))
          (upto 60) = true.
Proof. vm_compute. reflexivity. Qed.

End DmsFacts.

(** * Further properties of the three modules *)

(** ** The order of binary64 numbers

    [<] and [<=] on floats are the comparisons of the IEEE specification;
    the lemmas below are the transitivity facts that the range tests of
    the source rely on.  A comparison with a NaN is false, so every
    hypothesis below excludes it. *)

Module FloatOrder.

Ltac compare_fields :=
  repeat match goal with
         | |- context [Z.compare ?x ?y] => destruct (Z.compare_spec x y)
         | |- context [PosDef.Pos.compare_cont Eq ?x ?y] =>
             change (PosDef.Pos.compare_cont Eq x y) with (Pos.compare x y);
             destruct (Pos.compare_spec x y)
         end.

Lemma SFcompare_lt_le a b c :
  SFcompare a b = Some Lt ->
  (SFcompare b c = Some Lt \/ SFcompare b c = Some Eq) ->
  SFcompare a c = Some Lt.
Proof.
  destruct a as [sa|sa| |sa ma ea], b as [sb|sb| |sb mb eb], c as [sc|sc| |sc mc ec];
    simpl; try destruct sa; try destruct sb; try destruct sc; simpl;
    intros H [K|K]; try congruence; revert H K;
    compare_fields; simpl; try congruence; try lia.
Qed.

Lemma SFcompare_lt_gt a b : SFcompare a b = Some Lt -> SFcompare b a = Some Gt.
Proof.
  destruct a as [sa|sa| |sa ma ea], b as [sb|sb| |sb mb eb];
    simpl; try destruct sa; try destruct sb; simpl; try congruence;
    compare_fields; simpl; try congruence; try lia.
Qed.

Lemma SFcompare_le_le a b c :
  (SFcompare a b = Some Lt \/ SFcompare a b = Some Eq) ->
  (SFcompare b c = Some Lt \/ SFcompare b c = Some Eq) ->
  SFcompare a c = Some Lt \/ SFcompare a c = Some Eq.
Proof.
  destruct a as [sa|sa| |sa ma ea], b as [sb|sb| |sb mb eb], c as [sc|sc| |sc mc ec];
    simpl; try destruct sa; try destruct sb; try destruct sc; simpl;
    intros [H|H] [K|K]; try congruence; auto; revert H K;
    compare_fields; simpl; auto; try congruence; try lia.
Qed.

Lemma ltb_leb_trans (a b c : float) :
  (a <? b)%float = true -> (b <=? c)%float = true -> (a <? c)%float = true.
Proof.
  rewrite !ltb_spec, leb_spec. unfold SFltb, SFleb.
  destruct (SFcompare (Prim2SF a) (Prim2SF b)) as [[]|] eqn:E1; try discriminate.
  destruct (SFcompare (Prim2SF b) (Prim2SF c)) as [[]|] eqn:E2; try discriminate;
    intros _ _; rewrite (SFcompare_lt_le _ _ _ E1); auto.
Qed.

Lemma ltb_not_leb (a b : float) : (a <? b)%float = true -> (b <=? a)%float = false.
Proof.
  rewrite ltb_spec, leb_spec. unfold SFltb, SFleb.
  destruct (SFcompare (Prim2SF a) (Prim2SF b)) as [[]|] eqn:E1; try discriminate.
  intros _. now rewrite (SFcompare_lt_gt _ _ E1).
Qed.

Lemma leb_trans (a b c : float) :
  (a <=? b)%float = true -> (b <=? c)%float = true -> (a <=? c)%float = true.
Proof.
  rewrite !leb_spec. unfold SFleb. intros H K.
  destruct (SFcompare_le_le (Prim2SF a) (Prim2SF b) (Prim2SF c)) as [E|E].
  - destruct (SFcompare (Prim2SF a) (Prim2SF b)) as [[]|]; auto; discriminate.
  - destruct (SFcompare (Prim2SF b) (Prim2SF c)) as [[]|]; auto; discriminate.
  - now rewrite E.
  - now rewrite E.
Qed.

(** A number at or above [s] is not below any [e] that is at most [s]. *)
Lemma not_below (b s e : float) :
  (s <=? b)%float = true -> (e <=? s)%float = true -> (b <? e)%float = false.
Proof.
  intros Hs He. destruct (b <? e)%float eqn:E; [|reflexivity].
  pose proof (ltb_leb_trans _ _ _ E He) as L.
  apply ltb_not_leb in L. congruence.
Qed.

End FloatOrder.

(** ** The compass *)

Module CardinalFacts.
Import GPSTools FloatOrder.
#[local] Set Warnings "-inexact-float".

(** X1.  [get_cardinal_direction] gives a bearing the name of the 45-degree
    sector that holds it: for each of the seven ranges after the first, a
    bearing with [start <= bearing < end] gets the name of that range.
    The first range of the table, from 337.5 to 22.5, holds no number, so
    North is only ever the default: it is the answer for every bearing
    outside [22.5, 337.5), which covers the bearings below 22.5, those from
    337.5 on, negative ones, those above 360 and NaN. *)
Theorem cardinal_direction_by_sector (bearing : float) :
  (forall start stop name,
     In (start, stop, name) (tl directions) ->
     (start <=? bearing)%float = true -> (bearing <? stop)%float = true ->
     get_cardinal_direction bearing = name) /\
  ((22.5 <=? bearing)%float && (bearing <? 337.5)%float = false ->
   get_cardinal_direction bearing = "N") /\
  (337.5 <=? bearing)%float && (bearing <? 22.5)%float = false.
Proof.
  assert (Dead : (337.5 <=? bearing)%float && (bearing <? 22.5)%float = false).
  { destruct (337.5 <=? bearing)%float eqn:E; [|reflexivity].
    simpl. now apply (not_below bearing 337.5%float). }
  split; [|split; [|exact Dead]].
  - intros start stop name Hin Hs He.
    unfold get_cardinal_direction, directions. cbn [first_direction].
    rewrite Dead.
    cbn [tl directions In] in Hin.
    repeat destruct Hin as [Hin|Hin]; try contradiction;
      injection Hin as <- <- <-;
      repeat match goal with
             | |- context [(bearing <? ?e)%float] =>
                 rewrite (not_below bearing _ e Hs eq_refl), andb_false_r
             end;
      now rewrite Hs, He.
  - intros Hout.
    unfold get_cardinal_direction, directions. cbn [first_direction].
    rewrite Dead.
    repeat match goal with
           | |- context [((?s <=? bearing) && (bearing <? ?e))%float] =>
               let E := fresh "E" in
               let Lo := fresh "Lo" in
               let Hi := fresh "Hi" in
               destruct ((s <=? bearing) && (bearing <? e))%float eqn:E;
               [ exfalso; apply andb_prop in E; destruct E as [Lo Hi];
                 rewrite (leb_trans 22.5%float s bearing eq_refl Lo) in Hout;
                 rewrite (ltb_leb_trans bearing e 337.5%float Hi eq_refl) in Hout;
                 discriminate | ]
           end.
    reflexivity.
Qed.

Lemma cardinal_directions_of_a_compass :
  map get_cardinal_direction [0; 22.5; 45; 90; 180; 270; 337.4; 337.5; 359.9; 360; -10]%float =
  ["N"; "NE"; "NE"; "E"; "S"; "W"; "NW"; "N"; "N"; "N"; "N"].
Proof. reflexivity. Qed.

End CardinalFacts.

(** ** Validity of a pair of coordinates *)

Module ValidCoordinateFacts.
Import GPSTools.
Section WithLib.
Context {lib : PyLib}.
#[local] Set Warnings "-inexact-float".

(** The values that can be ordered with an [int], and text. *)
Definition number_or_text (v : pyval) : bool :=
  match v with
  | PBool _ | PInt _ | PFloat _ | PStr _ | PFraction _ _ => true
  | _ => false
  end.

Lemma between_total lo v hi :
  (exists b, between lo v hi = Ok b) \/ between lo v hi = Raise TypeError.
Proof.
  unfold between, int_le, le_int.
  destruct v; simpl; auto;
    match goal with |- context [if ?c then _ else _] => destruct c end; eauto.
Qed.

(** X2.  [is_valid_coordinate] never raises: for every pair of values it
    answers [True] or [False].  For two floats the answer is the range test
    [-90 <= lat <= 90 and -180 <= lon <= 180] (false for a NaN); two texts
    are read as floats first, and a text that is not a number gives
    [False]; a latitude that is neither a number nor text ([None], bytes,
    a list, ...) gives [False] whatever the longitude is. *)
Theorem is_valid_coordinate_fails_closed (latitude longitude : pyval) :
  (exists b, is_valid_coordinate latitude longitude = Ok b) /\
  (forall x y,
     is_valid_coordinate (PFloat x) (PFloat y) = Ok (GPSParser.valid_coordinates x y)) /\
  (forall s t,
     is_valid_coordinate (PStr s) (PStr t) =
     match float_of_str s, float_of_str t with
     | Some x, Some y => Ok (GPSParser.valid_coordinates x y)
     | _, _ => Ok false
     end) /\
  (number_or_text latitude = false ->
   is_valid_coordinate latitude longitude = Ok false).
Proof.
  assert (F : forall x y,
    (b <- between (-90) (PFloat x) 90 ;;
     if b then between (-180) (PFloat y) 180 else Ok false) =
    Ok (GPSParser.valid_coordinates x y)).
  { intros x y. unfold between, int_le, le_int, GPSParser.valid_coordinates.
    cbn [bind].
    change (Num.of_ratio (-90) 1) with (-90)%float.
    change (Num.of_ratio 90 1) with 90%float.
    change (Num.of_ratio (-180) 1) with (-180)%float.
    change (Num.of_ratio 180 1) with 180%float.
    destruct (-90 <=? x)%float; cbn [bind andb]; [|reflexivity].
    destruct (x <=? 90)%float; cbn [bind andb]; [|reflexivity].
    destruct (-180 <=? y)%float; cbn [bind andb]; reflexivity. }
  repeat split.
  - unfold is_valid_coordinate, try_except, float_of_text, GPSParser.parse_float.
    destruct latitude as [| | | |s| | | | | |];
      try destruct (float_of_str s);
      (destruct longitude as [| | | |t| | | | | |];
       try destruct (float_of_str t));
      cbn [bind value_or_type_error exn_eqb orb]; eauto;
      repeat match goal with
             | |- context [between ?a ?v ?b] =>
                 destruct (between_total a v b) as [[[] ->]| ->];
                 cbn [bind value_or_type_error exn_eqb orb]; eauto
             end.
  - intros x y. unfold is_valid_coordinate, float_of_text. cbn [bind].
    now rewrite F.
  - intros s t. unfold is_valid_coordinate, float_of_text, GPSParser.parse_float.
    destruct (float_of_str s); cbn [bind try_except]; [|reflexivity].
    destruct (float_of_str t); cbn [bind try_except]; [|reflexivity].
    now rewrite F.
  - intros H. unfold is_valid_coordinate, float_of_text, GPSParser.parse_float.
    destruct latitude; try discriminate;
      (destruct longitude as [| | | |t| | | | | |];
       try destruct (float_of_str t); reflexivity).
Qed.

End WithLib.

#[local] Set Warnings "-inexact-float".

Lemma valid_coordinates_of_some_values :
  map (fun p => is_valid_coordinate (lib := Reference.python) (fst p) (snd p))
    [(PFloat 48.8566, PFloat 2.3522); (PStr "48.8566", PStr "2.3522");
     (PInt 90, PInt (-180)); (PFloat 90.5, PFloat 0); (PStr "north", PStr "2.3522");
     (PNone, PFloat 0); (PFloat nan, PFloat 0)] =
  [Ok true; Ok true; Ok true; Ok false; Ok false; Ok false; Ok false].
Proof. vm_compute. reflexivity. Qed.

End ValidCoordinateFacts.

(** ** The privacy assessment in closed form *)

Module PrivacySummaryFacts.
Import DeviceIdentifier.
Section WithLib.
Context {lib : PyLib}.

(** What one pass finds, in the order of the checks: the name of each
    sensitive field with the recommendation that goes with it. *)
Definition findings (md : dict) (device_type : pyval) : list (string * string) :=
  ((if has_gps md
    then [("GPS Location", "Remove GPS data to protect location privacy")] else []) ++
   (if has_true md serial_keys
    then [("Serial Number", "Remove serial numbers to prevent device tracking")] else []) ++
   (if has_true md owner_keys
    then [("Owner/Author Information", "Remove owner/author information for anonymity")]
    else []) ++
   (if in_strs device_type ["Smartphone"; "Tablet"] && has_device_id md
    then [("Device Identifier", "Remove unique device identifiers")] else []) ++
   (if has_true md timestamp_keys
    then [("Timestamp", "Consider removing timestamps if time information is sensitive")]
    else []) ++
   (if has_true md software_keys
    then [("Software Information",
           "Consider removing software information to hide workflow details")]
    else []))%list.

(** The risk that the findings call for. *)
Definition expected_risk (md : dict) (device_type : pyval) : risk :=
  if has_gps md then High
  else if has_true md serial_keys || has_true md owner_keys ||
          (in_strs device_type ["Smartphone"; "Tablet"] && has_device_id md)
  then Medium
  else Low.

Definition closing_advice (sensitive : bool) : string :=
  if sensitive then "Use metadata cleaning tools before sharing images publicly"
  else "No sensitive metadata detected".

(** A check is a flag raised under a condition. *)
Definition raised (c : bool) (flag : assessment -> assessment) (a : assessment)
    : assessment :=
  if c then flag a else a.

Lemma raised_fields c flag label rec a :
  In flag [flag_high label rec; flag_medium label rec; flag_low label rec] ->
  sensitive_fields (raised c flag a) =
    (sensitive_fields a ++ (if c then [label] else []))%list /\
  Recommendations (raised c flag a) =
    (Recommendations a ++ (if c then [rec] else []))%list /\
  SensitiveDataPresent (raised c flag a) = SensitiveDataPresent a || c.
Proof.
  intros [<-|[<-|[<-|[]]]]; destruct c; cbn [raised flag_high flag_medium flag_low
    sensitive_fields Recommendations SensitiveDataPresent];
    rewrite ?app_nil_r, ?orb_true_r, ?orb_false_r; auto.
Qed.

Lemma pass_is_raised md device_type :
  pass md device_type =
  raised (has_true md software_keys)
    (flag_low "Software Information"
       "Consider removing software information to hide workflow details")
  (raised (has_true md timestamp_keys)
    (flag_low "Timestamp"
       "Consider removing timestamps if time information is sensitive")
  (raised (in_strs device_type ["Smartphone"; "Tablet"] && has_device_id md)
    (flag_medium "Device Identifier" "Remove unique device identifiers")
  (raised (has_true md owner_keys)
    (flag_medium "Owner/Author Information"
       "Remove owner/author information for anonymity")
  (raised (has_true md serial_keys)
    (flag_medium "Serial Number" "Remove serial numbers to prevent device tracking")
  (raised (has_gps md)
    (flag_high "GPS Location" "Remove GPS data to protect location privacy")
    initial_assessment))))).
Proof. reflexivity. Qed.

Ltac flag_member := cbn [In]; tauto.

Lemma map_one {A B} (f : A -> B) (c : bool) (x : A) :
  map f (if c then [x] else []) = if c then [f x] else [].
Proof. now destruct c. Qed.

Lemma length_one {A} (c : bool) (x : A) :
  List.length (if c then [x] else []) = if c then 1%nat else 0%nat.
Proof. now destruct c. Qed.

Lemma pass_findings md device_type :
  sensitive_fields (pass md device_type) = map fst (findings md device_type) /\
  Recommendations (pass md device_type) = map snd (findings md device_type) /\
  SensitiveDataPresent (pass md device_type) =
    negb (Nat.eqb (List.length (findings md device_type)) 0).
Proof.
  rewrite pass_is_raised. unfold findings.
  repeat match goal with
         | |- context [raised ?c ?f ?a] =>
             let H := fresh in
             unshelve epose proof (raised_fields c f _ _ a _) as H;
             [| | flag_member |];
             destruct H as (-> & -> & ->)
         end.
  cbn [sensitive_fields Recommendations SensitiveDataPresent initial_assessment app orb].
  rewrite !map_app, !length_app, !map_one, !length_one, <- !app_assoc.
  cbn [fst snd].
  repeat split.
  repeat match goal with |- context [if ?c then _ else _] => destruct c end;
    reflexivity.
Qed.

Lemma raised_high_risk c label rec a :
  PrivacyRisk (raised c (flag_high label rec) a) = if c then High else PrivacyRisk a.
Proof. now destruct c. Qed.

Lemma raised_medium_risk c label rec a :
  PrivacyRisk (raised c (flag_medium label rec) a) =
  if c && negb (is_high (PrivacyRisk a)) then Medium else PrivacyRisk a.
Proof. destruct c; cbn; [destruct (is_high (PrivacyRisk a))|]; reflexivity. Qed.

Lemma raised_low_risk c label rec a :
  PrivacyRisk (raised c (flag_low label rec) a) =
  if c && negb (SensitiveDataPresent a) then Low else PrivacyRisk a.
Proof. destruct c; cbn; [destruct (SensitiveDataPresent a)|]; reflexivity. Qed.

Lemma raised_present c flag label rec a :
  In flag [flag_high label rec; flag_medium label rec; flag_low label rec] ->
  SensitiveDataPresent (raised c flag a) = SensitiveDataPresent a || c.
Proof. intros H. now destruct (raised_fields c flag label rec a H) as (_ & _ & ->). Qed.

Lemma pass_risk md device_type :
  PrivacyRisk (pass md device_type) = expected_risk md device_type.
Proof.
  rewrite pass_is_raised. unfold expected_risk.
  rewrite !raised_low_risk, !raised_medium_risk, !raised_high_risk.
  repeat match goal with
         | |- context [SensitiveDataPresent (raised ?c ?f ?a)] =>
             rewrite (raised_present c f _ _ a) by flag_member
         end.
  cbn [SensitiveDataPresent PrivacyRisk initial_assessment].
  destruct (has_gps md), (has_true md serial_keys), (has_true md owner_keys),
    (in_strs device_type ["Smartphone"; "Tablet"] && has_device_id md),
    (has_true md timestamp_keys), (has_true md software_keys); reflexivity.
Qed.

(** X3.  The privacy assessment in closed form.  The risk is High exactly
    when a GPS key is present; otherwise Medium exactly when a serial
    number, owner information or (for a smartphone or tablet) a device
    identifier is found; otherwise Low, timestamps and software names
    alone never raising it.  The sensitive fields are the findings in the
    order of the checks, each with its recommendation in the same
    position, followed by one closing recommendation; SensitiveFields is
    present exactly when something was found. *)
Theorem privacy_assessment_summary (md : dict) (device_type : pyval) :
  let a := _assess_privacy_implications md device_type in
  let found := findings md device_type in
  let sensitive := negb (Nat.eqb (List.length found) 0) in
  Dict.get a "PrivacyRisk" = Some (PStr (risk_name (expected_risk md device_type))) /\
  Dict.get a "SensitiveDataPresent" = Some (PBool sensitive) /\
  Dict.get a "SensitiveFields" =
    (if sensitive then Some (PList (map PStr (map fst found))) else None) /\
  Dict.get a "Recommendations" =
    Some (PList (map PStr (map snd found ++ [closing_advice sensitive])%list)).
Proof.
  cbv zeta.
  destruct (pass_findings md device_type) as (F & R & S).
  unfold _assess_privacy_implications.
  rewrite <- S, <- F, <- R, <- pass_risk.
  destruct (SensitiveDataPresent (pass md device_type)); repeat split.
Qed.

End WithLib.

Lemma privacy_summary_of_a_phone_picture :
  _assess_privacy_implications
    [("IMEI", PStr "356938035643809"); ("CreateDate", PStr "2024:05:01 10:00:00")]
    (PStr "Smartphone") =
  [("PrivacyRisk", PStr "Medium"); ("SensitiveDataPresent", PBool true);
   ("Recommendations",
    PList [PStr "Remove unique device identifiers";
           PStr "Consider removing timestamps if time information is sensitive";
           PStr "Use metadata cleaning tools before sharing images publicly"]);
   ("SensitiveFields", PList [PStr "Device Identifier"; PStr "Timestamp"])].
Proof. vm_compute. reflexivity. Qed.

End PrivacySummaryFacts.

(** ** The texts of the device identifier *)

Module DeviceTextFacts.
Import DeviceIdentifier.

(** The names that [_normalize_manufacturer] can put in place of a make. *)
Definition normalized_names : list string := map snd known_manufacturers.

Lemma normalized_or_unchanged make :
  _normalize_manufacturer make = make \/
  In (_normalize_manufacturer make) normalized_names.
Proof.
  unfold _normalize_manufacturer, normalized_names.
  destruct (negb (Str.nonempty make)); [now left|].
  induction known_manufacturers as [|[key normalized] table IH]; [now left|].
  cbn [map snd In].
  destruct (String.eqb key (Str.lower make) || Str.startswith (Str.lower make) key).
  - right. now left.
  - destruct IH as [IH|IH]; [now left|right; now right].
Qed.

Lemma normalized_names_fixed name :
  In name normalized_names -> _normalize_manufacturer name = name.
Proof.
  unfold normalized_names, known_manufacturers. cbn [map snd In].
  intros H.
  repeat (destruct H as [<-|H]; [vm_compute; reflexivity|]).
  contradiction.
Qed.

(** X4.  [_normalize_manufacturer] is idempotent: a name that it returns
    is returned unchanged when it is normalised again, for every make,
    known or not. *)
Theorem normalize_manufacturer_idempotent (make : string) :
  _normalize_manufacturer (_normalize_manufacturer make) = _normalize_manufacturer make.
Proof.
  destruct (normalized_or_unchanged make) as [E|H].
  - now rewrite E.
  - now apply normalized_names_fixed.
Qed.

Lemma collapse_single_spaced (in_run : bool) (s : string) :
  Str.contains "  " (Str.collapse_from in_run s) = false /\
  (in_run = true -> Str.startswith (Str.collapse_from in_run s) " " = false).
Proof.
  revert in_run. induction s as [|c s IH]; intros in_run; [now split|].
  cbn [Str.collapse_from].
  destruct (Str.is_space c) eqn:Sp.
  - destruct in_run.
    + apply IH.
    + destruct (IH true) as [C St]. split; [|discriminate].
      cbn [Str.contains Str.startswith]. rewrite C, St by reflexivity.
      reflexivity.
  - assert (N : Ascii.eqb " " c = false).
    { destruct (Ascii.eqb_spec " "%char c) as [<-|]; [discriminate Sp|reflexivity]. }
    destruct (IH false) as [C _]. split.
    + cbn [Str.contains Str.startswith]. now rewrite N, C.
    + intros _. cbn [Str.startswith]. now rewrite N.
Qed.

Lemma filter_forallb (p : ascii -> bool) (s : string) :
  Str.forallb p (Str.filter p s) = true.
Proof.
  induction s as [|c s IH]; [reflexivity|].
  cbn [Str.filter]. destruct (p c) eqn:E; [|exact IH].
  cbn [Str.forallb]. now rewrite E.
Qed.

Lemma collapse_forallb (p q : ascii -> bool) (in_run : bool) (s : string) :
  (forall c, q c = true -> Str.is_space c = false -> p c = true) ->
  p " "%char = true ->
  Str.forallb q s = true ->
  Str.forallb p (Str.collapse_from in_run s) = true.
Proof.
  intros Hpq Hsp. revert in_run.
  induction s as [|c s IH]; intros in_run H; [reflexivity|].
  cbn [Str.forallb] in H. apply andb_prop in H. destruct H as [Hc Hs].
  cbn [Str.collapse_from].
  destruct (Str.is_space c) eqn:Sp.
  - destruct in_run; [now apply IH|].
    cbn [Str.forallb]. now rewrite Hsp, IH.
  - cbn [Str.forallb]. now rewrite (Hpq c Hc Sp), IH.
Qed.

(** X5.  What [_clean_device_string] returns holds no control character
    (no NUL, tab or line break: every character has a code of 32 or more)
    and no two spaces in a row, whatever the text it is given. *)
Theorem clean_device_string_is_printable (text : string) :
  Str.forallb (fun c => (32 <=? Str.ord c)%nat) (_clean_device_string text) = true /\
  Str.contains "  " (_clean_device_string text) = false.
Proof.
  unfold _clean_device_string.
  destruct (negb (Str.nonempty text)); [now split|].
  split; [|apply collapse_single_spaced].
  apply collapse_forallb
    with (q := fun c => (32 <=? Str.ord c)%nat || (Str.ord c =? 9)%nat).
  - intros c Hq Sp. unfold Str.is_space in Sp.
    destruct (32 <=? Str.ord c)%nat eqn:E; [reflexivity|].
    cbn [orb] in Hq. apply Nat.eqb_eq in Hq. rewrite Hq in Sp. discriminate Sp.
  - reflexivity.
  - apply filter_forallb.
Qed.

Lemma cleaned_device_strings :
  map _clean_device_string ["NIKON  CORPORATION"; "Canon" ++ String (Str.chr 0) " "; ""] =
  ["NIKON CORPORATION"; "Canon"; ""] /\
  map _normalize_manufacturer ["NIKON CORPORATION"; "fuji photo film"; "Acme"] =
  ["Nikon"; "Fujifilm"; "Acme"].
Proof. vm_compute. split; reflexivity. Qed.

End DeviceTextFacts.

(** ** The device profile and the database *)

Module ProfileFacts.
Import DeviceIdentifier DictFacts.
Section WithLib.
Context {lib : PyLib} {db : DeviceDb}.

(** The keys under which [identify_device] stores what the record itself
    says about the device. *)
Definition record_fields : list string :=
  ["DeviceMake"; "DeviceModel"; "Software"; "DeviceType"].

(** A dictionary that defines none of the record fields. *)
Definition apart (d : dict) : Prop :=
  forall k, In k record_fields -> Dict.get d k = None.

Lemma apart_empty : apart [].
Proof. intros k _. reflexivity. Qed.

Lemma apart_set d k v : apart d -> ~ In k record_fields -> apart (Dict.set d k v).
Proof.
  intros H Hk k' Hk'. rewrite get_set_neq; [now apply H|].
  intros ->. contradiction.
Qed.

Ltac other_key :=
  let X := fresh "X" in
  cbn [In record_fields]; intros X;
  repeat destruct X as [X|X]; try discriminate X; contradiction.

Lemma apart_copy_cleaned md keys target d :
  apart d -> ~ In target record_fields -> apart (copy_cleaned md keys target d).
Proof.
  intros H Ht. unfold copy_cleaned.
  destruct (first_true md keys); [now apply apart_set|exact H].
Qed.

Lemma apart_lens_specification v d r :
  apart d -> lens_specification v d = Ok r -> apart r.
Proof.
  intros H. unfold lens_specification.
  assert (K : forall a b c e,
    try_except
      (min_focal_length <- py_float a ;;
       max_focal_length <- py_float b ;;
       min_aperture <- py_float c ;;
       max_aperture <- py_float e ;;
       let info := Dict.set d "MinFocalLength" (PFloat min_focal_length) in
       let info := Dict.set info "MaxFocalLength" (PFloat max_focal_length) in
       let info := Dict.set info "MinAperture" (PFloat min_aperture) in
       let info := Dict.set info "MaxAperture" (PFloat max_aperture) in
       let focal_length_str :=
         if (min_focal_length =? max_focal_length)%float
         then str_of_float min_focal_length ++ "mm"
         else str_of_float min_focal_length ++ "-" ++ str_of_float max_focal_length ++ "mm" in
       let aperture_str :=
         if (min_aperture =? max_aperture)%float
         then "f/" ++ str_of_float min_aperture
         else "f/" ++ str_of_float min_aperture ++ "-" ++ str_of_float max_aperture in
       Ok (Dict.set info "LensSpecification" (PStr (focal_length_str ++ " " ++ aperture_str))))
      value_or_type_error (Ok d) = Ok r -> apart r).
  { intros a b c e. unfold try_except.
    destruct (py_float a) as [x1|e1]; cbn [bind];
      [|destruct (value_or_type_error e1); [now intros [= <-]|discriminate]].
    destruct (py_float b) as [x2|e2]; cbn [bind];
      [|destruct (value_or_type_error e2); [now intros [= <-]|discriminate]].
    destruct (py_float c) as [x3|e3]; cbn [bind];
      [|destruct (value_or_type_error e3); [now intros [= <-]|discriminate]].
    destruct (py_float e) as [x4|e4]; cbn [bind];
      [|destruct (value_or_type_error e4); [now intros [= <-]|discriminate]].
    intros [= <-]. repeat (apply apart_set; [|other_key]). exact H. }
  destruct v as [| | | | | |l|l| | |]; try (now intros [= <-]);
    destruct l as [|a [|b [|c [|e l]]]]; try (now intros [= <-]); apply K.
Qed.

Lemma apart_lens_info md r : _extract_lens_info md = Ok r -> apart r.
Proof.
  unfold _extract_lens_info.
  set (info := copy_cleaned md lens_serial_keys "LensSerialNumber" _).
  assert (A : apart info).
  { subst info. repeat (apply apart_copy_cleaned; [|other_key]). apply apart_empty. }
  destruct (match first_true md lens_spec_keys with
            | Some lens_spec => lens_specification lens_spec info
            | None => Ok info
            end) as [info'|] eqn:E; cbn [bind]; [|discriminate].
  assert (A' : apart info').
  { destruct (first_true md lens_spec_keys); [|now injection E as <-].
    eapply apart_lens_specification; eauto. }
  intros [= <-].
  set (info2 := if Dict.mem info' "LensModel" && negb (Dict.mem info' "LensMake") then _ else _).
  assert (A2 : apart info2).
  { subst info2. destruct (Dict.mem info' "LensModel" && negb (Dict.mem info' "LensMake")); auto.
    destruct (_extract_lens_make_from_model _); auto.
    destruct (Str.nonempty s); auto. apply apart_set; [auto|other_key]. }
  destruct (Dict.mem info2 "LensMake" && Dict.mem info2 "LensModel").
  - apply apart_set; [auto|other_key].
  - destruct (Dict.mem info2 "LensModel"); auto. apply apart_set; [auto|other_key].
Qed.

Lemma apart_shooting_mode md keys d : apart d -> apart (shooting_mode md keys d).
Proof.
  intros H. induction keys as [|k keys IH]; [exact H|].
  cbn [shooting_mode].
  destruct (Dict.get md k) as [[]|]; auto; apply apart_set; auto; other_key.
Qed.

Lemma apart_os_information md d : apart d -> apart (os_information md d).
Proof.
  intros H. unfold os_information.
  destruct (first_true md os_keys); [|exact H].
  repeat match goal with
         | |- apart (if ?c then _ else _) => destruct c
         | |- apart (match ?c with Some _ => _ | None => _ end) => destruct c
         | |- apart (Dict.set _ _ _) => apply apart_set; [|other_key]
         end; exact H.
Qed.

Lemma apart_additional md device_type :
  apart (_extract_additional_device_info md device_type).
Proof.
  unfold _extract_additional_device_info.
  repeat match goal with
         | |- apart (if ?c then _ else _) => destruct c
         | |- apart (os_information _ _) => apply apart_os_information
         | |- apart (shooting_mode _ _ _) => apply apart_shooting_mode
         | |- apart (copy_cleaned _ _ _ _) => apply apart_copy_cleaned; [|other_key]
         end; apply apart_empty.
Qed.

(** [add_missing] leaves a key that is already there as it is. *)
Lemma add_missing_keeps (info extra : dict) k v :
  Dict.get info k = Some v -> Dict.get (add_missing info extra) k = Some v.
Proof.
  unfold add_missing. revert info.
  induction extra as [|[k0 v0] extra IH]; intros info H; [exact H|].
  cbn [fold_left fst snd]. apply IH.
  unfold Dict.mem. destruct (Dict.get info k0) eqn:E; [exact H|].
  rewrite get_set_neq; [exact H|]. intros ->. congruence.
Qed.

(** What the record says is stored first. *)
Definition stated (make model software : option string) (device_type : pyval) : dict :=
  let info : dict := [] in
  let info := if some_text make then Dict.set info "DeviceMake" (PStr (text_or_empty make)) else info in
  let info := if some_text model then Dict.set info "DeviceModel" (PStr (text_or_empty model)) else info in
  let info := if some_text software then Dict.set info "Software" (PStr (text_or_empty software)) else info in
  if truthy device_type then Dict.set info "DeviceType" device_type else info.

Definition kept (d d' : dict) : Prop :=
  forall k v, In k record_fields -> Dict.get d k = Some v -> Dict.get d' k = Some v.

Lemma kept_update d other : apart other -> kept d (Dict.update d other).
Proof. intros A k v Hk H. rewrite get_update_other; auto. Qed.

Lemma kept_set d k0 v0 : ~ In k0 record_fields -> kept d (Dict.set d k0 v0).
Proof.
  intros Hk k v Hin H. rewrite get_set_neq; auto. intros ->. contradiction.
Qed.

Lemma kept_trans d1 d2 d3 : kept d1 d2 -> kept d2 d3 -> kept d1 d3.
Proof. intros H K k v Hk E. apply K; auto. Qed.

Lemma kept_refl d : kept d d.
Proof. intros k v _ H. exact H. Qed.

Lemma identify_device_keeps_stated md :
  kept (stated (fst (_extract_make_model md)) (snd (_extract_make_model md))
          (_extract_software md)
          (_identify_device_type (fst (_extract_make_model md))
             (snd (_extract_make_model md)) md))
       (identify_device md).
Proof.
  unfold identify_device, stated.
  destruct (_extract_make_model md) as [make model]. cbn [fst snd].
  set (info0 := if truthy _ then _ else _).
  set (device_type := _identify_device_type make model md).
  destruct (if eq_str device_type "Camera" then _extract_lens_info md else Ok []) as [lens|] eqn:L;
    [|apply kept_refl].
  assert (A : apart lens).
  { destruct (eq_str device_type "Camera"); [now apply (apart_lens_info md)|].
    injection L as <-. apply apart_empty. }
  set (info1 := Dict.update (Dict.update info0 lens) _).
  assert (K1 : kept info0 info1).
  { eapply kept_trans; [apply kept_update, A|apply kept_update, apart_additional]. }
  destruct (_lookup_device_in_database make model device_type) as [db_info|]; [|exact K1].
  eapply kept_trans; [exact K1|].
  eapply kept_trans; [intros k v _ H; apply (add_missing_keeps _ db_info _ _ H)|].
  match goal with
  | |- kept ?d (if ?c then Dict.set ?d' _ _ else ?d') =>
      assert (K2 : kept d d');
      [|destruct c; [eapply kept_trans; [exact K2|apply kept_set; other_key]|exact K2]]
  end.
  destruct (some_text make && negb (Dict.mem (add_missing info1 db_info) "Manufacturer"));
    [|apply kept_refl].
  destruct (String.eqb _ _); [apply kept_refl|apply kept_set; other_key].
Qed.

(** X6.  What the record itself says about the device is never replaced
    by a later step of [identify_device]: when the record gives a make, a
    model, a software name or a device type, the profile carries exactly
    that value under DeviceMake, DeviceModel, Software and DeviceType,
    whatever the lens details, the additional details and the database
    answer contain, and also when a later step raises. *)
Theorem identify_device_keeps_what_the_record_says (md : dict) :
  let make := fst (_extract_make_model md) in
  let model := snd (_extract_make_model md) in
  let software := _extract_software md in
  let device_type := _identify_device_type make model md in
  let info := identify_device md in
  (some_text make = true ->
   Dict.get info "DeviceMake" = Some (PStr (text_or_empty make))) /\
  (some_text model = true ->
   Dict.get info "DeviceModel" = Some (PStr (text_or_empty model))) /\
  (some_text software = true ->
   Dict.get info "Software" = Some (PStr (text_or_empty software))) /\
  (truthy device_type = true -> Dict.get info "DeviceType" = Some device_type).
Proof.
  cbv zeta. pose proof (identify_device_keeps_stated md) as K.
  unfold stated in K.
  repeat split; intros H; apply K; try (cbn [In record_fields]; tauto);
    repeat match goal with
           | |- context [if ?c then _ else _] => destruct c
           end;
    try discriminate H;
    repeat first [apply get_set_eq | rewrite get_set_neq by discriminate].
Qed.

End WithLib.

Definition phone_picture : dict :=
  [("Make", PStr "Apple"); ("Model", PStr "iPhone 13 Pro"); ("Software", PStr "iOS 16.1")].

(** A database that answers every search with details of its own. *)
Definition chatty_database : DeviceDb :=
  {| db_empty := false;
     db_search := fun _ _ _ =>
       Ok [("Manufacturer", PStr "Apple Inc."); ("Software", PStr "stock");
           ("DeviceModel", PStr "A2638")] |}.

Lemma identify_device_keeps_what_the_record_says_witness :
  Dict.get (identify_device (lib := Reference.python) (db := chatty_database) phone_picture)
    "DeviceModel" = Some (PStr "iPhone 13 Pro") /\
  Dict.get (identify_device (lib := Reference.python) (db := chatty_database) phone_picture)
    "Software" = Some (PStr "iOS 16.1") /\
  Dict.get (identify_device (lib := Reference.python) (db := chatty_database) phone_picture)
    "Manufacturer" = Some (PStr "Apple Inc.").
Proof.
  pose proof (identify_device_keeps_what_the_record_says
                (lib := Reference.python) (db := chatty_database) phone_picture)
    as (_ & M & S & _).
  split; [apply M; reflexivity|].
  split; [apply S; reflexivity|].
  vm_compute. reflexivity.
Defined.

End ProfileFacts.

(** ** The order of the keys of a processed record *)

From Stdlib Require Import Permutation.
From Stdlib Require OrderedTypeEx.

Module SortedRecordFacts.
Import MetadataExtractor DictFacts.
Section WithLib.
Context {lib : PyLib}.

(** Every key once *)
Definition distinct (d : dict) : Prop := NoDup (Dict.keys d).

Lemma keys_set_in (d : dict) k v : In k (Dict.keys d) -> Dict.keys (Dict.set d k v) = Dict.keys d.
Proof.
  induction d as [|[k0 v0] d IH]; [intros []|].
  cbn [Dict.set Dict.keys map fst].
  destruct (String.eqb k k0) eqn:E; [reflexivity|].
  intros [->|H]; [now rewrite String.eqb_refl in E|].
  cbn [map fst]. f_equal. now apply IH.
Qed.

Lemma keys_set_out (d : dict) k v :
  ~ In k (Dict.keys d) -> Dict.keys (Dict.set d k v) = (Dict.keys d ++ [k])%list.
Proof.
  induction d as [|[k0 v0] d IH]; [reflexivity|].
  cbn [Dict.set Dict.keys map fst]. intros H.
  destruct (String.eqb_spec k k0) as [->|N]; [exfalso; apply H; now left|].
  cbn [map fst app]. f_equal. apply IH. intros K. apply H. now right.
Qed.

Lemma distinct_set (d : dict) k v : distinct d -> distinct (Dict.set d k v).
Proof.
  unfold distinct. intros H.
  destruct (in_dec string_dec k (Dict.keys d)) as [I|O].
  - now rewrite keys_set_in.
  - rewrite keys_set_out by exact O.
    apply NoDup_app; [exact H|repeat constructor; intros []|].
    intros x Hx [<-|[]]. contradiction.
Qed.

Lemma distinct_try (m : res dict) catches (d : dict) r :
  (forall r', m = Ok r' -> distinct r') -> distinct d ->
  try_except m catches (Ok d) = Ok r -> distinct r.
Proof.
  intros Hm Hd. unfold try_except.
  destruct m as [r'|e]; [intros [= <-]; now apply Hm|].
  destruct (catches e); [now intros [= <-]|discriminate].
Qed.

Lemma distinct_aspect_ratio d r : distinct d -> add_aspect_ratio d = Ok r -> distinct r.
Proof.
  intros H. unfold add_aspect_ratio.
  destruct (dimensions d) as [dims|]; [|now intros [= <-]].
  apply distinct_try; [|exact H].
  intros r'. destruct dims as [[w h]|]; cbn [bind]; [|discriminate].
  repeat match goal with |- context [if ?c then _ else _] => destruct c end;
    intros [= <-]; repeat apply distinct_set; exact H.
Qed.

Lemma distinct_megapixels d r : distinct d -> add_megapixels d = Ok r -> distinct r.
Proof.
  intros H. unfold add_megapixels.
  destruct (dimensions d) as [dims|]; [|now intros [= <-]].
  apply distinct_try; [|exact H].
  intros r'. destruct dims as [[w h]|]; cbn [bind]; [|discriminate].
  repeat match goal with |- context [if ?c then _ else _] => destruct c end;
    intros [= <-]; repeat apply distinct_set; exact H.
Qed.

Lemma distinct_dates d : distinct d -> distinct (add_dates d).
Proof.
  unfold add_dates. generalize date_fields. intros fields. revert d.
  induction fields as [|[source target] fields IH]; intros d H; [exact H|].
  cbn [fold_left]. apply IH. unfold add_date.
  destruct (Dict.get d source) as [[]|]; auto.
  destruct (Dict.mem d target); auto.
  destruct (first_format _ _); auto. now apply distinct_set.
Qed.

Lemma distinct_camera_info d r : distinct d -> add_camera_info d = Ok r -> distinct r.
Proof.
  intros H. unfold add_camera_info.
  destruct (present d _); [now intros [= <-]|].
  destruct (texts _); cbn [bind]; [|discriminate].
  intros [= <-]. now apply distinct_set.
Qed.

Lemma distinct_exposure_info d r : distinct d -> add_exposure_info d = Ok r -> distinct r.
Proof.
  intros H. unfold add_exposure_info.
  destruct (exposure_entries d exposure_fields) as [[|t ts]|]; cbn [bind];
    [now intros [= <-]| |discriminate].
  intros [= <-]. now apply distinct_set.
Qed.

Lemma distinct_derived d r : distinct d -> _add_derived_metadata d = Ok r -> distinct r.
Proof.
  intros H. unfold _add_derived_metadata.
  destruct (add_aspect_ratio d) as [d1|] eqn:E1; cbn [bind]; [|discriminate].
  destruct (add_megapixels d1) as [d2|] eqn:E2; cbn [bind]; [|discriminate].
  destruct (add_camera_info (add_dates d2)) as [d3|] eqn:E3; cbn [bind]; [|discriminate].
  apply distinct_exposure_info.
  eapply distinct_camera_info; [|exact E3].
  apply distinct_dates.
  eapply distinct_megapixels; [|exact E2].
  eapply distinct_aspect_ratio; eauto.
Qed.

Lemma distinct_entry d key value r :
  distinct d -> process_entry d key value = Ok r -> distinct r.
Proof.
  intros H. unfold process_entry.
  destruct (blank value); [now intros [= <-]|].
  destruct value as [| | | | |b|l|l| | |];
    try (destruct (_clean_value _) as [c|]; cbn [bind]; [|discriminate];
         destruct (is_none c); intros [= <-]; auto using distinct_set).
  - destruct (decoded_text _ _); intros [= <-]; auto using distinct_set.
  - destruct l as [|a [|b l]]; [now intros [= <-]| |].
    + destruct (_clean_value a); cbn [bind]; [|discriminate].
      intros [= <-]. now apply distinct_set.
    + destruct (clean_present _) as [[|c cs]|]; cbn [bind]; [| |discriminate];
        intros [= <-]; auto using distinct_set.
  - destruct l as [|a [|b l]]; [now intros [= <-]| |].
    + destruct (_clean_value a); cbn [bind]; [|discriminate].
      intros [= <-]. now apply distinct_set.
    + destruct (clean_present _) as [[|c cs]|]; cbn [bind]; [| |discriminate];
        intros [= <-]; auto using distinct_set.
  - intros [= <-]. now apply distinct_set.
Qed.

Lemma distinct_entries items d r :
  distinct d -> process_entries items d = Ok r -> distinct r.
Proof.
  revert d. induction items as [|[key value] items IH]; intros d H; [now intros [= <-]|].
  cbn [process_entries].
  destruct (process_entry d key value) as [d'|] eqn:E; cbn [bind]; [|discriminate].
  apply IH. eapply distinct_entry; eauto.
Qed.

Lemma insert_sorted_permutation kv l : Permutation (insert_sorted kv l) (kv :: l).
Proof.
  induction l as [|kv' l IH]; [reflexivity|].
  cbn [insert_sorted]. destruct (String.leb (fst kv) (fst kv')); [reflexivity|].
  rewrite IH. apply perm_swap.
Qed.

Lemma sorted_items_permutation d : Permutation (sorted_items d) d.
Proof.
  induction d as [|kv d IH]; [reflexivity|].
  cbn [sorted_items fold_right]. fold (sorted_items d).
  rewrite insert_sorted_permutation. now constructor.
Qed.

Definition key_le (a b : string * pyval) : Prop := String.leb (fst a) (fst b) = true.

Lemma insert_sorted_sorted kv l : Sorted key_le l -> Sorted key_le (insert_sorted kv l).
Proof.
  induction 1 as [|kv' l Hs IH Hd]; [repeat constructor|].
  cbn [insert_sorted]. destruct (String.leb (fst kv) (fst kv')) eqn:E.
  - repeat constructor; assumption.
  - constructor; [exact IH|].
    assert (L : key_le kv' kv).
    { destruct (String.leb_total (fst kv) (fst kv')) as [T|T]; [congruence|exact T]. }
    destruct Hd as [|kv2 l]; cbn [insert_sorted]; [now constructor|].
    destruct (String.leb (fst kv) (fst kv2)); now constructor.
Qed.

Lemma sorted_items_sorted d : Sorted key_le (sorted_items d).
Proof.
  induction d as [|kv d IH]; [constructor|].
  cbn [sorted_items fold_right]. now apply insert_sorted_sorted.
Qed.

Lemma leb_distinct_ltb a b : String.leb a b = true -> a <> b -> String.ltb a b = true.
Proof.
  unfold String.leb, String.ltb. intros H N.
  destruct (String.compare a b) eqn:E; [|reflexivity|discriminate].
  apply String.compare_eq_iff in E. contradiction.
Qed.

Lemma ltb_transitive a b c :
  String.ltb a b = true -> String.ltb b c = true -> String.ltb a c = true.
Proof.
  unfold String.ltb. intros H K.
  destruct (String.compare a b) eqn:E1; try discriminate.
  destruct (String.compare b c) eqn:E2; try discriminate.
  apply OrderedTypeEx.String_as_OT.cmp_lt in E1, E2.
  pose proof (OrderedTypeEx.String_as_OT.lt_trans _ _ _ E1 E2) as L.
  apply OrderedTypeEx.String_as_OT.cmp_lt in L.
  unfold OrderedTypeEx.String_as_OT.cmp in L. now rewrite L.
Qed.

Lemma ascending_keys (l : dict) :
  Sorted key_le l -> NoDup (Dict.keys l) ->
  Sorted (fun a b => String.ltb a b = true) (Dict.keys l).
Proof.
  induction 1 as [|kv l Hs IH Hd]; [constructor|].
  cbn [Dict.keys map]. intros N. inversion N as [|x xs Hx Hxs]; subst.
  constructor; [now apply IH|].
  destruct Hd as [|kv' l' Hle]; cbn [map]; constructor.
  apply leb_distinct_ltb; [exact Hle|].
  intros E. apply Hx. cbn [map]. now left.
Qed.

(** X7.  The record that [_process_metadata] returns has its keys in
    strictly ascending order of code points: every key comes before all
    the keys after it, so no key appears twice, whatever the order of the
    raw tags and whichever derived fields were added. *)
Theorem processed_record_is_sorted (metadata r : dict) :
  _process_metadata metadata = Ok r ->
  StronglySorted (fun a b => String.ltb a b = true) (Dict.keys r).
Proof.
  unfold _process_metadata.
  destruct (process_entries metadata []) as [d1|] eqn:E1; cbn [bind]; [|discriminate].
  destruct (_add_derived_metadata d1) as [d2|] eqn:E2; cbn [bind]; [|discriminate].
  intros [= <-].
  apply Sorted_StronglySorted; [exact ltb_transitive|].
  apply ascending_keys; [apply sorted_items_sorted|].
  assert (D : distinct d2).
  { eapply distinct_derived; [|exact E2].
    eapply distinct_entries; [|exact E1]. constructor. }
  unfold distinct, Dict.keys in *.
  eapply Permutation_NoDup; [|exact D].
  apply Permutation_map. symmetry. apply sorted_items_permutation.
Qed.

End WithLib.

Definition unsorted_tags : dict :=
  [("Model", PStr "EOS R5"); ("ISO", PInt 100); ("Make", PStr "Canon");
   ("Comment", PStr "   "); ("Artist", PNone)].

Lemma processed_record_is_sorted_witness :
  _process_metadata (lib := Reference.python) unsorted_tags =
    Ok [("CameraInfo", PStr "Canon - EOS R5"); ("ISO", PInt 100);
        ("Make", PStr "Canon"); ("Model", PStr "EOS R5")] /\
  StronglySorted (fun a b => String.ltb a b = true)
    ["CameraInfo"; "ISO"; "Make"; "Model"].
Proof.
  assert (E : _process_metadata (lib := Reference.python) unsorted_tags =
    Ok [("CameraInfo", PStr "Canon - EOS R5"); ("ISO", PInt 100);
        ("Make", PStr "Canon"); ("Model", PStr "EOS R5")]) by (vm_compute; reflexivity).
  split; [exact E|].
  exact (processed_record_is_sorted (lib := Reference.python) _ _ E).
Defined.

End SortedRecordFacts.

(** ** The tag readers *)

Module TagReaderFacts.
Import TagReaders DictFacts.
Section WithLib.
Context {lib : PyLib}.

(** A record none of whose keys names a thumbnail *)
Definition thumbnail_free (d : dict) : Prop :=
  forall k v, Dict.get d k = Some v -> Str.contains "thumbnail" (Str.lower k) = false.

Lemma thumbnail_free_store d name v :
  thumbnail_free d -> Str.contains "thumbnail" (Str.lower name) = false ->
  thumbnail_free (store d name v).
Proof.
  intros H Hn. destruct v as [v|]; [|exact H].
  intros k w. cbn [store]. rewrite get_set.
  destruct (String.eqb_spec name k) as [<-|]; [now intros _|apply H].
Qed.

(** A word without spaces and colons is found in a tag name exactly when
    it is found in the tag. *)
Definition plain (c : ascii) : bool := negb (Ascii.eqb c " ") && negb (Ascii.eqb c ":").

Lemma startswith_colons (p s : string) :
  Str.forallb plain p = true ->
  Str.startswith (Str.lower (spaces_to_colons s)) p = Str.startswith (Str.lower s) p.
Proof.
  revert s. induction p as [|a p IH]; intros s Hp; [now destruct s|].
  cbn [Str.forallb] in Hp. apply andb_prop in Hp. destruct Hp as [Ha Hp].
  destruct s as [|c s]; [reflexivity|].
  cbn [spaces_to_colons Str.lower Str.startswith]. rewrite IH by exact Hp.
  f_equal. unfold plain in Ha. apply andb_prop in Ha. destruct Ha as [A1 A2].
  destruct (Ascii.eqb_spec c " ") as [->|N]; [|reflexivity].
  change (Str.lower_char ":") with ":"%char. change (Str.lower_char " ") with " "%char.
  destruct (Ascii.eqb a ":"), (Ascii.eqb a " "); try discriminate; reflexivity.
Qed.

Lemma contains_colons (p s : string) :
  Str.forallb plain p = true ->
  Str.contains p (Str.lower (spaces_to_colons s)) = Str.contains p (Str.lower s).
Proof.
  intros Hp. induction s as [|c s IH].
  - reflexivity.
  - change (Str.contains p (Str.lower (spaces_to_colons (String c s)))) with
      (Str.startswith (Str.lower (spaces_to_colons (String c s))) p ||
       Str.contains p (Str.lower (spaces_to_colons s))).
    change (Str.contains p (Str.lower (String c s))) with
      (Str.startswith (Str.lower (String c s)) p || Str.contains p (Str.lower s)).
    now rewrite startswith_colons, IH.
Qed.

Lemma tag_name_thumbnail tag :
  Str.contains "thumbnail" (Str.lower (exifread_tag_name tag)) =
  Str.contains "thumbnail" (Str.lower tag).
Proof.
  unfold exifread_tag_name. destruct (_ && _); [reflexivity|].
  now apply contains_colons.
Qed.

Lemma exifread_tags_thumbnail_free tags d r :
  thumbnail_free d -> exifread_tags tags d = Ok r -> thumbnail_free r.
Proof.
  revert d. induction tags as [|[tag value] tags IH]; intros d H; [now intros [= <-]|].
  cbn [exifread_tags].
  destruct (Str.contains "thumbnail" (Str.lower tag)) eqn:T; [now apply IH|].
  destruct (exifread_value value) as [v|]; cbn [bind]; [|discriminate].
  apply IH. apply thumbnail_free_store; [exact H|]. now rewrite tag_name_thumbnail.
Qed.

Lemma quotient_no_fault n d : d <> 0 -> quotient n d <> Raise ZeroDivisionError.
Proof.
  intros Hd. unfold quotient.
  apply RationalFacts.bind_no_fault; [apply RationalFacts.of_int_no_fault|].
  intros x. apply RationalFacts.bind_no_fault; [now apply RationalFacts.div_int_no_fault|].
  discriminate.
Qed.

Lemma listed_rational_no_fault r : listed_rational r <> Raise ZeroDivisionError.
Proof.
  unfold listed_rational. destruct (ratio_parts r) as [[n d]|e] eqn:E; cbn [bind].
  - destruct (Z.eqb_spec d 0); [discriminate|now apply quotient_no_fault].
  - destruct r; try discriminate E; injection E as <-; discriminate.
Qed.

Lemma listed_rationals_no_fault l : listed_rationals l <> Raise ZeroDivisionError.
Proof.
  induction l as [|r l IH]; [discriminate|].
  cbn [listed_rationals].
  apply RationalFacts.bind_no_fault; [apply listed_rational_no_fault|].
  intros v. apply RationalFacts.bind_no_fault; [exact IH|discriminate].
Qed.

Lemma listed_zero_denominators ns :
  listed_rationals (map (fun n => PFraction n 0) ns) = Ok (map (fun _ => PInt 0) ns).
Proof.
  induction ns as [|n ns IH]; [reflexivity|].
  cbn [map listed_rationals listed_rational ratio_parts bind]. now rewrite IH.
Qed.

Lemma quotient_by_zero n :
  quotient n 0 = Raise ZeroDivisionError \/ quotient n 0 = Raise OverflowError.
Proof.
  unfold quotient, Num.of_int. destruct (is_infinity _); cbn [bind]; auto.
Qed.

(** X8.  [_process_exifread_tags]: no key of the record it returns
    names a thumbnail, in any letter case.  A rational tag with no value or
    with two or more values never raises a division fault, a value with
    denominator 0 being stored as 0; a rational tag whose only value has
    denominator 0 makes the reader raise (a division fault, or an overflow
    when the numerator is too large for a float). *)
Theorem exifread_rationals_and_thumbnails
    (tags : list (string * exifread_tag)) (tag : string) (n : Z) (ns : list Z) :
  (forall r, _process_exifread_tags tags = Ok r -> thumbnail_free r) /\
  (forall l, List.length l <> 1%nat ->
     rational_tag (TagList l) <> Raise ZeroDivisionError) /\
  (List.length ns <> 1%nat ->
   rational_tag (TagList (map (fun n => PFraction n 0) ns)) =
     Ok (PList (map (fun _ => PInt 0) ns))) /\
  (Str.contains "thumbnail" (Str.lower tag) = false ->
   _process_exifread_tags [(tag, IfdTag 5 (TagList [PFraction n 0]))] =
     Raise ZeroDivisionError \/
   _process_exifread_tags [(tag, IfdTag 5 (TagList [PFraction n 0]))] =
     Raise OverflowError).
Proof.
  repeat split.
  - intros r. apply exifread_tags_thumbnail_free. intros k v. discriminate.
  - intros l Hl. unfold rational_tag.
    destruct l as [|a [|b l]]; [discriminate|now contradiction Hl|].
    apply RationalFacts.bind_no_fault; [apply listed_rationals_no_fault|discriminate].
  - intros Hl. unfold rational_tag.
    destruct ns as [|a [|b ns]]; [reflexivity|now contradiction Hl|].
    change (map (fun n => PFraction n 0) (a :: b :: ns))
      with (PFraction a 0 :: PFraction b 0 :: map (fun n => PFraction n 0) ns).
    change (PFraction a 0 :: PFraction b 0 :: map (fun n => PFraction n 0) ns)
      with (map (fun n => PFraction n 0) (a :: b :: ns)).
    now rewrite listed_zero_denominators.
  - intros T. unfold _process_exifread_tags. cbn [exifread_tags]. rewrite T.
    cbn [exifread_value Z.eqb Pos.eqb orb rational_tag single_rational ratio_parts bind].
    destruct (quotient_by_zero n) as [-> | ->]; cbn [bind]; auto.
Qed.

Lemma pil_value_total value : exists v, pil_value value = Ok v.
Proof.
  unfold pil_value. destruct value; eauto.
  destruct l as [|x [|y l]]; eauto;
    destruct (forallb is_int _); cbn [andb]; eauto;
    rewrite andb_false_r; eauto.
Qed.

Lemma pil_tags_total TAGS exif d :
  thumbnail_free d ->
  exists r, pil_tags TAGS exif d = Ok r /\ thumbnail_free r.
Proof.
  revert d. induction exif as [|[tag_id value] exif IH]; intros d H;
    [exists d; split; [reflexivity|exact H]|].
  cbn [pil_tags].
  destruct (Str.contains "thumbnail" (Str.lower (pil_tag_name TAGS tag_id))) eqn:T;
    [now apply IH|].
  destruct (pil_value_total value) as [v ->]. cbn [bind].
  apply IH. now apply thumbnail_free_store.
Qed.

(** X9.  [_process_pil_exif] never raises, and no key of the record it
    returns names a thumbnail.  A tuple of two or more [int]s is stored as
    its elements joined by dots: the test for a tuple of [int]s comes
    before the test for a rational pair, so a pair [(n, d)] is stored as
    the text "n.d", never as a quotient. *)
Theorem pil_exif_never_raises (TAGS : Z -> option string) (exif : list (Z * pyval)) :
  (exists r, _process_pil_exif TAGS exif = Ok r /\ thumbnail_free r) /\
  (forall l, (2 <= List.length l)%nat -> forallb is_int l = true ->
     pil_value (PTuple l) = Ok (Some (PStr (Str.join "." (map py_str l))))) /\
  (forall n d,
     pil_value (PTuple [PInt n; PInt d]) = Ok (Some (PStr (Str.of_Z n ++ "." ++ Str.of_Z d)))).
Proof.
  split; [|split].
  - apply pil_tags_total. intros k v. discriminate.
  - intros l Hl Hi. unfold pil_value.
    destruct l as [|x [|y l]]; cbn [List.length] in Hl; try lia. now rewrite Hi.
  - reflexivity.
Qed.

End WithLib.

Definition pillow_names (tag_id : Z) : option string :=
  if tag_id =? 271 then Some "Make"
  else if tag_id =? 33434 then Some "ExposureTime"
  else if tag_id =? 513 then Some "JpegIFOffset thumbnail"
  else None.

Lemma pil_exif_of_a_picture :
  _process_pil_exif (lib := Reference.python) pillow_names
    [(271, PBytes "Canon"); (33434, PTuple [PInt 1; PInt 200]);
     (513, PInt 4096); (2, PTuple [PInt 7])] =
  Ok [("Make", PStr "Canon"); ("ExposureTime", PStr "1.200"); ("Unknown Tag 2", PInt 7)].
Proof. vm_compute. reflexivity. Qed.

Lemma exifread_tags_of_a_picture :
  _process_exifread_tags (lib := Reference.python)
    [("Image Make", IfdTag 2 (TagText "Canon "));
     ("JPEGThumbnail", NotATag (PBytes "abc"));
     ("EXIF FNumber", IfdTag 5 (TagList [PFraction 4 1]));
     ("MakerNote Tag 0x0001", IfdTag 5 (TagList [PFraction 1 0; PFraction 3 1]))] =
  Ok [("Image Make", PStr "Canon"); ("EXIF FNumber", PInt 4);
      ("MakerNote:Tag:0x0001", PList [PInt 0; PFloat 3])] /\
  _process_exifread_tags (lib := Reference.python)
    [("EXIF ExposureTime", IfdTag 5 (TagList [PFraction 1 0]))] = Raise ZeroDivisionError.
Proof. vm_compute. split; reflexivity. Qed.

End TagReaderFacts.

(** ** The peaks of a histogram *)

Module PeakFacts.
Import ImageAnalysis.
Section WithSum.
Variable sum : list float -> float.

(** What the loop requires of a position that it keeps *)
Definition peak_at (histogram : list float) (i : nat) : Prop :=
  (1 <= i)%nat /\ (i + 1 < List.length histogram)%nat /\
  (nth (i - 1) histogram zero <? nth i histogram zero)%float = true /\
  (nth (i + 1) histogram zero <? nth i histogram zero)%float = true /\
  exists threshold,
    Num.div_int (sum histogram) (Z.of_nat (List.length histogram) * 2) = Ok threshold /\
    (threshold <? nth i histogram zero)%float = true.

Lemma is_peak_true histogram i :
  is_peak sum histogram i = Ok true ->
  (nth (i - 1) histogram zero <? nth i histogram zero)%float = true /\
  (nth (i + 1) histogram zero <? nth i histogram zero)%float = true /\
  exists threshold,
    Num.div_int (sum histogram) (Z.of_nat (List.length histogram) * 2) = Ok threshold /\
    (threshold <? nth i histogram zero)%float = true.
Proof.
  unfold is_peak.
  destruct (nth (i - 1) histogram zero <? nth i histogram zero)%float; [|discriminate].
  destruct (nth (i + 1) histogram zero <? nth i histogram zero)%float; [|discriminate].
  cbn [andb]. destruct (Num.div_int _ _) as [t|]; cbn [bind]; [|discriminate].
  intros [= E]. eauto.
Qed.

(** The positions kept are positions of the list scanned, in its order. *)
Lemma significant_peaks_spec histogram indices peaks :
  significant_peaks sum histogram indices = Ok peaks ->
  Forall (fun i => In i indices /\ is_peak sum histogram i = Ok true) peaks /\
  (StronglySorted lt indices -> StronglySorted lt peaks).
Proof.
  revert peaks. induction indices as [|i indices IH]; intros peaks.
  - intros [= <-]. split; [constructor|auto].
  - cbn [significant_peaks].
    destruct (is_peak sum histogram i) as [b|] eqn:E; cbn [bind]; [|discriminate].
    destruct (significant_peaks sum histogram indices) as [ps|]; cbn [bind]; [|discriminate].
    destruct (IH ps eq_refl) as [F S].
    assert (F' : Forall (fun j => In j (i :: indices) /\ is_peak sum histogram j = Ok true) ps).
    { eapply Forall_impl; [|exact F]. intros j [Hj Hp]. split; [now right|exact Hp]. }
    intros [= <-]. split.
    + destruct b; [constructor; [split; [now left|exact E]|exact F']|exact F'].
    + intros St. inversion St as [|x xs Sxs Hx]; subst.
      destruct b; [|now apply S].
      constructor; [now apply S|].
      rewrite Forall_forall in *. intros j Hj. apply Hx. now apply F.
Qed.

Lemma seq_sorted start len : StronglySorted lt (seq start len).
Proof.
  revert start. induction len as [|len IH]; intros start; [constructor|].
  cbn [seq]. constructor; [apply IH|].
  rewrite Forall_forall. intros j Hj. apply in_seq in Hj. lia.
Qed.

Lemma insert_by_height_permutation height p l :
  Permutation (insert_by_height height p l) (p :: l).
Proof.
  induction l as [|q l IH]; [reflexivity|].
  cbn [insert_by_height]. destruct (height p <? height q)%float; [|reflexivity].
  rewrite IH. apply perm_swap.
Qed.

Lemma highest_first_permutation height l : Permutation (highest_first height l) l.
Proof.
  induction l as [|p l IH]; [reflexivity|].
  cbn [highest_first fold_right]. fold (highest_first height l).
  rewrite insert_by_height_permutation. now constructor.
Qed.

Lemma insert_position_permutation p l : Permutation (insert_position p l) (p :: l).
Proof.
  induction l as [|q l IH]; [reflexivity|].
  cbn [insert_position]. destruct (p <=? q)%nat; [reflexivity|].
  rewrite IH. apply perm_swap.
Qed.

Lemma positions_in_order_permutation l : Permutation (positions_in_order l) l.
Proof.
  induction l as [|p l IH]; [reflexivity|].
  cbn [positions_in_order fold_right]. fold (positions_in_order l).
  rewrite insert_position_permutation. now constructor.
Qed.

Lemma insert_position_sorted p l : Sorted le l -> Sorted le (insert_position p l).
Proof.
  induction 1 as [|q l Hs IH Hd]; [repeat constructor|].
  cbn [insert_position]. destruct (Nat.leb_spec p q).
  - repeat constructor; assumption.
  - constructor; [exact IH|].
    destruct Hd as [|q2 l]; cbn [insert_position]; [constructor; lia|].
    destruct (p <=? q2)%nat; constructor; lia.
Qed.

Lemma positions_in_order_sorted l : Sorted le (positions_in_order l).
Proof.
  induction l as [|p l IH]; [constructor|].
  cbn [positions_in_order fold_right]. now apply insert_position_sorted.
Qed.

Lemma strictly_sorted l : Sorted le l -> NoDup l -> StronglySorted lt l.
Proof.
  intros S N. apply Sorted_StronglySorted; [intros a b c; lia|].
  induction S as [|p l Hs IH Hd]; [constructor|].
  inversion N as [|x xs Hx Hxs]; subst.
  constructor; [now apply IH|].
  destruct Hd as [|q l' Hle]; constructor.
  assert (p <> q) by (intros ->; apply Hx; now left). lia.
Qed.

Lemma firstn_nodup {A} n (l : list A) : NoDup l -> NoDup (firstn n l).
Proof.
  revert n. induction l as [|a l IH]; intros [|n] N; cbn [firstn]; try constructor.
  - inversion N; subst. intros H. apply (In_nth_error) in H. 
    match goal with K : ~ In a l |- _ => apply K end.
    destruct H as [k H]. apply nth_error_In with (n := k).
    rewrite nth_error_firstn in H. now destruct (k <? n)%nat.
  - inversion N; subst. now apply IH.
Qed.

Lemma firstn_incl {A} n (l : list A) : incl (firstn n l) l.
Proof.
  revert n. induction l as [|a l IH]; intros [|n]; cbn [firstn]; intros x H; try contradiction.
  destruct H as [<-|H]; [now left|right; now apply (IH n)].
Qed.

(** X10.  What [_find_histogram_peaks] returns, when it returns: at most
    five positions, in strictly ascending order (so none twice), each an
    inner position of the histogram whose value is above both neighbours
    and above the threshold [sum(histogram) / (len(histogram) * 2)]. *)
Theorem histogram_peaks_are_few_and_ordered (histogram : list float) (peaks : list nat) :
  _find_histogram_peaks sum histogram = Ok peaks ->
  (List.length peaks <= 5)%nat /\
  StronglySorted lt peaks /\
  Forall (peak_at histogram) peaks.
Proof.
  unfold _find_histogram_peaks.
  destruct (significant_peaks sum histogram (seq 1 (List.length histogram - 2)))
    as [found|] eqn:E; cbn [bind]; [|discriminate].
  destruct (significant_peaks_spec _ _ _ E) as [F S].
  specialize (S (seq_sorted _ _)).
  assert (N : NoDup found).
  { apply StronglySorted_Sorted in S. clear - S.
    induction S as [|p l Hs IH Hd]; constructor; [|exact IH].
    intros H. apply Sorted_StronglySorted in Hs; [|intros a b c; lia].
    assert (K : Forall (lt p) l).
    { destruct Hd as [|q l' Hlt]; [constructor|].
      inversion Hs as [|x xs Sx Fx]; subst. constructor; [exact Hlt|].
      eapply Forall_impl; [|exact Fx]. intros; lia. }
    rewrite Forall_forall in K. specialize (K _ H). lia. }
  set (chosen := if (5 <? List.length found)%nat then _ else found).
  assert (C : incl chosen found /\ NoDup chosen /\ (List.length chosen <= 5)%nat).
  { subst chosen. destruct (Nat.ltb_spec 5 (List.length found)).
    - split; [|split].
      + intros x Hx. apply firstn_incl in Hx.
        eapply Permutation_in; [apply highest_first_permutation|exact Hx].
      + apply firstn_nodup.
        eapply Permutation_NoDup; [symmetry; apply highest_first_permutation|exact N].
      + rewrite length_firstn. lia.
    - split; [intros x Hx; exact Hx|split; [exact N|lia]]. }
  destruct C as (I & Nc & L).
  intros [= <-]. split; [|split].
  - now rewrite (Permutation_length (positions_in_order_permutation chosen)).
  - apply strictly_sorted; [apply positions_in_order_sorted|].
    eapply Permutation_NoDup; [symmetry; apply positions_in_order_permutation|exact Nc].
  - rewrite Forall_forall in *. intros i Hi.
    apply (Permutation_in _ (positions_in_order_permutation chosen)) in Hi.
    apply I in Hi. destruct (F _ Hi) as [R P].
    apply in_seq in R. apply is_peak_true in P.
    unfold peak_at. split; [lia|split; [lia|exact P]].
Qed.

End WithSum.

(** Summation from left to right *)
Definition plain_sum (l : list float) : float :=
  fold_left (fun a x => (a + x)%float) l zero.

Definition seven_peaks : list float :=
  [0; 5; 0; 9; 0; 3; 0; 8; 0; 7; 0; 6; 0; 4; 0]%float.

Lemma histogram_peaks_are_few_and_ordered_witness :
  _find_histogram_peaks plain_sum seven_peaks = Ok [1; 3; 7; 9; 11]%nat /\
  (List.length [1; 3; 7; 9; 11]%nat <= 5)%nat /\
  StronglySorted lt [1; 3; 7; 9; 11]%nat /\
  Forall (peak_at plain_sum seven_peaks) [1; 3; 7; 9; 11]%nat.
Proof.
  assert (E : _find_histogram_peaks plain_sum seven_peaks = Ok [1; 3; 7; 9; 11]%nat)
    by (vm_compute; reflexivity).
  split; [exact E|].
  exact (histogram_peaks_are_few_and_ordered plain_sum seven_peaks _ E).
Defined.

End PeakFacts.

(** ** The device database *)

Module DatabaseFacts.
Import DeviceDatabase DictFacts.

(** The field of a description that is shown under the name [k] *)
Definition field_shown_as (k : string) : option (string * string) :=
  find (fun field => String.eqb (snd field) k) field_mapping.

Lemma fold_copy_other info fields formatted k :
  (forall field, In field fields -> snd field <> k) ->
  Dict.get (fold_left (copy_field info) fields formatted) k = Dict.get formatted k.
Proof.
  revert formatted. induction fields as [|field fields IH]; intros formatted H; [reflexivity|].
  cbn [fold_left]. rewrite IH by (intros f Hf; apply H; now right).
  unfold copy_field. destruct (present_true info (fst field)); [|reflexivity].
  apply get_set_neq. apply H. now left.
Qed.

Lemma fold_copy_found info fields formatted k :
  NoDup (map snd fields) ->
  Dict.get (fold_left (copy_field info) fields formatted) k =
  match find (fun field => String.eqb (snd field) k) fields with
  | Some field =>
      match present_true info (fst field) with
      | Some v => Some v
      | None => Dict.get formatted k
      end
  | None => Dict.get formatted k
  end.
Proof.
  revert formatted. induction fields as [|field fields IH]; intros formatted N; [reflexivity|].
  cbn [map] in N. inversion N as [|x xs Hx Hxs]; subst.
  cbn [fold_left find].
  destruct (String.eqb_spec (snd field) k) as [E|E].
  - rewrite fold_copy_other.
    + unfold copy_field. destruct (present_true info (fst field)); [|reflexivity].
      rewrite E. apply get_set_eq.
    + intros f Hf K. apply Hx. rewrite E, <- K. now apply in_map.
  - rewrite IH by exact Hxs.
    assert (G : Dict.get (copy_field info formatted field) k = Dict.get formatted k).
    { unfold copy_field. destruct (present_true info (fst field)); [|reflexivity].
      now apply get_set_neq. }
    now rewrite G.
Qed.

(** X11.  [_format_db_device_info] renames and filters: under each of
    its seventeen display names the result holds the value of the
    database field of that name when the description has it with a true
    value, and it holds nothing else; so every value of the result is
    true and every key is a display name. *)
Theorem formatted_device_info (device_info : dict) (k : string) :
  Dict.get (_format_db_device_info device_info) k =
    match field_shown_as k with
    | Some field => present_true device_info (fst field)
    | None => None
    end /\
  (forall v, Dict.get (_format_db_device_info device_info) k = Some v ->
     truthy v = true /\ In k (map snd field_mapping)).
Proof.
  assert (E : Dict.get (_format_db_device_info device_info) k =
    match field_shown_as k with
    | Some field => present_true device_info (fst field)
    | None => None
    end).
  { unfold _format_db_device_info, field_shown_as.
    rewrite fold_copy_found.
    - destruct (find _ field_mapping) as [field|]; [|reflexivity].
      now destruct (present_true device_info (fst field)).
    - unfold field_mapping. cbn [map snd].
      repeat (constructor; [cbn [In]; intros H;
              repeat destruct H as [H|H]; try discriminate H; contradiction|]).
      constructor. }
  split; [exact E|].
  intros v. rewrite E. unfold field_shown_as.
  destruct (find _ field_mapping) as [field|] eqn:F; [|discriminate].
  apply find_some in F. destruct F as [Hin Hk]. apply String.eqb_eq in Hk.
  unfold present_true. destruct (Dict.get device_info (fst field)) as [w|]; [|discriminate].
  destruct (truthy w) eqn:T; [|discriminate].
  intros [= <-]. split; [exact T|]. rewrite <- Hk. now apply in_map.
Qed.

(** The description of a device in the database *)
Definition device (device_db : dict) (category device_id : string) : option pyval :=
  match Dict.get device_db category with
  | Some (PDict table) => Dict.get table device_id
  | _ => None
  end.

Definition is_table (v : pyval) : bool :=
  match v with PDict _ => true | _ => false end.

(** Every category is a table. *)
Definition tables (device_db : dict) : Prop :=
  forall category v, Dict.get device_db category = Some v -> is_table v = true.

(** A dictionary has each key once; so has each of its tables. *)
Definition proper (d : dict) : Prop :=
  NoDup (Dict.keys d) /\
  forall category table, In (category, PDict table) d -> NoDup (Dict.keys table).

Lemma get_not_in {A} (d : list (string * A)) k : ~ In k (map fst d) -> Dict.get d k = None.
Proof.
  induction d as [|[k0 v0] d IH]; [reflexivity|].
  cbn [map fst In Dict.get]. intros H.
  destruct (String.eqb_spec k k0) as [->|N]; [exfalso; apply H; now left|].
  apply IH. intros K. apply H. now right.
Qed.

Lemma get_rev_distinct {A} (d : list (string * A)) k :
  NoDup (map fst d) -> Dict.get (rev d) k = Dict.get d k.
Proof.
  induction d as [|[k0 v0] d IH]; [reflexivity|].
  cbn [map fst]. intros N. inversion N as [|x xs Hx Hxs]; subst.
  cbn [rev Dict.get].
  assert (G : forall (l : list (string * A)) k1 v1,
             Dict.get (l ++ [(k1, v1)]) k =
             match Dict.get l k with
             | Some v => Some v
             | None => if String.eqb k k1 then Some v1 else None
             end).
  { induction l as [|[k2 v2] l IHl]; intros k1 v1; cbn [app Dict.get]; [reflexivity|].
    destruct (String.eqb k k2); [reflexivity|apply IHl]. }
  rewrite G, IH by exact Hxs.
  destruct (String.eqb_spec k k0) as [->|N0].
  - now rewrite get_not_in.
  - now destruct (Dict.get d k).
Qed.

Lemma add_devices_is_update device_db category table devices :
  Dict.get device_db category = Some (PDict table) ->
  add_devices device_db category devices =
    (Dict.set device_db category (PDict (Dict.update table devices)), true).
Proof.
  revert device_db table. induction devices as [|[device_id device_info] devices IH];
    intros device_db table H.
  - cbn [add_devices Dict.update fold_left]. f_equal.
    clear - H. induction device_db as [|[k v] d IHd]; [discriminate|].
    cbn [Dict.get Dict.set] in *. destruct (String.eqb category k); [now injection H as ->|].
    f_equal. now apply IHd.
  - cbn [add_devices]. rewrite H.
    rewrite (IH _ (Dict.set table device_id device_info)) by apply get_set_eq.
    f_equal. unfold Dict.update. cbn [fold_left fst snd].
    clear. induction device_db as [|[k v] d IHd]; cbn [Dict.set].
    + now rewrite String.eqb_refl.
    + destruct (String.eqb category k) eqn:E; cbn [Dict.set]; rewrite E; [reflexivity|].
      now rewrite IHd.
Qed.

Lemma device_set device_db category table c i :
  device (Dict.set device_db category (PDict table)) c i =
  if String.eqb category c then Dict.get table i else device device_db c i.
Proof.
  unfold device. rewrite get_set. now destruct (String.eqb category c).
Qed.

Lemma device_cons category ds new_data c i :
  device ((category, PDict ds) :: new_data) c i =
  if String.eqb c category then Dict.get ds i else device new_data c i.
Proof. unfold device. cbn [Dict.get]. now destruct (String.eqb c category). Qed.

Lemma tables_set device_db category table :
  tables device_db -> tables (Dict.set device_db category (PDict table)).
Proof.
  intros H c v. rewrite get_set. destruct (String.eqb category c); [now intros [= <-]|apply H].
Qed.

Lemma merge_spec new_data : forall device_db,
  tables device_db -> proper new_data ->
  forallb is_table (map snd new_data) = true ->
  snd (merge device_db new_data) = true /\
  tables (fst (merge device_db new_data)) /\
  forall c i,
    device (fst (merge device_db new_data)) c i =
    match device new_data c i with
    | Some v => Some v
    | None => device device_db c i
    end.
Proof.
  induction new_data as [|[category devices] new_data IH]; intros device_db T [N P] F.
  - cbn [merge fst snd]. split; [reflexivity|split; [exact T|reflexivity]].
  - cbn [map snd forallb] in F. apply andb_prop in F. destruct F as [Fd F].
    destruct devices as [| | | | | | | |ds| |]; try discriminate Fd.
    cbn [Dict.keys map fst] in N. inversion N as [|x xs Hx Hxs]; subst.
    assert (P' : proper new_data).
    { split; [exact Hxs|]. intros c t Hc. apply (P c t). now right. }
    assert (Nds : NoDup (Dict.keys ds)) by (apply (P category ds); now left).
    cbn [merge].
    set (db0 := if Dict.mem device_db category then device_db
                else Dict.set device_db category (PDict [])).
    assert (T0 : tables db0).
    { subst db0. destruct (Dict.mem device_db category); [exact T|now apply tables_set]. }
    assert (G0 : exists table, Dict.get db0 category = Some (PDict table) /\
                 forall i, Dict.get table i = device device_db category i).
    { subst db0. unfold Dict.mem, device.
      destruct (Dict.get device_db category) as [v|] eqn:E.
      - pose proof (T _ _ E) as Tv. destruct v; try discriminate Tv. eauto.
      - exists []. split; [apply get_set_eq|reflexivity]. }
    destruct G0 as (table & G0 & Gt).
    assert (D0 : forall c i, c <> category -> device db0 c i = device device_db c i).
    { intros c i Hc. subst db0. destruct (Dict.mem device_db category); [reflexivity|].
      rewrite device_set. destruct (String.eqb_spec category c); [congruence|reflexivity]. }
    rewrite (add_devices_is_update _ _ _ _ G0). cbv beta iota.
    set (db1 := Dict.set db0 category (PDict (Dict.update table ds))).
    destruct (IH db1 (tables_set _ _ _ T0) P' F) as (S1 & T1 & L1).
    split; [exact S1|split; [exact T1|]].
    intros c i. rewrite L1. subst db1. rewrite device_set, device_cons.
    destruct (String.eqb_spec c category) as [->|Hc].
    + rewrite String.eqb_refl.
      assert (R : device new_data category i = None).
      { unfold device. now rewrite get_not_in. }
      rewrite R, get_update, get_rev_distinct by exact Nds.
      destruct (Dict.get ds i); [reflexivity|apply Gt].
    + destruct (String.eqb_spec category c) as [E|_]; [congruence|].
      destruct (device new_data c i); [reflexivity|now apply D0].
Qed.

Lemma merge_stops new_data : forall device_db,
  forallb is_table (map snd new_data) = false ->
  snd (merge device_db new_data) = false.
Proof.
  induction new_data as [|[category devices] new_data IH]; intros device_db F; [discriminate|].
  cbn [map snd forallb] in F. cbn [merge].
  destruct devices; try reflexivity.
  cbn [is_table andb] in F.
  destruct (add_devices _ category d) as [db1 [|]]; [now apply IH|reflexivity].
Qed.

(** X12.  [update_device_database] and the look-up of a device.  When a
    category of [new_data] is not a dictionary the update answers [False].
    When the database and [new_data] are dictionaries of tables, it
    answers [True] and afterwards every device of [new_data] is found
    under its category and id with its new description, while every
    other device of the database is found as before. *)
Theorem update_then_look_up (device_db new_data : dict) :
  (forallb is_table (map snd new_data) = false ->
   fst (update_device_database device_db new_data) = false) /\
  (tables device_db -> proper new_data ->
   forallb is_table (map snd new_data) = true ->
   fst (update_device_database device_db new_data) = true /\
   forall category device_id,
     device (snd (update_device_database device_db new_data)) category device_id =
     match device new_data category device_id with
     | Some description => Some description
     | None => device device_db category device_id
     end).
Proof.
  unfold update_device_database. split.
  - intros F. pose proof (merge_stops new_data device_db F) as S.
    destruct (merge device_db new_data). exact S.
  - intros T P F. destruct (merge_spec new_data device_db T P F) as (S & _ & L).
    destruct (merge device_db new_data). split; [exact S|exact L].
Qed.

(** The sizes of the tables, category by category *)
Fixpoint sizes (device_db : dict) : res (list (string * Z)) :=
  match device_db with
  | [] => Ok []
  | (category, devices) :: device_db' =>
      n <- py_len devices ;;
      ns <- sizes device_db' ;;
      Ok ((category, n) :: ns)
  end.

Definition counted (ns : list (string * Z)) : dict :=
  map (fun cn => (fst cn, PInt (snd cn))) ns.

Lemma set_fresh (d : dict) k v : ~ In k (Dict.keys d) -> Dict.set d k v = (d ++ [(k, v)])%list.
Proof.
  induction d as [|[k0 v0] d IH]; [reflexivity|].
  cbn [Dict.keys map fst In Dict.set app]. intros H.
  destruct (String.eqb_spec k k0) as [->|N]; [exfalso; apply H; now left|].
  f_equal. apply IH. intros K. apply H. now right.
Qed.

Lemma count_devices_spec device_db : forall (stats : dict) (seen : list (string * Z)),
  stats = counted seen ->
  NoDup (map fst seen ++ Dict.keys device_db) ->
  count_devices device_db stats =
  (ns <- sizes device_db ;; Ok (counted (seen ++ ns)%list)).
Proof.
  induction device_db as [|[category devices] device_db IH]; intros stats seen E N.
  - cbn [count_devices sizes bind]. rewrite app_nil_r. now subst.
  - cbn [count_devices sizes].
    destruct (py_len devices) as [n|]; cbn [bind]; [|reflexivity].
    cbn [Dict.keys map fst] in N.
    rewrite (IH _ (seen ++ [(category, n)])%list).
    + destruct (sizes device_db) as [ns|]; cbn [bind]; [|reflexivity].
      now rewrite <- app_assoc.
    + subst stats. unfold counted. rewrite map_app. cbn [map fst snd].
      apply set_fresh. unfold Dict.keys. rewrite map_map. cbn [fst].
      apply NoDup_remove_2 in N. intros K. apply N. apply in_or_app. now left.
    + rewrite map_app. cbn [map fst]. rewrite <- app_assoc. exact N.
Qed.

Lemma sum_values_counted ns :
  sum_values (counted ns) = fold_right Z.add 0 (map snd ns).
Proof.
  unfold sum_values.
  assert (G : forall total,
    fold_left (fun total kv => total + match snd kv with PInt n => n | _ => 0 end)
      (counted ns) total = total + fold_right Z.add 0 (map snd ns)).
  { induction ns as [|[c n] ns IH]; intros total; cbn [counted map fold_left fold_right fst snd].
    - lia.
    - fold (counted ns). rewrite IH. lia. }
  now rewrite G.
Qed.

(** X13.  [get_device_database_stats], when it returns: [total] is the
    sum of the sizes of all the tables, each category counted once (also
    a category that is itself called total, whose own count the sum
    replaces), and every other category has the size of its table. *)
Theorem database_stats_count_every_device (device_db stats : dict) :
  get_device_database_stats device_db = Ok stats ->
  NoDup (Dict.keys device_db) ->
  exists ns,
    sizes device_db = Ok ns /\
    Dict.get stats "total" = Some (PInt (fold_right Z.add 0 (map snd ns))) /\
    forall category, category <> "total" ->
      Dict.get stats category = option_map PInt (Dict.get ns category).
Proof.
  unfold get_device_database_stats.
  destruct device_db as [|entry device_db].
  - cbn [DeviceIdentifier.nonempty_dict negb]. intros [= <-] _.
    exists []. repeat split. intros category H. cbn [Dict.get].
    destruct (String.eqb_spec category "total"); [contradiction|reflexivity].
  - cbn [DeviceIdentifier.nonempty_dict negb]. intros H N.
    rewrite (count_devices_spec _ [] []) in H by (try reflexivity; exact N).
    cbn [app] in H.
    destruct (sizes (entry :: device_db)) as [ns|]; cbn [bind] in H; [|discriminate].
    injection H as <-. exists ns. split; [reflexivity|split].
    + rewrite get_set_eq. now rewrite sum_values_counted.
    + intros category Hc. rewrite get_set_neq by congruence.
      unfold counted. clear. induction ns as [|[c n] ns IH]; [reflexivity|].
      cbn [map Dict.get fst snd]. destruct (String.eqb category c); [reflexivity|exact IH].
Qed.

Definition small_database : dict :=
  [("cameras", PDict [("r5", PDict [("make", PStr "Canon"); ("model", PStr "EOS R5")])]);
   ("total", PDict [("a", PDict []); ("b", PDict [])])].

Lemma database_stats_count_every_device_witness :
  get_device_database_stats small_database =
    Ok [("cameras", PInt 1); ("total", PInt 3)] /\
  exists ns,
    sizes small_database = Ok ns /\
    Dict.get [("cameras", PInt 1); ("total", PInt 3)] "total" =
      Some (PInt (fold_right Z.add 0 (map snd ns))) /\
    forall category, category <> "total" ->
      Dict.get [("cameras", PInt 1); ("total", PInt 3)] category =
      option_map PInt (Dict.get ns category).
Proof.
  assert (E : get_device_database_stats small_database =
              Ok [("cameras", PInt 1); ("total", PInt 3)]) by reflexivity.
  split; [exact E|].
  apply (database_stats_count_every_device small_database _ E).
  repeat constructor; cbn [In]; intuition discriminate.
Defined.

Definition new_devices : dict :=
  [("cameras", PDict [("r6", PDict [("make", PStr "Canon"); ("model", PStr "EOS R6")])]);
   ("phones", PDict [("p8", PDict [("make", PStr "Google"); ("model", PStr "Pixel 8")])])].

Lemma update_then_look_up_witness :
  fst (update_device_database small_database new_devices) = true /\
  device (snd (update_device_database small_database new_devices)) "phones" "p8" =
    Some (PDict [("make", PStr "Google"); ("model", PStr "Pixel 8")]) /\
  device (snd (update_device_database small_database new_devices)) "cameras" "r5" =
    Some (PDict [("make", PStr "Canon"); ("model", PStr "EOS R5")]).
Proof.
  destruct (update_then_look_up small_database new_devices) as [_ U].
  destruct U as [D L].
  - intros category v. unfold small_database. cbn [Dict.get].
    repeat (destruct (String.eqb category _); [now intros [= <-]|]). discriminate.
  - split; [repeat constructor; cbn [In]; intuition discriminate|].
    intros category table H. cbn [In new_devices] in H.
    destruct H as [H|[H|[]]]; injection H as <- <-;
      repeat constructor; cbn [In]; intuition discriminate.
  - reflexivity.
  - split; [exact D|]. rewrite !L. split; reflexivity.
Defined.

End DatabaseFacts.

(** ** The shape of a cleaned value *)

Module CleanValueFacts.
Import MetadataExtractor.
Section WithLib.
Context {lib : PyLib}.

(** Induction on a value and on the values inside it *)
Section Induction.
Variable P : pyval -> Prop.
Hypothesis on_none : P PNone.
Hypothesis on_bool : forall b, P (PBool b).
Hypothesis on_int : forall n, P (PInt n).
Hypothesis on_float : forall x, P (PFloat x).
Hypothesis on_str : forall s, P (PStr s).
Hypothesis on_bytes : forall b, P (PBytes b).
Hypothesis on_list : forall l, Forall P l -> P (PList l).
Hypothesis on_tuple : forall l, Forall P l -> P (PTuple l).
Hypothesis on_dict : forall d, Forall (fun kv => P (snd kv)) d -> P (PDict d).
Hypothesis on_fraction : forall n d, P (PFraction n d).
Hypothesis on_datetime : forall t, P (PDatetime t).

Fixpoint value_ind (v : pyval) : P v :=
  match v with
  | PNone => on_none
  | PBool b => on_bool b
  | PInt n => on_int n
  | PFloat x => on_float x
  | PStr s => on_str s
  | PBytes b => on_bytes b
  | PList l =>
      on_list l ((fix all (l : list pyval) : Forall P l :=
                    match l with
                    | [] => Forall_nil P
                    | x :: l' => Forall_cons x (value_ind x) (all l')
                    end) l)
  | PTuple l =>
      on_tuple l ((fix all (l : list pyval) : Forall P l :=
                     match l with
                     | [] => Forall_nil P
                     | x :: l' => Forall_cons x (value_ind x) (all l')
                     end) l)
  | PDict d =>
      on_dict d ((fix all (d : list (string * pyval)) : Forall (fun kv => P (snd kv)) d :=
                    match d with
                    | [] => Forall_nil _
                    | kv :: d' => Forall_cons kv (value_ind (snd kv)) (all d')
                    end) d)
  | PFraction n d => on_fraction n d
  | PDatetime t => on_datetime t
  end.
End Induction.

(** A value as the cleaning leaves it: a number, a text that is not
    empty, a list of two or more such values, or a dictionary of one or
    more of them. *)
Fixpoint tidy (v : pyval) : bool :=
  match v with
  | PBool _ | PInt _ | PFloat _ => true
  | PStr s => Str.nonempty s
  | PList l => (2 <=? List.length l)%nat && forallb tidy l
  | PDict d =>
      DeviceIdentifier.nonempty_dict d &&
      (fix all (d : list (string * pyval)) : bool :=
         match d with
         | [] => true
         | (_, v) :: d' => tidy v && all d'
         end) d
  | _ => false
  end.

(** Every date inside the value has a rendering. *)
Fixpoint dated (v : pyval) : bool :=
  match v with
  | PDatetime text => Str.nonempty text
  | PList l | PTuple l => forallb dated l
  | PDict d =>
      (fix all (d : list (string * pyval)) : bool :=
         match d with
         | [] => true
         | (_, v) :: d' => dated v && all d'
         end) d
  | _ => true
  end.

Definition cleans_well (value : pyval) : Prop :=
  dated value = true ->
  forall cleaned, _clean_value value = Ok cleaned -> cleaned = PNone \/ tidy cleaned = true.

Lemma rational_value_tidy n d v : rational_value n d = Ok v -> tidy v = true.
Proof.
  unfold rational_value.
  destruct (d =? 0); [now intros [= <-]|].
  destruct (d =? 1); [now intros [= <-]|].
  destruct (Num.of_int n); cbn [bind]; [|discriminate].
  destruct (Num.div_int _ _); cbn [bind]; [|discriminate].
  now intros [= <-].
Qed.

Lemma cleaned_items_tidy l cs :
  Forall cleans_well l -> forallb dated l = true ->
  clean_present l = Ok cs -> forallb tidy cs = true.
Proof.
  intros F. revert cs. induction F as [|x l Hx F IH]; intros cs D.
  - now intros [= <-].
  - cbn [forallb] in D. apply andb_prop in D. destruct D as [Dx D].
    cbn [clean_present].
    destruct (_clean_value x) as [c|] eqn:E; cbn [bind]; [|discriminate].
    destruct (clean_present l) as [cs'|]; cbn [bind]; [|discriminate].
    specialize (IH cs' D eq_refl).
    intros [= <-]. destruct (Hx Dx c E) as [->|T]; [exact IH|].
    destruct (is_none c); [exact IH|]. cbn [forallb]. now rewrite T, IH.
Qed.

Lemma cleaned_sequence_tidy l cleaned :
  Forall cleans_well l -> forallb dated l = true ->
  (cleaned_list <- clean_present l ;;
   match cleaned_list with
   | [] => Ok PNone
   | [c] => Ok c
   | _ => Ok (PList cleaned_list)
   end) = Ok cleaned ->
  cleaned = PNone \/ tidy cleaned = true.
Proof.
  intros F D.
  destruct (clean_present l) as [cs|] eqn:E; cbn [bind]; [|discriminate].
  pose proof (cleaned_items_tidy l cs F D E) as T.
  destruct cs as [|c [|c' cs]]; intros [= <-]; [now left| |].
  - right. cbn [forallb] in T. now rewrite andb_true_r in T.
  - right. cbn [tidy List.length]. now rewrite T.
Qed.

(** X14.  What [_clean_value] returns is [None] (the value to skip) or a
    tidy value: a number, a text that is not empty, a list of two or more
    tidy values, or a dictionary with at least one entry whose values are
    tidy.  So no [None], empty text, empty or one-element list, empty
    dictionary, bytes, tuple, fraction or date is left at any depth.  (A
    date is carried by its rendering, which is not empty.) *)
Theorem cleaned_value_is_tidy (value cleaned : pyval) :
  dated value = true ->
  _clean_value value = Ok cleaned ->
  cleaned = PNone \/ tidy cleaned = true.
Proof.
  intros D E. revert D cleaned E. fold (cleans_well value).
  induction value using value_ind; unfold cleans_well; intros D cleaned;
    cbn [_clean_value]; try (intros [= <-]; auto; fail).
  - (* text *)
    destruct (Str.nonempty (Str.strip (Str.strip_nul s))) eqn:E; intros [= <-]; auto.
  - (* bytes *)
    unfold decoded_text. destruct (decode "utf-8" b); [|intros [= <-]; auto].
    destruct (Str.nonempty (Str.strip (Str.strip_nul s))) eqn:E; intros [= <-]; auto.
  - (* list *)
    apply (cleaned_sequence_tidy l); assumption.
  - (* tuple *)
    apply (cleaned_sequence_tidy l); assumption.
  - (* dictionary *)
    match goal with
    | |- bind ?m _ = _ -> _ => destruct m as [cd|] eqn:E
    end; cbn [bind]; [|discriminate].
    assert (T : (fix all (d : list (string * pyval)) : bool :=
                   match d with
                   | [] => true
                   | (_, v) :: d' => tidy v && all d'
                   end) cd = true).
    { clear cleaned. revert cd E D. induction H as [|[k v] d Hv F IH]; intros cd E D.
      - now injection E as <-.
      - apply andb_prop in D. destruct D as [Dv D].
        destruct (_clean_value v) as [c|] eqn:Ec; cbn [bind] in E; [|discriminate].
        match type of E with
        | bind ?m _ = _ => destruct m as [cs|] eqn:Es
        end; cbn [bind] in E; [|discriminate].
        specialize (IH cs eq_refl D).
        injection E as <-. destruct (Hv Dv c Ec) as [->|Tc]; [exact IH|].
        destruct (is_none c); [exact IH|]. now rewrite Tc, IH. }
    destruct cd as [|kv cd]; intros [= <-]; [now left|].
    right. cbn [tidy DeviceIdentifier.nonempty_dict andb]. exact T.
  - intros E. right. now apply rational_value_tidy in E.
Qed.

End WithLib.

Definition raw_keywords : pyval :=
  PList [PStr "  sea "; PNone; PBytes "sky"; PTuple [PStr "   "];
         PDict [("a", PStr ""); ("b", PFraction 3 0)]; PDatetime "2024-05-01 10:00:00"].

Lemma cleaned_value_is_tidy_witness :
  _clean_value (lib := Reference.python) raw_keywords =
    Ok (PList [PStr "sea"; PStr "sky"; PDict [("b", PInt 0)]; PStr "2024-05-01 10:00:00"]) /\
  (PList [PStr "sea"; PStr "sky"; PDict [("b", PInt 0)]; PStr "2024-05-01 10:00:00"] = PNone \/
   tidy (PList [PStr "sea"; PStr "sky"; PDict [("b", PInt 0)];
                PStr "2024-05-01 10:00:00"]) = true).
Proof.
  assert (E : _clean_value (lib := Reference.python) raw_keywords =
    Ok (PList [PStr "sea"; PStr "sky"; PDict [("b", PInt 0)]; PStr "2024-05-01 10:00:00"]))
    by (vm_compute; reflexivity).
  split; [exact E|].
  exact (cleaned_value_is_tidy (lib := Reference.python) raw_keywords _ eq_refl E).
Defined.

End CleanValueFacts.

(** ** The IPTC tier *)

Module IptcFacts.
Import GPSParser DictFacts.
Section WithLib.
Context {lib : PyLib} {geo : Geocoders}.

(** The keys that the IPTC tier can define *)
Definition location_keys : list string :=
  ["Sublocation"; "City"; "State"; "Country"; "LocationName"].

Definition within (keys : list string) (d : dict) : Prop :=
  forall k, ~ In k keys -> Dict.get d k = None.

Lemma within_set keys d k v : within keys d -> In k keys -> within keys (Dict.set d k v).
Proof.
  intros H Hk k' Hk'. rewrite get_set_neq; [now apply H|]. intros ->. contradiction.
Qed.

Lemma within_location_part md keys target acc :
  within location_keys (snd acc) -> In target location_keys ->
  within location_keys (snd (location_part md keys target acc)).
Proof.
  intros H Ht. unfold location_part.
  destruct (first_true md keys); [cbn [snd]; now apply within_set|exact H].
Qed.

Lemma iptc_within md info :
  _parse_iptc_location md = Ok info -> within location_keys info.
Proof.
  unfold _parse_iptc_location.
  set (acc := location_part md ["IPTC:Country"] "Country" _).
  assert (W : within location_keys (snd acc)).
  { subst acc. repeat (apply within_location_part; [|cbn [In location_keys]; tauto]).
    intros k _. reflexivity. }
  destruct (fst acc); [now intros [= <-]|].
  destruct (join_values _); cbn [bind]; [|discriminate].
  intros [= <-]. apply within_set; [exact W|cbn [In location_keys]; tauto].
Qed.

(** X15.  When the IPTC tier is the one that [parse_gps_info] takes (no
    EXIF and no XMP GPS key, an IPTC location key present), the result is
    what [_parse_iptc_location] returns, or empty when that raises; it
    defines no key other than Sublocation, City, State, Country and
    LocationName, so no coordinates, and the geocoding cache is left as
    it is: no service is consulted. *)
Theorem iptc_tier_gives_names_only (c : cache) (md : dict) :
  tier_of md = IptcTier ->
  snd (parse_gps_info c md) = c /\
  within location_keys (fst (parse_gps_info c md)) /\
  (forall info, _parse_iptc_location md = Ok info -> fst (parse_gps_info c md) = info) /\
  (forall e, _parse_iptc_location md = Raise e -> fst (parse_gps_info c md) = []).
Proof.
  intros T. unfold parse_gps_info, finish. rewrite T. cbn [parse_tier].
  destruct (_parse_iptc_location md) as [info|e] eqn:E; cbn [bind].
  - pose proof (iptc_within md info E) as W.
    unfold enrich. rewrite (W "Latitude") by (cbn [In location_keys]; intuition discriminate).
    split; [reflexivity|].
    split; [exact W|].
    split; [intros ? [= <-]; reflexivity|discriminate].
  - split; [reflexivity|].
    split; [intros k _; reflexivity|].
    split; [discriminate|reflexivity].
Qed.

End WithLib.

Definition captioned_picture : dict :=
  [("IPTC:City", PStr "Lyon"); ("IPTC:Country", PStr "France");
   ("Comment", PStr "GPS 45.7640, 4.8357")].

Lemma iptc_tier_gives_names_only_witness :
  parse_gps_info (lib := Reference.python) (geo := Reference.no_geocoders) [] captioned_picture =
    ([("City", PStr "Lyon"); ("Country", PStr "France");
      ("LocationName", PStr "Lyon, France")], []) /\
  snd (parse_gps_info (lib := Reference.python) (geo := Reference.no_geocoders)
         [] captioned_picture) = [].
Proof.
  split; [vm_compute; reflexivity|].
  apply (iptc_tier_gives_names_only (lib := Reference.python) (geo := Reference.no_geocoders)
           [] captioned_picture eq_refl).
Defined.

End IptcFacts.

(** ** The camera settings *)

Module CameraSettingFacts.
Import DeviceIdentifier DictFacts.
Section WithLib.

Context {lib : PyLib}.




















End WithLib.

(** A record that gives the aperture twice and the exposure three times. *)
Definition studio_picture : dict :=
  [("FNumber", PFloat 2.5); ("EXIF:ApertureValue", PInt 3); ("ISO", PInt 400);
   ("ISOSpeedRatings", PInt 100); ("ExposureTime", PNone);
   ("EXIF:ExposureTime", PFloat 0.25); ("Flash", PStr "16")].

Example camera_settings_of_a_studio_picture :
  _extract_camera_settings (lib := Reference.python) studio_picture =
  Ok [("Aperture", PStr "f/3"); ("ExposureTime", PStr "1/4s"); ("ISO", PInt 400);
      ("Flash", PStr "Off, Flash did not fire")].
Proof. vm_compute. reflexivity. Qed.

End CameraSettingFacts.

(** ** The search of the device database *)

Module SearchFacts.
Import DeviceIdentifier DeviceSearch.

#[local] Set Warnings "-inexact-float".

Section WithDistance.

Variable distance : option (string -> string -> Z).

Lemma lower_field_of_dict (device_info : pyval) (key : string) (v : pyval) :
  lower_field device_info key = Ok v -> exists d, device_info = PDict d.
Proof. destruct device_info; try discriminate. eauto. Qed.

(** [device_info] is a description listed in [table]. *)
Definition listed (table : dict) (device_info : pyval) : Prop :=
  exists device_id d, In (device_id, device_info) table /\ device_info = PDict d.

Lemma listed_cons (entry : string * pyval) (table : dict) (device_info : pyval) :
  listed table device_info -> listed (entry :: table) device_info.
Proof. intros (i & d & Hin & Hd). exists i, d. split; [now right|exact Hd]. Qed.

Lemma listed_head (device_id : string) (device_info v : pyval) (key : string)
    (table : dict) :
  lower_field device_info key = Ok v -> listed ((device_id, device_info) :: table) device_info.
Proof.
  intros H. destruct (lower_field_of_dict _ _ _ H) as [d Hd].
  exists device_id, d. split; [now left|exact Hd].
Qed.

Lemma exact_match_listed (make_lower model_lower : string) (table : dict) (v : pyval) :
  exact_match make_lower model_lower table = Ok (Some v) -> listed table v.
Proof.
  induction table as [|[device_id device_info] table IH]; cbn [exact_match]; [discriminate|].
  destruct (lower_field device_info "make") as [a|] eqn:A; cbn [bind]; [|discriminate].
  destruct (lower_field device_info "model") as [b|] eqn:B; cbn [bind]; [|discriminate].
  destruct (eq_str a make_lower && eq_str b model_lower).
  - intros [= <-]. eapply listed_head; eauto.
  - intros H. apply listed_cons; auto.
Qed.

Lemma close_match_listed (make_lower model_lower : string) (table : dict) (v : pyval) :
  close_match distance make_lower model_lower table = Ok (Some v) -> listed table v.
Proof.
  induction table as [|[device_id device_info] table IH]; cbn [close_match]; [discriminate|].
  destruct (lower_field device_info "make") as [a|] eqn:A; cbn [bind]; [|discriminate].
  destruct (lower_field device_info "model") as [b|] eqn:B; cbn [bind]; [|discriminate].
  destruct (if eq_str a make_lower then similar_model distance b model_lower else Ok false)
    as [[|]|]; cbn [bind]; [| |discriminate].
  - intros [= <-]. eapply listed_head; eauto.
  - intros H. apply listed_cons; auto.
Qed.

Lemma best_match_listed (make_lower model_lower : string) (table : dict) :
  forall best best_score v,
    best_match distance make_lower model_lower table best best_score = Ok (Some v) ->
    best = Some v \/ listed table v.
Proof.
  induction table as [|[device_id device_info] table IH]; intros best best_score v;
    cbn [best_match].
  - intros [= ->]. now left.
  - destruct (lower_field device_info "make") as [a|] eqn:A; cbn [bind]; [|discriminate].
    destruct (lower_field device_info "model") as [b|] eqn:B; cbn [bind]; [|discriminate].
    destruct (field_similarity distance a make_lower) as [x|]; cbn [bind]; [|discriminate].
    destruct (field_similarity distance b model_lower) as [y|]; cbn [bind]; [|discriminate].
    match goal with |- context [if ?c then _ else _] => destruct c end; intros H.
    + destruct (IH _ _ _ H) as [[= <-]|Hl].
      * right. eapply listed_head; eauto.
      * right. now apply listed_cons.
    + destruct (IH _ _ _ H) as [Hb|Hl]; [now left|right; now apply listed_cons].
Qed.

(** X17.  What [_lookup_device_in_database] returns over a loaded
    document, when it returns: nothing, or the formatted description of a
    device that is listed in the table of the category searched (phones
    for a smartphone or a tablet, cameras otherwise).  None of the three
    rounds makes a description up or takes one from another category. *)
Theorem lookup_returns_a_listed_device (device_db : dict) (make model : option string)
    (device_type : pyval) (r : dict) :
  _lookup_device_in_database (db := database distance device_db) make model device_type
    = Ok r ->
  r = [] \/
  exists table device_id device_info,
    Dict.get device_db (db_category device_type) = Some (PDict table) /\
    In (device_id, PDict device_info) table /\
    r = DeviceDatabase._format_db_device_info device_info.
Proof.
  unfold _lookup_device_in_database.
  destruct (negb (some_text make) || negb (some_text model) || db_empty);
    [intros [= <-]; now left|].
  cbn [db_search database]. unfold search.
  destruct (Dict.get device_db (db_category device_type)) as [[| | | | | | | |table| |]|];
    try discriminate; [|intros [= <-]; now left].
  assert (L : forall v, listed table v ->
              r = formatted v ->
              r = [] \/
              exists table' device_id device_info,
                Some (PDict table) = Some (PDict table') /\
                In (device_id, PDict device_info) table' /\
                r = DeviceDatabase._format_db_device_info device_info).
  { intros v (i & d & Hin & ->) ->. right. exists table, i, d. auto. }
  destruct (exact_match _ _ table) as [[v|]|] eqn:E; cbn [bind]; [| |discriminate].
  { intros [= <-]. apply (L v); [eapply exact_match_listed; eauto|reflexivity]. }
  destruct (close_match _ _ _ table) as [[v|]|] eqn:C; cbn [bind]; [| |discriminate].
  { intros [= <-]. apply (L v); [eapply close_match_listed; eauto|reflexivity]. }
  destruct (best_match _ _ _ table None _) as [[v|]|] eqn:B; cbn [bind]; [| |discriminate].
  - destruct (truthy v); intros [= <-]; [|now left].
    destruct (best_match_listed _ _ _ _ _ _ B) as [|Hl]; [discriminate|].
    apply (L v); auto.
  - intros [= <-]. now left.
Qed.

(** The description has the make and the model that are looked for, in
    any letter case. *)
Definition described (make model : string) (device_info : pyval) : Prop :=
  lower_field device_info "make" = Ok (PStr (Str.lower make)) /\
  lower_field device_info "model" = Ok (PStr (Str.lower model)).

(** The make and the model of the description can be read. *)
Definition readable (device_info : pyval) : Prop :=
  exists a b, lower_field device_info "make" = Ok a /\
              lower_field device_info "model" = Ok b.

Lemma eq_str_true (v : pyval) (s : string) : eq_str v s = true <-> v = PStr s.
Proof.
  destruct v; cbn [eq_str]; try (split; [discriminate|now intros [=]]).
  rewrite String.eqb_eq. split; [now intros ->|now intros [= ->]].
Qed.

Lemma exact_match_first (make model : string) (before after : dict)
    (device_id : string) (device_info : pyval) :
  Forall (fun entry => readable (snd entry) /\ ~ described make model (snd entry)) before ->
  described make model device_info ->
  exact_match (Str.lower make) (Str.lower model)
    (before ++ (device_id, device_info) :: after)%list = Ok (Some device_info).
Proof.
  intros Hb [Hmake Hmodel].
  induction Hb as [|[i v] before [(a & b & Ha & Hb') Hn] _ IH]; cbn [app exact_match].
  - rewrite Hmake, Hmodel. cbn [bind eq_str]. now rewrite !String.eqb_refl.
  - cbn [snd] in *. rewrite Ha, Hb'. cbn [bind].
    destruct (eq_str a (Str.lower make) && eq_str b (Str.lower model)) eqn:E; [|exact IH].
    exfalso. apply Hn. apply andb_true_iff in E. destruct E as [E1 E2].
    apply eq_str_true in E1. apply eq_str_true in E2. subst. now split.
Qed.

(** X18.  An exact description wins.  When every description before a
    device in the table can be read and is not of the make and model
    looked for, and the device is of that make and model in any letter
    case, the search returns that device, formatted: descriptions that
    are only close, before it or after it, are not considered. *)
Theorem exact_description_wins (device_db : dict) (make model : string)
    (device_type : pyval) (before after : dict) (device_id : string)
    (device_info : pyval) :
  Dict.get device_db (db_category device_type) =
    Some (PDict (before ++ (device_id, device_info) :: after)%list) ->
  Forall (fun entry => readable (snd entry) /\ ~ described make model (snd entry)) before ->
  described make model device_info ->
  search distance device_db make model device_type = Ok (formatted device_info).
Proof.
  intros Hg Hb Hd. unfold search. rewrite Hg.
  now rewrite (exact_match_first make model before after device_id device_info Hb Hd).
Qed.

Lemma startswith_refl (s : string) : Str.startswith s s = true.
Proof. induction s as [|c s IH]; cbn; [reflexivity|]. now rewrite Ascii.eqb_refl. Qed.

Lemma contains_refl (s : string) : Str.contains s s = true.
Proof. destruct s; cbn [Str.contains]; now rewrite startswith_refl. Qed.

Lemma equal_positions_sym (l1 : list string) :
  forall l2, equal_positions l1 l2 = equal_positions l2 l1.
Proof.
  induction l1 as [|a l1 IH]; intros [|b l2]; cbn [equal_positions]; auto.
  now rewrite IH, String.eqb_sym.
Qed.

Lemma lower_nonempty (s : string) : Str.nonempty (Str.lower s) = Str.nonempty s.
Proof. now destruct s. Qed.

End WithDistance.

(** X19.  [_string_similarity] at its edges.  It is 0 when one of the
    texts is empty, and 0.9 when one text contains the other in lower
    case; so the similarity of a text with itself is 0.9, never 1.
    Without the Levenshtein library it does not depend on the order of
    its arguments. *)
Theorem similarity_of_near_texts (distance : option (string -> string -> Z))
    (s1 s2 : string) :
  _string_similarity distance s1 "" = Ok 0%float /\
  _string_similarity distance "" s2 = Ok 0%float /\
  (Str.nonempty s1 = true -> Str.nonempty s2 = true ->
   Str.contains (Str.lower s1) (Str.lower s2) = true \/
   Str.contains (Str.lower s2) (Str.lower s1) = true ->
   _string_similarity distance s1 s2 = Ok 0.9%float) /\
  (Str.nonempty s1 = true -> _string_similarity distance s1 s1 = Ok 0.9%float) /\
  _string_similarity None s1 s2 = _string_similarity None s2 s1.
Proof.
  unfold _string_similarity. repeat split.
  - now rewrite orb_true_r.
  - intros -> -> [H|H]; rewrite H; cbn [negb orb]; [reflexivity|now rewrite orb_true_r].
  - intros ->. now rewrite contains_refl.
  - rewrite (orb_comm (negb (Str.nonempty s1))).
    rewrite (orb_comm (Str.contains (Str.lower s1) (Str.lower s2))).
    rewrite Z.max_comm, equal_positions_sym. reflexivity.
Qed.

(** A small document: the first camera is close to the second one. *)
Definition camera_shop : dict :=
  [("cameras",
    PDict [("canon_5d4", PDict [("make", PStr "Canon"); ("model", PStr "EOS 5D Mark IV");
                                ("sensor_type", PStr "CMOS"); ("lens_mount", PStr "")]);
           ("canon_5d", PDict [("make", PStr "Canon"); ("model", PStr "EOS 5D");
                               ("sensor_type", PStr "CMOS")])]);
   ("phones",
    PDict [("iphone_13_pro", PDict [("make", PStr "Apple"); ("model", PStr "iPhone 13 Pro")])])].

Lemma lookup_returns_a_listed_device_witness :
  [("Manufacturer", PStr "Canon"); ("FullModel", PStr "EOS 5D Mark IV");
   ("SensorType", PStr "CMOS")] = [] \/
  exists table device_id device_info,
    Dict.get camera_shop (db_category (PStr "Camera")) = Some (PDict table) /\
    In (device_id, PDict device_info) table /\
    [("Manufacturer", PStr "Canon"); ("FullModel", PStr "EOS 5D Mark IV");
     ("SensorType", PStr "CMOS")] = DeviceDatabase._format_db_device_info device_info.
Proof.
  apply (lookup_returns_a_listed_device None camera_shop (Some "Canom")
           (Some "EOS 6D Mark IV") (PStr "Camera")).
  vm_compute. reflexivity.
Defined.

Lemma exact_description_wins_witness :
  search None camera_shop "CANON" "eos 5d" (PStr "Camera") =
  Ok [("Manufacturer", PStr "Canon"); ("FullModel", PStr "EOS 5D");
      ("SensorType", PStr "CMOS")].
Proof.
  apply (exact_description_wins None camera_shop "CANON" "eos 5d" (PStr "Camera")
           [("canon_5d4", PDict [("make", PStr "Canon"); ("model", PStr "EOS 5D Mark IV");
                                 ("sensor_type", PStr "CMOS"); ("lens_mount", PStr "")])]
           [] "canon_5d"
           (PDict [("make", PStr "Canon"); ("model", PStr "EOS 5D");
                   ("sensor_type", PStr "CMOS")])).
  - reflexivity.
  - constructor; [|constructor]. split.
    + exists (PStr "canon"), (PStr "eos 5d mark iv"). split; reflexivity.
    + intros [_ H]. vm_compute in H. discriminate H.
  - split; reflexivity.
Defined.

Example lookups_in_a_camera_shop :
  search None camera_shop "Canon" "EOS 5" (PStr "Camera") =
    Ok [("Manufacturer", PStr "Canon"); ("FullModel", PStr "EOS 5D Mark IV");
        ("SensorType", PStr "CMOS")] /\
  search None camera_shop "Apple" "iPhone 13 Pro" (PStr "Camera") = Ok [] /\
  search None camera_shop "Apple" "iPhone 13 Pro" (PStr "Tablet") =
    Ok [("Manufacturer", PStr "Apple"); ("FullModel", PStr "iPhone 13 Pro")] /\
  search None camera_shop "Apple" "iPhone" (PStr "Lens") = Ok [] /\
  search None [("cameras", PList [])] "Canon" "EOS" PNone = Raise AttributeError /\
  search None [("cameras", PDict [("x", PDict [("make", PInt 7)])])] "Canon" "EOS" PNone =
    Raise AttributeError /\
  _string_similarity None "abcd" "abxd" = Ok 0.75%float.
Proof. repeat split; vm_compute; reflexivity. Qed.

End SearchFacts.
